(** * manosaba-textbox: a shallow embedding of the orchestration core

    The development follows the Python sources:
    - [core.py]                  : canvas size, the sentiment branch and the
                                   clipboard capture/dispatch pipeline;
    - [load_utils.py]            : the four cache partitions, the safe loaders
                                   and the preload worker;
    - [utils/sentiment_analyzer.py] : the sentiment client and its handshake.

    Python objects that are shared by reference (decoded images, fonts) live
    in an explicit heap; a cache partition maps a key to a heap location.
    Code that can raise returns a [result]. *)

From Stdlib Require Import ZArith Floats Lia Ascii.
From stdpp Require Import base option strings gmap list pretty.

Set Warnings "-inexact-float".

Local Open Scope string_scope.
Local Open Scope list_scope.
Local Open Scope Z_scope.

(** ** Python-level helpers shared by the modules *)

Module Py.

(** Exceptions that the modelled code raises or lets through. *)
Inductive exn : Type :=
| FileNotFoundError (msg : string)
| OSError (msg : string)
| UnidentifiedImageError (msg : string)
| ValueError (msg : string)
| TypeError (msg : string)
| ZeroDivisionError (msg : string)
| OverflowError (msg : string)
| AttributeError (msg : string)
| ConnectionError (msg : string)
| KeyError (key : string)
| UnboundLocalError (name : string).

Inductive result (A : Type) : Type :=
| Ok (a : A)
| Raise (e : exn).
Arguments Ok {A} a.
Arguments Raise {A} e.

Definition is_FileNotFoundError (e : exn) : bool :=
  match e with FileNotFoundError _ => true | _ => false end.

(** [s[:-n]] for [n > 0]. *)
Definition drop_end (n : nat) (s : string) : string :=
  String.substring 0 (String.length s - n)%nat s.

(** [s.rsplit(sep, 1)[0]]: everything before the last [sep], or [s]
    itself when [sep] does not occur. *)
Fixpoint before_last (sep : Ascii.ascii) (s : string) : option string :=
  match s with
  | EmptyString => None
  | String c r =>
      match before_last sep r with
      | Some p => Some (String c p)
      | None => if Ascii.eqb c sep then Some EmptyString else None
      end
  end.

Definition rsplit1_head (sep : Ascii.ascii) (s : string) : string :=
  default s (before_last sep s).

(** [float(z)] for the integers that occur as image sizes (below 2^53,
    where the conversion is exact). *)
Definition float_of_Z (z : Z) : PrimFloat.float :=
  if z <? 0 then PrimFloat.opp (PrimFloat.of_uint63 (Uint63.of_Z (- z)))
  else PrimFloat.of_uint63 (Uint63.of_Z z).

(** [int(f)]: truncation toward zero; [int] of an infinity raises
    [OverflowError] and of a NaN [ValueError]. *)
Definition int_of_float (f : PrimFloat.float) : result Z :=
  match FloatOps.Prim2SF f with
  | S754_zero _ => Ok 0
  | S754_finite s m e =>
      let v := if 0 <=? e then Z.pos m * 2 ^ e else Z.pos m / 2 ^ (- e) in
      Ok (if s then - v else v)
  | S754_infinity _ => Raise (OverflowError "cannot convert float infinity to integer")
  | S754_nan => Raise (ValueError "cannot convert float NaN to integer")
  end.

(** A Python int handed to C code as an [int] (format [i] of
    [PyArg_ParseTuple]) or as a [long long] (format [L]): outside the
    32-bit, respectively 64-bit, range the conversion raises
    [OverflowError].  The texts are those of CPython 3.12 on a host whose
    C [long] has 64 bits. *)
Definition c_int (z : Z) : result Z :=
  if (z <? - 2 ^ 63) || (2 ^ 63 <=? z)
  then Raise (OverflowError "Python int too large to convert to C long")
  else if 2 ^ 31 <=? z
  then Raise (OverflowError "signed integer is greater than maximum")
  else if z <? - 2 ^ 31
  then Raise (OverflowError "signed integer is less than minimum")
  else Ok z.

Definition c_long_long (z : Z) : result Z :=
  if (z <? - 2 ^ 63) || (2 ^ 63 <=? z)
  then Raise (OverflowError "int too big to convert")
  else Ok z.

(** [repr(s)] of a string of ASCII characters and printable characters
    beyond ASCII: double quotes when [s] holds a single quote and no
    double quote, single quotes otherwise; the backslash, the quote in
    use, the tab, the line feed and the carriage return are escaped with a
    backslash, the other control characters by their two hexadecimal
    digits. *)
Definition hex_digit (n : nat) : Ascii.ascii :=
  Ascii.ascii_of_nat (if (n <? 10)%nat then 48 + n else 87 + n).

Definition backslash : Ascii.ascii := Ascii.ascii_of_nat 92.
Definition single_quote : Ascii.ascii := Ascii.ascii_of_nat 39.
Definition double_quote : Ascii.ascii := Ascii.ascii_of_nat 34.

Definition escaped (c : Ascii.ascii) : string :=
  String backslash (String c EmptyString).

Definition repr_char (quote : Ascii.ascii) (c : Ascii.ascii) : string :=
  let n := Ascii.nat_of_ascii c in
  if Ascii.eqb c backslash then escaped backslash
  else if Ascii.eqb c quote then escaped quote
  else if (n =? 9)%nat then escaped "t"%char
  else if (n =? 10)%nat then escaped "n"%char
  else if (n =? 13)%nat then escaped "r"%char
  else if (n <? 32)%nat || (n =? 127)%nat
  then String backslash
         (String "x"%char
            (String (hex_digit (n / 16)) (String (hex_digit (n mod 16)) EmptyString)))
  else String c EmptyString.

Fixpoint has_char (c : Ascii.ascii) (s : string) : bool :=
  match s with
  | EmptyString => false
  | String c' rest => Ascii.eqb c c' || has_char c rest
  end.

Fixpoint repr_body (quote : Ascii.ascii) (s : string) : string :=
  match s with
  | EmptyString => EmptyString
  | String c rest => repr_char quote c +:+ repr_body quote rest
  end.

Definition repr (s : string) : string :=
  let quote :=
    if has_char single_quote s && negb (has_char double_quote s) then double_quote
    else single_quote in
  String quote (repr_body quote s +:+ String quote EmptyString).

(** [needle in hay] on strings. *)
Fixpoint contains (needle hay : string) : bool :=
  String.prefix needle hay ||
  match hay with
  | EmptyString => false
  | String _ rest => contains needle rest
  end.

(** [s.startswith(p)] *)
Definition startswith (s p : string) : bool := String.prefix p s.

(** Strings hold text in UTF-8.  [whitespace] lists the encodings of the
    characters for which [str.isspace] holds: U+0009..U+000D,
    U+001C..U+0020, U+0085, U+00A0, U+1680, U+2000..U+200A, U+2028,
    U+2029, U+202F, U+205F and U+3000. *)
Definition bytes (l : list nat) : string :=
  foldr (fun n s => String (Ascii.ascii_of_nat n) s) EmptyString l.

Definition whitespace : list string :=
  map bytes
    (List.app
       [[9]; [10]; [11]; [12]; [13]; [28]; [29]; [30]; [31]; [32];
        [194; 133]; [194; 160]; [225; 154; 128]]
       (List.app
          (map (fun k => [226; 128; k]) (seq 128 11))
          [[226; 128; 168]; [226; 128; 169]; [226; 128; 175];
           [226; 129; 159]; [227; 128; 128]]))%nat.

(** Drop one leading character if it is one of [ws]. *)
Fixpoint drop_leading (ws : list string) (s : string) : option string :=
  match ws with
  | [] => None
  | w :: ws' =>
      if String.prefix w s
      then Some (String.substring (String.length w)
                   (String.length s - String.length w)%nat s)
      else drop_leading ws' s
  end.

Fixpoint lstrip_with (ws : list string) (fuel : nat) (s : string) : string :=
  match fuel with
  | O => s
  | S fuel' =>
      match drop_leading ws s with
      | Some rest => lstrip_with ws fuel' rest
      | None => s
      end
  end.

(** [s.lstrip()], [s.rstrip()] and [s.strip()]; every dropped character
    is at least one byte, so [length s] rounds are enough. *)
Definition lstrip (s : string) : string :=
  lstrip_with whitespace (String.length s) s.
Definition rstrip (s : string) : string :=
  String.rev (lstrip_with (map String.rev whitespace) (String.length s) (String.rev s)).
Definition strip (s : string) : string := rstrip (lstrip s).

(** Truth value of a string: [bool(s)]. *)
Definition nonempty (s : string) : bool :=
  match s with EmptyString => false | _ => true end.

End Py.

(** ** core.py: canvas size *)

Module Canvas.

(** [_calculate_canvas_size]; the argument is
    [CONFIGS.style.aspect_ratio]. *)
Definition _calculate_canvas_size (ratio : string) : Z * Z :=
  let height :=
    if decide (ratio = "5:4") then 2048
    else if decide (ratio = "16:9") then 1440
    else 854 in
  (2560, height).

End Canvas.

(** ** The part of the configuration snapshot ([config.CONFIGS]) the core reads *)

Module Config.

(** One entry of [CONFIGS.mahoshojo]: a character's dictionary.  The keys
    that are not [full_name] or [emotion_count] are looked up by sentiment
    word and give lists of emotion indices. *)
Record Character : Type := mkCharacter {
  full_name : option string;
  emotion_count : option Z;
  by_sentiment : gmap string (list Z)
}.

End Config.

(** ** load_utils.py: cache partitions and loaders *)

Module LoadUtils.
Import Py.

(** *** Images, fonts, files and the object heap *)

Definition RGBA : Type := Z * Z * Z * Z.
Definition alpha (c : RGBA) : Z := snd c.

(** A decoded RGBA image: its size and its pixels. *)
Record Image : Type := mkImage {
  width : Z;
  height : Z;
  pixel : Z -> Z -> RGBA
}.

Record Font : Type := mkFont {
  font_file : string;
  font_size : Z
}.

Inductive File : Type :=
| ImageFile (img : Image)
| FontFile
| OtherFile.

Inductive Obj : Type :=
| ImgObj (img : Image)
| FontObj (f : Font).

(** The module-level state of [load_utils]: the heap of live objects and
    the four dictionaries, each from a cache key to an object reference. *)
Record Store : Type := mkStore {
  heap : gmap positive Obj;
  _font_cache : gmap string positive;
  _background_cache : gmap string positive;
  _character_cache : gmap string positive;
  _general_image_cache : gmap string positive
}.

Definition empty_store : Store := mkStore ∅ ∅ ∅ ∅ ∅.

Definition set_heap (h : gmap positive Obj) (st : Store) : Store :=
  mkStore h (_font_cache st) (_background_cache st) (_character_cache st)
    (_general_image_cache st).
Definition set_font_cache (c : gmap string positive) (st : Store) : Store :=
  mkStore (heap st) c (_background_cache st) (_character_cache st)
    (_general_image_cache st).
Definition set_background_cache (c : gmap string positive) (st : Store) : Store :=
  mkStore (heap st) (_font_cache st) c (_character_cache st)
    (_general_image_cache st).
Definition set_character_cache (c : gmap string positive) (st : Store) : Store :=
  mkStore (heap st) (_font_cache st) (_background_cache st) c
    (_general_image_cache st).
Definition set_general_image_cache (c : gmap string positive) (st : Store) : Store :=
  mkStore (heap st) (_font_cache st) (_background_cache st)
    (_character_cache st) c.

(** An image is fully transparent when every pixel inside its bounds has
    alpha 0. *)
Definition fully_transparent (img : Image) : Prop :=
  forall x y, 0 <= x < width img -> 0 <= y < height img ->
              alpha (pixel img x y) = 0.

(** *** Partitions, masters and caller-side mutation *)

Inductive Partition : Type :=
| PFont
| PBackground
| PCharacter
| PGeneral.

#[global] Instance Partition_eq_dec : EqDecision Partition.
Proof. solve_decision. Defined.

Definition cache_of (p : Partition) (st : Store) : gmap string positive :=
  match p with
  | PFont => _font_cache st
  | PBackground => _background_cache st
  | PCharacter => _character_cache st
  | PGeneral => _general_image_cache st
  end.

Definition set_cache_of (p : Partition) (c : gmap string positive) (st : Store)
  : Store :=
  match p with
  | PFont => set_font_cache c st
  | PBackground => set_background_cache c st
  | PCharacter => set_character_cache c st
  | PGeneral => set_general_image_cache c st
  end.

(** A cached master: an object some partition refers to. *)
Definition master (st : Store) (l : positive) : Prop :=
  exists p key, cache_of p st !! key = Some l.

(** Every reference held by a partition points to a live object. *)
Definition wf (st : Store) : Prop :=
  forall p key l, cache_of p st !! key = Some l -> is_Some (heap st !! l).

(** A caller changing, in place, the object it was handed. *)
Definition mutate (l : positive) (g : Obj -> Obj) (st : Store) : Store :=
  set_heap (alter g l (heap st)) st.

(** What a read of an image partition can do to the store: hand out a new
    copy of the cached master, decode and cache a master and hand out a new
    copy of it, hand out a new uncached image, or raise and leave the store
    alone. *)
Inductive image_get (p : Partition) (key : string) (st : Store)
  : Py.result positive -> Store -> Prop :=
| get_hit m img :
    cache_of p st !! key = Some m ->
    heap st !! m = Some (ImgObj img) ->
    image_get p key st
      (Py.Ok (fresh (dom (heap st))))
      (set_heap (<[fresh (dom (heap st)) := ImgObj img]> (heap st)) st)
| get_fill img :
    cache_of p st !! key = None ->
    image_get p key st
      (Py.Ok (fresh (dom (<[fresh (dom (heap st)) := ImgObj img]> (heap st)))))
      (set_heap
         (<[fresh (dom (<[fresh (dom (heap st)) := ImgObj img]> (heap st)))
            := ImgObj img]>
            (<[fresh (dom (heap st)) := ImgObj img]> (heap st)))
         (set_cache_of p (<[key := fresh (dom (heap st))]> (cache_of p st)) st))
| get_placeholder img :
    cache_of p st !! key = None ->
    image_get p key st
      (Py.Ok (fresh (dom (heap st))))
      (set_heap (<[fresh (dom (heap st)) := ImgObj img]> (heap st)) st)
| get_raise e :
    image_get p key st (Py.Raise e) st.

(** *** A state-and-exception monad for the loaders *)

Definition M (A : Type) : Type := Store -> result A * Store.

Definition ret {A} (a : A) : M A := fun st => (Ok a, st).
Definition raise {A} (e : exn) : M A := fun st => (Raise e, st).
Definition lift {A} (r : result A) : M A := fun st => (r, st).
Definition bind {A B} (m : M A) (k : A -> M B) : M B :=
  fun st =>
    match m st with
    | (Ok a, st') => k a st'
    | (Raise e, st') => (Raise e, st')
    end.
Definition modify (f : Store -> Store) : M unit := fun st => (Ok tt, f st).

(** [try: body except <matching>: handler]; whatever the body did to the
    store before raising stays done. *)
Definition try_except {A} (body : M A) (matching : exn -> bool)
           (handler : M A) : M A :=
  fun st =>
    match body st with
    | (Raise e, st') => if matching e then handler st' else (Raise e, st')
    | r => r
    end.

Declare Scope load_scope.
Delimit Scope load_scope with load.
Notation "x <- m ;; k" := (bind m (fun x => k))
  (at level 100, m at next level, right associativity) : load_scope.
Notation "m ;;; k" := (bind m (fun _ => k))
  (at level 100, right associativity) : load_scope.
Local Open Scope load_scope.

(** A new object gets a location that is not in use. *)
Definition alloc (o : Obj) : M positive :=
  fun st =>
    let l := fresh (dom (heap st)) in
    (Ok l, set_heap (<[l := o]> (heap st)) st).

(** [img.copy()] through a reference. *)
Definition Image_copy (l : positive) : M positive :=
  fun st =>
    match heap st !! l with
    | Some (ImgObj img) => alloc (ImgObj img) st
    | _ => (Raise (AttributeError "copy"), st)
    end.

(** [cache[key]] *)
Definition subscript (cache : Store -> gmap string positive) (key : string)
  : M positive :=
  fun st =>
    match cache st !! key with
    | Some l => (Ok l, st)
    | None => (Raise (KeyError key), st)
    end.

(** The ink of an RGBA image for a colour tuple: a single element is a
    packed colour (red in the low byte, alpha in the fourth), three
    elements are opaque (alpha 255), and every band is clipped to
    [0..255]. *)
Definition clip8 (v : Z) : Z := if v <=? 0 then 0 else if v <? 256 then v else 255.

Definition getink (color : list Z) : result RGBA :=
  match color with
  | [c] =>
      match c_long_long c with
      | Ok c =>
          Ok (Z.land c 255, Z.land (Z.shiftr c 8) 255, Z.land (Z.shiftr c 16) 255,
              Z.land (Z.shiftr c 24) 255)
      | Raise e => Raise e
      end
  | [r; g; b] =>
      match c_long_long r, c_int g, c_int b with
      | Ok r, Ok g, Ok b => Ok (clip8 r, clip8 g, clip8 b, 255)
      | Raise e, _, _ | _, Raise e, _ | _, _, Raise e => Raise e
      end
  | [r; g; b; a] =>
      match c_long_long r, c_int g, c_int b, c_int a with
      | Ok r, Ok g, Ok b, Ok a => Ok (clip8 r, clip8 g, clip8 b, clip8 a)
      | Raise e, _, _, _ | _, Raise e, _, _ | _, _, Raise e, _ | _, _, _, Raise e =>
          Raise e
      end
  | _ => Raise (TypeError "color must be int, or tuple of one, three or four elements")
  end.

(** [Image.new("RGBA", size, color)] for a pair of ints and a tuple of
    ints: the size is checked first, then handed to the C code, which
    fills the image with the ink of the colour.  Memory is not a resource
    of the model: the allocation succeeds. *)
Definition Image_new (size : Z * Z) (color : list Z) : result Image :=
  if (size.1 <? 0) || (size.2 <? 0)
  then Raise (ValueError "Width and height must be >= 0")
  else
    match c_int size.1, c_int size.2 with
    | Ok xsize, Ok ysize =>
        match getink color with
        | Ok ink => Ok (mkImage xsize ysize (fun _ _ => ink))
        | Raise e => Raise e
        end
    | Raise e, _ | _, Raise e => Raise e
    end.

Section Loaders.

(** The file system, as seen during a call. *)
Variable fs : gmap string File.
(** [path_utils.get_resource_path], [path_utils.get_font_path] and
    [os.path.join] (which depends on the host). *)
Variable get_resource_path : string -> string.
Variable get_font_path : string -> string.
Variable os_path_join : list string -> string.
(** Whether [ImageFont.truetype] finds a font of that file name in the
    system font directories when the path itself does not exist. *)
Variable system_font : string -> bool.
(** The pixels [img.resize(size, Image.Resampling.LANCZOS)] produces. *)
Variable lanczos : Z * Z -> Image -> Z -> Z -> RGBA.
(** [CONFIGS.current_character.get("scale", 1.0)] *)
Variable character_scale : PrimFloat.float.

Definition path_exists (path : string) : bool :=
  match fs !! path with Some _ => true | None => false end.

(** [Image.open(path).convert("RGBA")] *)
Definition Image_open_convert (path : string) : result Image :=
  match fs !! path with
  | Some (ImageFile img) => Ok img
  | Some _ => Raise (UnidentifiedImageError path)
  | None => Raise (FileNotFoundError path)
  end.

(** [ImageFont.truetype(path, size=size)]: a size that is not positive is
    refused before the file is looked at; a path that cannot be opened as
    a font is looked for, by its file name, in the system font
    directories, and the error of the first attempt is raised when
    nothing is found there. *)
Definition truetype (path : string) (size : Z) : result Font :=
  if size <=? 0
  then Raise (ValueError ("font size must be greater than 0, not " +:+ pretty size))
  else
    match fs !! path with
    | Some FontFile => Ok (mkFont path size)
    | Some _ =>
        if system_font path then Ok (mkFont path size)
        else Raise (OSError "unknown file format")
    | None =>
        if system_font path then Ok (mkFont path size)
        else Raise (OSError "cannot open resource")
    end.

(** [img.resize(size, Image.Resampling.LANCZOS)]: asked for its own
    size, the image is copied as it is; otherwise the size is handed to
    the C code, which refuses a side below 1.  As in [Image_new], the
    allocation succeeds. *)
Definition resize (img : Image) (size : Z * Z) : result Image :=
  if decide ((width img, height img) = size) then Ok img
  else
    match c_int size.1, c_int size.2 with
    | Ok xsize, Ok ysize =>
        if (xsize <? 1) || (ysize <? 1)
        then Raise (ValueError "height and width must be > 0")
        else Ok (mkImage xsize ysize (lanczos size img))
    | Raise e, _ | _, Raise e => Raise e
    end.

Definition supported_formats : list string :=
  [".png"; ".jpg"; ".jpeg"; ".bmp"; ".gif"; ".webp"].

(** The path tried by [get_image_path] for one extension. *)
Definition candidate (base_name sub_dir ext : string) : string :=
  if decide (sub_dir = "")
  then get_resource_path (base_name +:+ ext)
  else get_resource_path (os_path_join ["assets"; sub_dir; base_name +:+ ext]).

Fixpoint first_existing (base_name sub_dir : string) (with_ext : bool)
         (exts : list string) : option string :=
  match exts with
  | [] => None
  | ext :: rest =>
      let path := candidate base_name sub_dir ext in
      if path_exists path
      then Some (if with_ext then path else drop_end (String.length ext) path)
      else first_existing base_name sub_dir with_ext rest
  end.

Definition get_image_path (base_name sub_dir : string) (with_ext : bool)
  : string :=
  match first_existing base_name sub_dir with_ext supported_formats with
  | Some p => p
  | None => candidate base_name sub_dir ".png"
  end.

Definition get_background_path (background_name : string) : string :=
  get_image_path background_name "background" true.

Definition get_character_path (character_name : string) (emotion_index : Z)
  : string :=
  let base_name := character_name +:+ " (" +:+ pretty emotion_index +:+ ")" in
  get_image_path base_name (os_path_join ["chara"; character_name]) true.

(** The "scale to width 2560, keep proportions" step that
    [load_background_safe] applies to a decoded file and to its default
    image alike:
    [width_ratio = target_width / img.width;
     new_height = int(img.height * width_ratio)] in floating point. *)
Definition scale_to_width (target_width : Z) (img : Image) : result Image :=
  if decide (width img = target_width) then Ok img
  else if decide (width img = 0) then Raise (ZeroDivisionError "division by zero")
  else
    let width_ratio :=
      PrimFloat.div (float_of_Z target_width) (float_of_Z (width img)) in
    match int_of_float (PrimFloat.mul (float_of_Z (height img)) width_ratio) with
    | Ok new_height => resize img (target_width, new_height)
    | Raise e => Raise e
    end.

(** The scaling step of [load_character_safe]. *)
Definition apply_scale (scale : PrimFloat.float) (img : Image) : result Image :=
  if PrimFloat.eqb scale 1%float then Ok img
  else
    match int_of_float (PrimFloat.mul (float_of_Z (width img)) scale),
          int_of_float (PrimFloat.mul (float_of_Z (height img)) scale) with
    | Ok new_width, Ok new_height => resize img (new_width, new_height)
    | Raise e, _ => Raise e
    | _, Raise e => Raise e
    end.

(** [load_font_cached] *)
Definition load_font_cached (font_name : string) (size : Z) : M positive :=
  let cache_key := font_name +:+ "_" +:+ pretty size in
  fun st =>
    match _font_cache st !! cache_key with
    | None =>
        let font_path := get_font_path font_name in
        if path_exists font_path then
          match truetype font_path size with
          | Ok f =>
              (l <- alloc (FontObj f);;
               modify (fun s => set_font_cache (<[cache_key := l]> (_font_cache s)) s);;;
               subscript _font_cache cache_key) st
          | Raise _ =>
              (f <- lift (truetype font_path size);; alloc (FontObj f)) st
          end
        else (f <- lift (truetype font_path size);; alloc (FontObj f)) st
    | Some _ => subscript _font_cache cache_key st
    end.

(** [load_image_cached] *)
Definition load_image_cached (image_path : string) : M positive :=
  let cache_key := image_path in
  (fun st =>
     match _general_image_cache st !! cache_key with
     | None =>
         if negb (String.eqb image_path "") && path_exists image_path then
           (img <- lift (Image_open_convert image_path);;
            l <- alloc (ImgObj img);;
            modify (fun s =>
              set_general_image_cache (<[cache_key := l]> (_general_image_cache s)) s)) st
         else raise (FileNotFoundError ("图片文件不存在: " +:+ image_path)) st
     | Some _ => ret tt st
     end);;;
  m <- subscript _general_image_cache cache_key;;
  Image_copy m.

(** The [except FileNotFoundError] branch of [load_background_safe]: the
    default image, scaled to width 2560 as well. *)
Definition default_background (default_size : Z * Z) (default_color : list Z)
  : M positive :=
  default_img <- lift (Image_new default_size default_color);;
  default_img <- lift (scale_to_width 2560 default_img);;
  alloc (ImgObj default_img).

(** [load_background_safe] *)
Definition load_background_safe (background_name : string)
           (default_size : Z * Z) (default_color : list Z) : M positive :=
  let background_path := get_background_path background_name in
  try_except
    (let cache_key := background_path in
     (fun st =>
        match _background_cache st !! cache_key with
        | None =>
            if path_exists background_path then
              (img <- lift (Image_open_convert background_path);;
               img <- lift (scale_to_width 2560 img);;
               l <- alloc (ImgObj img);;
               modify (fun s =>
                 set_background_cache (<[cache_key := l]> (_background_cache s)) s)) st
            else raise (FileNotFoundError ("背景图片文件不存在: " +:+ background_path)) st
        | Some _ => ret tt st
        end);;;
     m <- subscript _background_cache cache_key;;
     Image_copy m)
    is_FileNotFoundError
    (default_background default_size default_color).

(** The [except FileNotFoundError] branch of [load_character_safe]. *)
Definition default_character (default_size : Z * Z) (default_color : list Z)
  : M positive :=
  img <- lift (Image_new default_size default_color);;
  alloc (ImgObj img).

(** [load_character_safe] *)
Definition load_character_safe (character_name : string) (emotion_index : Z)
           (default_size : Z * Z) (default_color : list Z) : M positive :=
  let character_path := get_character_path character_name emotion_index in
  try_except
    (let cache_key := rsplit1_head "."%char character_path in
     (fun st =>
        match _character_cache st !! cache_key with
        | None =>
            if path_exists character_path then
              (img <- lift (Image_open_convert character_path);;
               result <- lift (apply_scale character_scale img);;
               l <- alloc (ImgObj result);;
               modify (fun s =>
                 set_character_cache (<[cache_key := l]> (_character_cache s)) s)) st
            else raise (FileNotFoundError ("角色图片文件不存在: " +:+ character_path)) st
        | Some _ => ret tt st
        end);;;
     m <- subscript _character_cache cache_key;;
     Image_copy m)
    is_FileNotFoundError
    (default_character default_size default_color).

(** The default arguments of the two safe loaders. *)
Definition background_default_size : Z * Z := (800, 600).
Definition background_default_color : list Z := [100; 100; 200].
Definition character_default_size : Z * Z := (800, 600).
Definition character_default_color : list Z := [0; 0; 0; 0].

(** The three image reads, with the loaders' default arguments, and the
    partition and key each one works on. *)
Inductive ImageRead : Type :=
| ReadGeneral (image_path : string)
| ReadBackground (background_name : string)
| ReadCharacter (character_name : string) (emotion_index : Z).

Definition read (r : ImageRead) : M positive :=
  match r with
  | ReadGeneral image_path => load_image_cached image_path
  | ReadBackground background_name =>
      load_background_safe background_name
        background_default_size background_default_color
  | ReadCharacter character_name emotion_index =>
      load_character_safe character_name emotion_index
        character_default_size character_default_color
  end.

Definition partition_of (r : ImageRead) : Partition :=
  match r with
  | ReadGeneral _ => PGeneral
  | ReadBackground _ => PBackground
  | ReadCharacter _ _ => PCharacter
  end.

Definition key_of (r : ImageRead) : string :=
  match r with
  | ReadGeneral image_path => image_path
  | ReadBackground background_name => get_background_path background_name
  | ReadCharacter character_name emotion_index =>
      rsplit1_head "."%char (get_character_path character_name emotion_index)
  end.

(** The cache key of [load_font_cached]. *)
Definition font_key (font_name : string) (size : Z) : string :=
  font_name +:+ "_" +:+ pretty size.

(** [clear_cache]: [dict.clear()] empties a partition; the objects it
    referred to are not touched. *)
Definition clear_cache (cache_type : string) (st : Store) : Store :=
  let st := if bool_decide (cache_type ∈ ["font"; "all"])
            then set_font_cache ∅ st else st in
  let st := if bool_decide (cache_type ∈ ["background"; "all"])
            then set_background_cache ∅ st else st in
  let st := if bool_decide (cache_type ∈ ["character"; "all"])
            then set_character_cache ∅ st else st in
  let st := if bool_decide (cache_type ∈ ["image"; "all"])
            then set_general_image_cache ∅ st else st in
  st.

(** *** PreloadManager

    The worker thread and the submitting thread share the depth-1 queue,
    the status that [get_preload_status] reads under the lock, and the
    caches.  The model interleaves them at the granularity of the
    accesses to what is shared: [submit] is one call of
    [preload_character_images_async] (only the worker could interfere,
    and it can only take the pending item, which then counts as
    started), and [worker_step] is the worker's next move: one access to
    the queue, one locked section or one call of the loader, with the
    worker's own work up to its next access. *)

(** [CONFIGS.mahoshojo] and
    [CONFIGS.gui_settings["preloading"]["preload_character"]]. *)
Variable mahoshojo : gmap string Config.Character.
Variable preload_character : bool.

(** What an observer sees: the arguments of [update_status] (one
    constructor per message format) and the calls of
    [load_character_safe]. *)
Inductive Event : Type :=
| Submitted (character_name : string)
| Skipped (character_name : string)
| NoConfig (character_name : string)
| Started (character_name : string)
| Interrupted (character_name : string)
| Load (character_name : string) (emotion_index : Z)
| Progress (character_name : string) (emotion_index emotion_count : Z)
| Completed (character_name : string)
| Failed (character_name : string).

(** Where the worker thread is: waiting on the queue; holding a name it
    took from the queue; past the first locked section of
    [_preload_character_task], with the emotion count read; before the
    check of the queue at the head of the loop; before the call of the
    loader; before the locked update of [loaded_items]; and in the
    exception handler, before its locked section. *)
Inductive Worker : Type :=
| Waiting
| Taken (character_name : string)
| Counted (character_name : string) (emotion_count : Z)
| LoopHead (character_name : string) (emotion_index emotion_count : Z)
| Loading (character_name : string) (emotion_index emotion_count : Z)
| Loaded (character_name : string) (emotion_index emotion_count : Z)
| Failing (character_name : string).

Record Preload : Type := mkPreload {
  _task_queue : option string;
  worker : Worker;
  store : Store;
  _current_character : option string;
  total_items : Z;
  loaded_items : Z;
  is_complete : bool;
  trace : list Event
}.

Definition initial_preload (st : Store) : Preload :=
  mkPreload None Waiting st None 0 0 false [].

(** [preload_character_images_async]: drop whatever is pending, put the
    new name.  With the queue emptied first, [put_nowait] cannot raise
    [queue.Full], so the call returns [True]. *)
Definition preload_character_images_async (character_name : string)
           (p : Preload) : bool * Preload :=
  (true,
   mkPreload (Some character_name) (worker p) (store p)
     (_current_character p) (total_items p) (loaded_items p)
     (is_complete p) (trace p ++ [Submitted character_name])).

Definition submit (character_name : string) (p : Preload) : Preload :=
  (preload_character_images_async character_name p).2.

(** The worker's next move: [_preload_worker] when it is waiting on the
    queue, [_preload_character_task] from then on. *)
Definition worker_step (p : Preload) : Preload :=
  match worker p with
  | Waiting =>
      match _task_queue p with
      | None => p
      | Some character_name =>
          if negb preload_character then
            mkPreload None Waiting (store p) (_current_character p)
              (total_items p) (loaded_items p) (is_complete p)
              (trace p ++ [Skipped character_name])
          else
            mkPreload None (Taken character_name) (store p) (_current_character p)
              (total_items p) (loaded_items p) (is_complete p) (trace p)
      end
  | Taken character_name =>
      match mahoshojo !! character_name with
      | None =>
          mkPreload (_task_queue p) Waiting (store p) (Some character_name)
            (total_items p) (loaded_items p) false
            (trace p ++ [NoConfig character_name])
      | Some cfg =>
          match Config.emotion_count cfg with
          | None =>
              mkPreload (_task_queue p) (Failing character_name) (store p)
                (Some character_name) (total_items p) (loaded_items p) false
                (trace p ++ [Failed character_name])
          | Some emotion_count =>
              mkPreload (_task_queue p) (Counted character_name emotion_count)
                (store p) (Some character_name) (total_items p) (loaded_items p)
                false (trace p)
          end
      end
  | Counted character_name emotion_count =>
      mkPreload (_task_queue p) (LoopHead character_name 1 emotion_count)
        (store p) (_current_character p) emotion_count 0 (is_complete p)
        (trace p ++ [Started character_name])
  | LoopHead character_name emotion_index emotion_count =>
      if emotion_count <? emotion_index then
        mkPreload (_task_queue p) Waiting (store p) (_current_character p)
          (total_items p) (loaded_items p) true
          (trace p ++ [Completed character_name])
      else
        match _task_queue p with
        | Some _ =>
            mkPreload (_task_queue p) Waiting (store p) (_current_character p)
              (total_items p) (loaded_items p) (is_complete p)
              (trace p ++ [Interrupted character_name])
        | None =>
            mkPreload (_task_queue p)
              (Loading character_name emotion_index emotion_count)
              (store p) (_current_character p)
              (total_items p) (loaded_items p) (is_complete p) (trace p)
        end
  | Loading character_name emotion_index emotion_count =>
      match load_character_safe character_name emotion_index
              character_default_size character_default_color (store p) with
      | (Ok _, st') =>
          mkPreload (_task_queue p)
            (Loaded character_name emotion_index emotion_count)
            st' (_current_character p) (total_items p) (loaded_items p)
            (is_complete p) (trace p ++ [Load character_name emotion_index])
      | (Raise _, st') =>
          mkPreload (_task_queue p) (Failing character_name) st'
            (_current_character p) (total_items p) (loaded_items p) (is_complete p)
            (trace p ++ [Load character_name emotion_index;
                         Failed character_name])
      end
  | Loaded character_name emotion_index emotion_count =>
      mkPreload (_task_queue p)
        (LoopHead character_name (emotion_index + 1) emotion_count)
        (store p) (_current_character p) (total_items p) emotion_index
        (is_complete p)
        (trace p ++ [Progress character_name emotion_index emotion_count])
  | Failing character_name =>
      mkPreload (_task_queue p) Waiting (store p) (_current_character p)
        (total_items p) (loaded_items p) true (trace p)
  end.

(** A schedule interleaves submissions with worker moves. *)
Inductive Action : Type :=
| Submit (character_name : string)
| Work.

Definition act (a : Action) (p : Preload) : Preload :=
  match a with
  | Submit character_name => submit character_name p
  | Work => worker_step p
  end.

Definition run (schedule : list Action) (p : Preload) : Preload :=
  foldl (fun p a => act a p) p schedule.






End Loaders.

End LoadUtils.

(** ** utils/sentiment_analyzer.py: the sentiment client *)

Module Sentiment.
Import Py.

(** The values that the handshake's [return] statements hand back:
    booleans, strings, exception objects, and tuples of those. *)
#[warnings="-register-all"] Inductive PyVal : Type :=
| PyBool (b : bool)
| PyStr (s : string)
| PyExn (e : exn)
| PyTuple (items : list PyVal).

(** Truth value of an object, as [if v:] tests it: a tuple is true unless
    it is empty, whatever it holds. *)
Definition truthy (v : PyVal) : bool :=
  match v with
  | PyBool b => b
  | PyStr s => nonempty s
  | PyExn _ => true
  | PyTuple [] => false
  | PyTuple (_ :: _) => true
  end.

(** A per-backend configuration dictionary. *)
Record ClientConfig : Type := mkClientConfig {
  api_key : option string;
  base_url : option string;
  model : option string
}.

(** One [openai.chat.completions.create] call: the module-level
    connection parameters, the model name and the (role, content) list. *)
Record Request : Type := mkRequest {
  req_api_key : string;
  req_base_url : string;
  req_model : string;
  req_messages : list (string * string)
}.

(** [SentimentAnalyzer] with its [AIClientManager] and the [openai]
    module globals; [requests] logs the completion calls made so far. *)
Record Analyzer : Type := mkAnalyzer {
  current_client : option string;
  is_initialized : bool;
  emotion_list : list string;
  rule_prompt : string;
  selected_emotion : option string;
  openai_api_key : string;
  openai_base_url : string;
  requests : list Request
}.

(** [SentimentAnalyzer()] *)
Definition new_analyzer (emotions : list string) (prompt : string) : Analyzer :=
  mkAnalyzer None false emotions prompt None "" "" [].

Definition set_is_initialized (b : bool) (a : Analyzer) : Analyzer :=
  mkAnalyzer (current_client a) b (emotion_list a) (rule_prompt a)
    (selected_emotion a) (openai_api_key a) (openai_base_url a) (requests a).

Definition set_selected_emotion (e : option string) (a : Analyzer) : Analyzer :=
  mkAnalyzer (current_client a) (is_initialized a) (emotion_list a)
    (rule_prompt a) e (openai_api_key a) (openai_base_url a) (requests a).

Section Client.

(** The remote model: what the n-th completion call answers (the first
    choice's message content, possibly [None]) or raises. *)
Variable backend : nat -> Request -> result (option string).
(** [str.lower] and [re.sub(r'[^\w一-鿿]', '', _)]. *)
Variable str_lower : string -> string.
Variable re_sub_nonword : string -> string.
(** [CONFIGS.get_available_models()] *)
Variable available_models : gmap string ClientConfig.

Definition create (model_name : string) (messages : list (string * string))
           (a : Analyzer) : result (option string) * Analyzer :=
  let req := mkRequest (openai_api_key a) (openai_base_url a) model_name messages in
  (backend (length (requests a)) req,
   mkAnalyzer (current_client a) (is_initialized a) (emotion_list a)
     (rule_prompt a) (selected_emotion a) (openai_api_key a)
     (openai_base_url a) (requests a ++ [req])).

(** [AIClientManager._test_connection]:
    [return response.choices[0].message.content is not None, ""] and
    [return False, e] both build a pair. *)
Definition _test_connection (model_name : string) (a : Analyzer)
  : PyVal * Analyzer :=
  match create model_name [("user", "Hello")] a with
  | (Ok content, a') =>
      (PyTuple [PyBool (bool_decide (is_Some content)); PyStr ""], a')
  | (Raise e, a') => (PyTuple [PyBool false; PyExn e], a')
  end.

(** [AIClientManager.initialize_client] *)
Definition initialize_client (client_type : string) (config : ClientConfig)
           (a : Analyzer) : PyVal * Analyzer :=
  let a :=
    mkAnalyzer (Some client_type) (is_initialized a) (emotion_list a)
      (rule_prompt a) (selected_emotion a)
      (default "" (api_key config))
      (default "http://localhost:11434/v1/" (base_url config))
      (requests a) in
  _test_connection (default "" (model config)) a.

(** [_send_request_with_prompt]; errors are printed and raised again. *)
Definition _send_request_with_prompt (message : string)
           (custom_prompt : option string) (a : Analyzer)
  : result string * Analyzer :=
  let prompt := default (rule_prompt a) custom_prompt in
  let messages := [("system", prompt); ("user", message)] in
  let model_name :=
    match current_client a with
    | Some c =>
        match available_models !! c with
        | Some entry =>
            match model entry with
            | Some m => Ok m
            | None => Raise (KeyError "model")
            end
        | None => Ok "deepseek-chat"
        end
    | None => Ok "deepseek-chat"
    end in
  match model_name with
  | Raise e => (Raise e, a)
  | Ok model_name =>
      match create model_name messages a with
      | (Ok (Some content), a') => (Ok (strip content), a')
      | (Ok None, a') => (Raise (AttributeError "strip"), a')
      | (Raise e, a') => (Raise e, a')
      end
  end.

(** [_send_request] *)
Definition _send_request (message : string) (a : Analyzer)
  : result string * Analyzer :=
  _send_request_with_prompt "请任意回复" (Some message) a.

(** [SentimentAnalyzer.initialize] *)
Definition initialize (client_type : string) (config : ClientConfig)
           (a : Analyzer) : PyVal * Analyzer :=
  match initialize_client client_type config a with
  | (PyTuple [success; error_msg], a1) =>
      if truthy success then
        match _send_request (rule_prompt a1) a1 with
        | (Ok response, a2) =>
            let confirmation_keywords := emotion_list a2 in
            let response_lower := str_lower response in
            let ok := existsb (fun keyword => contains keyword response_lower)
                        confirmation_keywords in
            (PyTuple [PyBool ok; PyStr ""], set_is_initialized ok a2)
        | (Raise _, a2) => (PyBool false, set_is_initialized false a2)
        end
      else (PyTuple [PyBool false; error_msg], a1)
  | (_, a1) => (PyBool false, set_is_initialized false a1)
  end.

(** [_extract_emotion] *)
Definition _extract_emotion (response : string) (a : Analyzer) : option string :=
  let cleaned_response := re_sub_nonword response in
  if bool_decide (cleaned_response ∈ emotion_list a)
  then Some cleaned_response else None.

(** [analyze_sentiment] *)
Definition analyze_sentiment (text : string) (a : Analyzer)
  : option string * Analyzer :=
  match current_client a with
  | None => (None, a)
  | Some c =>
      if negb (nonempty c) then (None, a)
      else
        match _send_request_with_prompt text None a with
        | (Ok response, a') =>
            let e := _extract_emotion response a' in
            (match e with
             | Some w => if nonempty w then Some w else None
             | None => None
             end,
             set_selected_emotion e a')
        | (Raise _, a') => (None, a')
        end
  end.

End Client.

End Sentiment.

(** ** core.py: ManosabaCore *)

Module Core.
Import Py.

(** An encoded picture as the clipboard and the renderer exchange it. *)
Definition Bitmap : Type := string.

Inductive Key : Type :=
| Key_ctrl
| Key_cmd
| Key_shift
| Key_home
| Key_end
| Key_enter
| KeyChar (c : string).

(** The calls the core makes to its collaborators, in order: status and GUI
    callbacks, settings persistence, clipboard, keyboard controller,
    [time.sleep], the renderer and the preview. *)
Inductive Effect : Type :=
| Status (message : string)
| GuiStatus (initialized enabled initializing : bool)
| SaveGuiSettings
| ClearClipboard
| GetClipboardAll
| Sleep (seconds : PrimFloat.float)
| Press (k : Key)
| Release (k : Key)
| ClearCache
| GeneratePreview
| DrawContentAuto (text : string) (content_image : option Bitmap)
| CopyImageToClipboard (bmp_bytes : Bitmap)
| HasImageInClipboard.

(** A preview component dictionary, with the keys the sentiment branch
    reads or writes; [None] is an absent key. *)
Record Component : Type := mkComponent {
  enabled : option bool;
  type : option string;
  character_name : option string;
  emotion_filter : option string;
  emotion_index : option Z;
  force_use : option bool
}.

(** [CONFIGS.gui_settings["sentiment_matching"]] *)
Record SentimentSettings : Type := mkSentimentSettings {
  sm_enabled : option bool;
  ai_model : option string;
  model_configs : gmap string Sentiment.ClientConfig
}.

(** The state a [ManosabaCore] works on: its own attributes, the
    configuration it mutates (in memory and as last saved), and the log of
    effects. *)
Record State : Type := mkState {
  sentiment_analyzer : Sentiment.Analyzer;
  initialized : bool;
  initializing : bool;
  current_config : option (string * Sentiment.ClientConfig);
  sentiment_matching : option SentimentSettings;
  saved_sentiment_matching : option SentimentSettings;
  components : list Component;
  base_msg : string;
  draws : nat;
  effects : list Effect
}.

Definition emit (es : list Effect) (s : State) : State :=
  mkState (sentiment_analyzer s) (initialized s) (initializing s)
    (current_config s) (sentiment_matching s) (saved_sentiment_matching s)
    (components s) (base_msg s) (draws s) (effects s ++ es).
Definition set_sentiment_analyzer (a : Sentiment.Analyzer) (s : State) : State :=
  mkState a (initialized s) (initializing s)
    (current_config s) (sentiment_matching s) (saved_sentiment_matching s)
    (components s) (base_msg s) (draws s) (effects s).
Definition set_initialized (b : bool) (s : State) : State :=
  mkState (sentiment_analyzer s) b (initializing s)
    (current_config s) (sentiment_matching s) (saved_sentiment_matching s)
    (components s) (base_msg s) (draws s) (effects s).
Definition set_initializing (b : bool) (s : State) : State :=
  mkState (sentiment_analyzer s) (initialized s) b
    (current_config s) (sentiment_matching s) (saved_sentiment_matching s)
    (components s) (base_msg s) (draws s) (effects s).
Definition set_current_config (c : option (string * Sentiment.ClientConfig))
           (s : State) : State :=
  mkState (sentiment_analyzer s) (initialized s) (initializing s)
    c (sentiment_matching s) (saved_sentiment_matching s)
    (components s) (base_msg s) (draws s) (effects s).
Definition set_sentiment_matching (m : option SentimentSettings) (s : State) : State :=
  mkState (sentiment_analyzer s) (initialized s) (initializing s)
    (current_config s) m (saved_sentiment_matching s)
    (components s) (base_msg s) (draws s) (effects s).
Definition set_components (cs : list Component) (s : State) : State :=
  mkState (sentiment_analyzer s) (initialized s) (initializing s)
    (current_config s) (sentiment_matching s) (saved_sentiment_matching s)
    cs (base_msg s) (draws s) (effects s).
Definition set_base_msg (m : string) (s : State) : State :=
  mkState (sentiment_analyzer s) (initialized s) (initializing s)
    (current_config s) (sentiment_matching s) (saved_sentiment_matching s)
    (components s) m (draws s) (effects s).
Definition set_draws (n : nat) (s : State) : State :=
  mkState (sentiment_analyzer s) (initialized s) (initializing s)
    (current_config s) (sentiment_matching s) (saved_sentiment_matching s)
    (components s) (base_msg s) n (effects s).

(** [CONFIGS.save_gui_settings()] writes the in-memory settings out. *)
Definition save_gui_settings (s : State) : State :=
  emit [SaveGuiSettings]
    (mkState (sentiment_analyzer s) (initialized s) (initializing s)
       (current_config s) (sentiment_matching s) (sentiment_matching s)
       (components s) (base_msg s) (draws s) (effects s)).

(** [sentiment_settings.get("enabled", False)] *)
Definition settings_enabled (m : option SentimentSettings) : bool :=
  match m with
  | Some m => default false (sm_enabled m)
  | None => false
  end.

(** Everything outside the core that one run depends on. *)
Record World : Type := mkWorld {
  platform : string;
  process_whitelist : list string;
  foreground_process : nat -> option string;
  cut_mode : option string;
  clipboard : nat -> string * option Bitmap;
  lag : nat -> N;
  draw_content_auto : string -> option Bitmap -> result Bitmap;
  copy_image_to_clipboard : Bitmap -> bool;
  has_image_in_clipboard : nat -> bool;
  AUTO_PASTE_IMAGE : bool;
  AUTO_SEND_IMAGE : bool;
  get_character : string;
  get_filtered_emotions : string -> string -> list Z;
  mahoshojo : gmap string Config.Character;
  random : nat -> nat;
  elapsed_ms : Z;
  backend : nat -> Sentiment.Request -> result (option string);
  str_lower : string -> string;
  re_sub_nonword : string -> string;
  available_models : gmap string Sentiment.ClientConfig
}.

(** [update_status] *)
Definition update_status (message : string) (s : State) : State :=
  emit [Status message] s.

(** [_notify_gui_status_change] *)
Definition _notify_gui_status_change (is_initialized : bool)
           (is_enabled : option bool) (is_initializing : bool) (s : State) : State :=
  let is_enabled :=
    match is_enabled with
    | Some e => e
    | None => settings_enabled (sentiment_matching s) && is_initialized
    end in
  emit [GuiStatus is_initialized is_enabled is_initializing] s.

(** [_disable_sentiment_matching] *)
Definition _disable_sentiment_matching (s : State) : State :=
  let s :=
    match sentiment_matching s with
    | Some m =>
        set_sentiment_matching
          (Some (mkSentimentSettings (Some false) (ai_model m) (model_configs m))) s
    | None => s
    end in
  let s := save_gui_settings s in
  update_status "情感匹配功能已禁用" s.

(** The body of [_initialize_sentiment_analyzer_async] ([init_task]), which
    runs on its own thread. *)
Definition init_task (w : World) (s : State) : State :=
  let s := set_initializing true s in
  let s := _notify_gui_status_change false (Some false) true s in
  let sentiment_settings := sentiment_matching s in
  let s :=
    if settings_enabled sentiment_settings then
      let client_type :=
        default "ollama" (m ← sentiment_settings; ai_model m) in
      let config :=
        default (Sentiment.mkClientConfig None None None)
          (m ← sentiment_settings; model_configs m !! client_type) in
      let s := set_current_config (Some (client_type, config)) s in
      let '(success, a) :=
        Sentiment.initialize (backend w) (str_lower w) (available_models w)
          client_type config (sentiment_analyzer s) in
      let s := set_sentiment_analyzer a s in
      if Sentiment.truthy success then
        let s := update_status "情感分析器初始化完成，功能已启用" s in
        let s := set_initialized true s in
        _notify_gui_status_change true (Some true) false s
      else
        let s := update_status "情感分析器初始化失败，功能已禁用" s in
        let s := set_initialized false s in
        let s := _notify_gui_status_change false (Some false) false s in
        _disable_sentiment_matching s
    else
      let s := update_status "情感匹配功能未启用，跳过初始化" s in
      let s := set_initialized false s in
      _notify_gui_status_change false (Some false) false s in
  set_initializing false s.

(** The loop of [_update_emotion_by_sentiment] over
    [CONFIGS.get_sorted_preview_components()], from position [i] on; the
    dictionaries are shared with the configuration, so a write lands in
    [components]. *)
Fixpoint update_layers (w : World) (sentiment current_character : string)
         (todo : list Component) (i : nat) (updated : bool) (s : State)
  : bool * State :=
  match todo with
  | [] =>
      if updated then (updated, emit [ClearCache] s) else (updated, s)
  | component :: rest =>
      if negb (default true (enabled component)) then
        update_layers w sentiment current_character rest (S i) updated s
      else if bool_decide (type component = Some "character") then
        let character_name := default current_character (character_name component) in
        let filter_name := default "全部" (emotion_filter component) in
        let filtered_emotions := get_filtered_emotions w character_name filter_name in
        match filtered_emotions with
        | [] => (false, s)
        | _ :: _ =>
            let emotion_indices :=
              default [] (cfg ← mahoshojo w !! character_name;
                          Config.by_sentiment cfg !! sentiment) in
            let available_emotions :=
              filter (fun idx => idx ∈ filtered_emotions) emotion_indices in
            match available_emotions with
            | [] => update_layers w sentiment current_character rest (S i) updated s
            | first :: _ =>
                let emotion_index :=
                  nth (random w (draws s) mod length available_emotions)%nat
                      available_emotions first in
                let s := set_draws (S (draws s)) s in
                let component' :=
                  mkComponent (enabled component) (type component)
                    (Core.character_name component) (emotion_filter component)
                    (Some emotion_index) (Some true) in
                let s := set_components (<[i := component']> (components s)) s in
                let char_full_name :=
                  default character_name
                    (cfg ← mahoshojo w !! character_name; Config.full_name cfg) in
                let info :=
                  "角色 " +:+ char_full_name +:+ " 表情(" +:+ sentiment +:+ "): "
                  +:+ pretty emotion_index +:+ " |" in
                let s := set_base_msg (base_msg s +:+ info) s in
                update_layers w sentiment current_character rest (S i) true s
            end
        end
      else update_layers w sentiment current_character rest (S i) updated s
  end.

(** [_update_emotion_by_sentiment] *)
Definition _update_emotion_by_sentiment (w : World) (text : string) (s : State)
  : bool * State :=
  if negb (initialized s) then
    (false, update_status "情感分析器未初始化，跳过情感分析" s)
  else
    let '(sentiment, a) :=
      Sentiment.analyze_sentiment (backend w) (re_sub_nonword w)
        (available_models w) text (sentiment_analyzer s) in
    let s := set_sentiment_analyzer a s in
    match sentiment with
    | None => (false, s)
    | Some sentiment =>
        if negb (nonempty sentiment) then (false, s)
        else update_layers w sentiment (get_character w) (components s) 0 false s
    end.

(** [_active_process_allowed]; [query] numbers the look-ups of the
    foreground process, which answers [None] when there is no window or the
    look-up fails. *)
Definition _active_process_allowed (w : World) (query : nat) : bool :=
  match process_whitelist w with
  | [] => true
  | _ :: _ =>
      let wl := map (str_lower w) (process_whitelist w) in
      if startswith (platform w) "win" then
        match foreground_process w query with
        | Some name => bool_decide (str_lower w name ∈ wl)
        | None => false
        end
      else if bool_decide (platform w = "darwin") then
        match foreground_process w query with
        | Some name => bool_decide (str_lower w (strip name) ∈ wl)
        | None => false
        end
      else true
  end.

Definition tap (k : Key) : list Effect := [Press k; Release k].

(** The cut step of [generate_image]: the keystrokes (and the pause) sent
    for a cut mode on a platform. *)
Definition cut_keystrokes (platform cut_mode : string) : list Effect :=
  if bool_decide (cut_mode = "direct") then
    [Press Key_ctrl; Press (KeyChar "x"); Release (KeyChar "x"); Release Key_ctrl]
  else if bool_decide (cut_mode = "single_line") then
    if startswith platform "win" then
      [Press Key_end; Release Key_end;
       Press Key_shift; Press Key_home; Release Key_home; Release Key_shift;
       Sleep 0.01%float;
       Press Key_ctrl; Press (KeyChar "x"); Release (KeyChar "x"); Release Key_ctrl]
    else
      [Press Key_shift; Press Key_home; Release Key_home; Release Key_shift;
       Sleep 0.01%float;
       Press Key_cmd; Press (KeyChar "x"); Release (KeyChar "x"); Release Key_cmd]
  else
    if startswith platform "win" then
      [Press Key_ctrl; Press (KeyChar "a"); Release (KeyChar "a");
       Press (KeyChar "x"); Release (KeyChar "x"); Release Key_ctrl]
    else
      [Press Key_cmd; Press (KeyChar "a"); Release (KeyChar "a");
       Press (KeyChar "x"); Release (KeyChar "x"); Release Key_cmd].

(** The clipboard polling loop.  Time is counted in microseconds from the
    moment [deadline] is computed, so the deadline is at 2 500 000; round
    [i] reads the clipboard and, unless it stops, sleeps 5 ms plus a
    scheduling lag.  [last] holds [text, image] as last assigned. *)
Definition deadline : Z := 2500000.

Record Polled : Type := mkPolled {
  text : string;
  image : option Bitmap;
  reads : nat;
  finished_at : Z;
  stopped_early : bool
}.

Definition stop_polling (r : string * option Bitmap) : bool :=
  (nonempty r.1 && nonempty (strip r.1)) || bool_decide (is_Some r.2).

Fixpoint poll_clipboard (w : World) (fuel : nat) (i : nat) (now : Z)
         (last : option (string * option Bitmap)) : option Polled :=
  if now <? deadline then
    match fuel with
    | O => None
    | S fuel' =>
        let r := clipboard w i in
        if stop_polling r then Some (mkPolled r.1 r.2 (S i) now true)
        else poll_clipboard w fuel' (S i) (now + 5000 + Z.of_N (lag w i)) (Some r)
    end
  else
    match last with
    | Some r => Some (mkPolled r.1 r.2 i now false)
    | None => None
    end.

(** 500 rounds of at least 5 ms reach the deadline. *)
Definition poll_rounds : nat := 500.

(** The clock when round [j] of the polling loop reads the clipboard. *)
Fixpoint time_at (w : World) (j : nat) : Z :=
  match j with
  | O => 0
  | S j' => time_at w j' + 5000 + Z.of_N (lag w j')
  end.

Definition polling_effects (p : Polled) : list Effect :=
  if stopped_early p
  then mjoin (replicate (reads p - 1) [GetClipboardAll; Sleep 0.005%float])
       ++ [GetClipboardAll]
  else mjoin (replicate (reads p) [GetClipboardAll; Sleep 0.005%float]).

(** The confirmation loop after copy-back: [wait] and [total] are the
    floats of the source; [k] numbers the [has_image_in_clipboard] calls. *)
Definition py_min (a b : PrimFloat.float) : PrimFloat.float :=
  if PrimFloat.ltb b a then b else a.

Fixpoint confirm_clipboard (w : World) (fuel : nat) (k : nat)
         (wait total : PrimFloat.float) (s : State) : State :=
  match fuel with
  | O => s
  | S fuel' =>
      if PrimFloat.ltb total 0.5%float then
        let s := emit [HasImageInClipboard] s in
        if has_image_in_clipboard w k then s
        else
          let s := emit [Sleep wait] s in
          confirm_clipboard w fuel' (S k)
            (py_min (PrimFloat.mul wait 1.5%float) 0.08%float)
            (PrimFloat.add total wait) s
      else s
  end.

(** [str(e)] of the exceptions the renderer can raise; the text of a
    [KeyError] is the [repr] of its key, and the one of an
    [UnboundLocalError] names the variable (in the words of
    Python 3.11 and later). *)
Definition exn_message (e : exn) : string :=
  match e with
  | FileNotFoundError m | OSError m | UnidentifiedImageError m | ValueError m
  | TypeError m | AttributeError m | ConnectionError m | OverflowError m
  | ZeroDivisionError m => m
  | KeyError key => repr key
  | UnboundLocalError name =>
      "cannot access local variable '" +:+ name
      +:+ "' where it is not associated with a value"
  end.

(** [generate_image] *)
Definition generate_image (w : World) (s : State) : result string * State :=
  if negb (_active_process_allowed w 0) then (Ok "前台应用不在白名单内", s)
  else
    let s := set_base_msg "" s in
    let s := emit [ClearClipboard; Sleep 0.005%float] s in
    let s := emit (cut_keystrokes (platform w) (default "full" (cut_mode w))) s in
    match poll_clipboard w poll_rounds 0 0 None with
    | None => (Raise (UnboundLocalError "text"), s)
    | Some p =>
        let s := emit (polling_effects p) s in
        let text := text p in
        let image := image p in
        let s :=
          if settings_enabled (sentiment_matching s) && initialized s
             && nonempty (strip text)
          then
            let '(emotion_updated, s) := _update_emotion_by_sentiment w text s in
            if emotion_updated then emit [GeneratePreview] s else s
          else s in
        if bool_decide (text = "") && bool_decide (image = None) then
          (Ok "错误: 没有文本或图像", s)
        else
          let s := emit [DrawContentAuto text image] s in
          match draw_content_auto w text image with
          | Raise e => (Ok ("生成图像失败: " +:+ exn_message e), s)
          | Ok bmp_bytes =>
              let s := emit [CopyImageToClipboard bmp_bytes] s in
              if negb (copy_image_to_clipboard w bmp_bytes) then
                (Ok "复制到剪贴板失败", s)
              else
                let s := confirm_clipboard w 16 0 0.01%float 0%float s in
                let finish (s : State) :=
                  let s :=
                    set_base_msg
                      (base_msg s +:+ "角色: " +:+ get_character w +:+ ", 用时: "
                       +:+ pretty (elapsed_ms w) +:+ "ms") s in
                  (Ok (base_msg s), s) in
                if AUTO_PASTE_IMAGE w then
                  let modifier :=
                    if bool_decide (platform w ≠ "darwin") then Key_ctrl else Key_cmd in
                  let s :=
                    emit [Press modifier; Press (KeyChar "v");
                          Release (KeyChar "v"); Release modifier] s in
                  if negb (_active_process_allowed w 1) then
                    (Ok "前台应用不在白名单内", s)
                  else if AUTO_SEND_IMAGE w then
                    finish (emit [Sleep 0.4%float; Press Key_enter; Release Key_enter] s)
                  else finish s
                else finish s
          end
    end.

(** The filtered-sentiment emotion set of a layer: the emotion indices the
    character maps the sentiment to that also pass the layer's filter. *)
Definition filtered_of (w : World) (current_character : string)
           (component : Component) : list Z :=
  get_filtered_emotions w
    (default current_character (character_name component))
    (default "全部" (emotion_filter component)).

Definition matching_emotions (w : World) (sentiment current_character : string)
           (component : Component) : list Z :=
  filter (fun idx => idx ∈ filtered_of w current_character component)
    (default []
       (cfg ← mahoshojo w !! default current_character (character_name component);
        Config.by_sentiment cfg !! sentiment)).

(** An enabled character layer. *)
Definition is_character_layer (component : Component) : bool :=
  default true (enabled component) && bool_decide (type component = Some "character").

Definition has_match (w : World) (sentiment current_character : string)
           (component : Component) : bool :=
  is_character_layer component
  && match matching_emotions w sentiment current_character component with
     | [] => false
     | _ :: _ => true
     end.

(** What the sentiment update is meant to do to one layer: give an enabled
    character layer with a non-empty filtered-sentiment set an emotion of
    that set and mark it [force_use]; leave every other layer alone. *)
Definition layer_updated (w : World) (sentiment current_character : string)
           (before after : Component) : Prop :=
  if has_match w sentiment current_character before then
    exists idx,
      idx ∈ matching_emotions w sentiment current_character before /\
      after = mkComponent (enabled before) (type before) (character_name before)
                (emotion_filter before) (Some idx) (Some true)
  else after = before.

(** The effects that count as a composition attempt: a renderer call (for
    the picture or for the preview) and the copy-back. *)
Definition composition_attempt (e : Effect) : bool :=
  match e with
  | DrawContentAuto _ _ | CopyImageToClipboard _ | GeneratePreview => true
  | _ => false
  end.

(** The "no content" result of [generate_image]. *)
Definition no_content : string := "错误: 没有文本或图像".

End Core.

(** ** Sample data used by the worked examples *)

Module Samples.
Import Py.

(** A store with one entry in each partition. *)
Definition sample_store : LoadUtils.Store :=
  LoadUtils.mkStore
    {[ 1%positive := LoadUtils.FontObj (LoadUtils.mkFont "fonts/font3.ttf" 12);
       2%positive := LoadUtils.ImgObj (LoadUtils.mkImage 2560 1440 (fun _ _ => (9, 9, 9, 255)));
       3%positive := LoadUtils.ImgObj (LoadUtils.mkImage 4 4 (fun _ _ => (1, 2, 3, 255)));
       4%positive := LoadUtils.ImgObj (LoadUtils.mkImage 2 2 (fun _ _ => (5, 5, 5, 5))) ]}
    {[ "font3_12" := 1%positive ]}
    {[ "assets/background/c1.png" := 2%positive ]}
    {[ "assets/chara/a/a (1)" := 3%positive ]}
    {[ "x.png" := 4%positive ]}.

(** A host with POSIX paths, resources resolved in place, fonts under
    [fonts/], no system fonts, and nearest-neighbour resampling. *)
Definition sample_join (parts : list string) : string :=
  foldr (fun a b => if decide (b = "") then a else a +:+ "/" +:+ b) "" parts.

Definition sample_font_path (font_name : string) : string :=
  "fonts/" +:+ font_name +:+ ".ttf".

Definition no_system_font (path : string) : bool := false.

Definition nearest (size : Z * Z) (img : LoadUtils.Image) (x y : Z) : LoadUtils.RGBA :=
  LoadUtils.pixel img (x * LoadUtils.width img / size.1)
    (y * LoadUtils.height img / size.2).

(** One character picture and one font on disk; no background, no
    [missing.png]. *)
Definition sample_fs : gmap string LoadUtils.File :=
  {[ "assets/chara/a/a (1).png" :=
       LoadUtils.ImageFile (LoadUtils.mkImage 4 4 (fun _ _ => (1, 2, 3, 255)));
     "fonts/font3.ttf" := LoadUtils.FontFile ]}.


Definition sample_read : LoadUtils.ImageRead -> LoadUtils.M positive :=
  LoadUtils.read sample_fs id sample_join nearest 1%float.

Definition sample_font_get : LoadUtils.M positive :=
  LoadUtils.load_font_cached sample_fs sample_font_path no_system_font "font3" 12.

(** A caller resizing, in place, the font it was handed. *)
Definition enlarge (o : LoadUtils.Obj) : LoadUtils.Obj :=
  match o with
  | LoadUtils.FontObj f =>
      LoadUtils.FontObj (LoadUtils.mkFont (LoadUtils.font_file f) 99)
  | LoadUtils.ImgObj img => LoadUtils.ImgObj img
  end.

(** *** Preload states *)






(** *** Worlds and core states *)

(** [str.lower] on ASCII letters. *)
Fixpoint ascii_lower (s : string) : string :=
  match s with
  | EmptyString => EmptyString
  | String c rest =>
      let n := Ascii.nat_of_ascii c in
      String (if (65 <=? n)%nat && (n <=? 90)%nat
              then Ascii.ascii_of_nat (n + 32) else c)
             (ascii_lower rest)
  end.

(** Character "a" passes its filter with emotions 1..3 and maps the
    sentiment 开心 to [2; 3]; character "b" has an empty filtered list. *)
Definition sample_filtered (character_name filter_name : string) : list Z :=
  if decide (character_name = "b") then [] else [1; 2; 3].

Definition sample_cast : gmap string Config.Character :=
  {[ "a" := Config.mkCharacter (Some "Alice") (Some 3) {[ "开心" := [2; 3] ]};
     "b" := Config.mkCharacter (Some "Bob") (Some 3) {[ "开心" := [1] ]} ]}.

(** A world with an empty allow-list, a renderer and a clipboard that
    work, no auto-paste, and the given platform, cut mode, clipboard
    contents and model backend. *)
Definition make_world (platform : string) (cut_mode : option string)
           (clipboard : nat -> string * option Core.Bitmap)
           (backend : nat -> Sentiment.Request -> result (option string))
  : Core.World :=
  Core.mkWorld platform [] (fun _ => None) cut_mode clipboard (fun _ => 0%N)
    (fun text _ => Ok ("bmp:" +:+ text)) (fun _ => true) (fun _ => true)
    false false "a" sample_filtered sample_cast (fun _ => 1%nat) 42
    backend ascii_lower id ∅.

(** Backends: one that classifies everything as 开心, one that is
    unreachable, one that answers but never names an emotion, and one that
    answers the connection test and then drops the connection. *)
Definition happy_backend (n : nat) (req : Sentiment.Request)
  : result (option string) := Ok (Some "开心").
Definition offline_backend (n : nat) (req : Sentiment.Request)
  : result (option string) := Raise (ConnectionError "Connection refused").
Definition unacknowledging_backend (n : nat) (req : Sentiment.Request)
  : result (option string) :=
  Ok (Some (if (n =? 0)%nat then "Hello!" else "OK, understood.")).
Definition dropping_backend (n : nat) (req : Sentiment.Request)
  : result (option string) :=
  if (n =? 0)%nat then Ok (Some "Hello!")
  else Raise (ConnectionError "Connection reset").

Definition text_hi (i : nat) : string * option Core.Bitmap := ("hi", None).

Definition world_hi : Core.World := make_world "win32" None text_hi happy_backend.
Definition world_offline : Core.World :=
  make_world "win32" None text_hi offline_backend.
Definition world_unacknowledged : Core.World :=
  make_world "win32" None text_hi unacknowledging_backend.
Definition world_dropping : Core.World :=
  make_world "win32" None text_hi dropping_backend.

Definition sample_emotions : list string := ["开心"; "平静"; "生气"].

Definition settings_on : option Core.SentimentSettings :=
  Some (Core.mkSentimentSettings (Some true) (Some "ollama")
          {[ "ollama" := Sentiment.mkClientConfig None None (Some "qwen") ]}).

(** A core that was just constructed, with sentiment matching switched on
    in the settings. *)
Definition core_new : Core.State :=
  Core.mkState (Sentiment.new_analyzer sample_emotions "RULE")
    false false None settings_on settings_on [] "" 0 [].

(** A core whose analyzer is initialized, with the given layers. *)
Definition core_ready (components : list Core.Component) : Core.State :=
  Core.mkState
    (Sentiment.mkAnalyzer (Some "ollama") true sample_emotions "RULE" None "" "" [])
    true false None settings_on settings_on components "" 0 [].

Definition layer (character_name : string) : Core.Component :=
  Core.mkComponent None (Some "character") (Some character_name) None None None.

(** A clipboard that only ever holds two spaces, and an empty one. *)
Definition text_blank (i : nat) : string * option Core.Bitmap := ("  ", None).
Definition text_none (i : nat) : string * option Core.Bitmap := ("", None).

Definition world_blank : Core.World :=
  make_world "win32" None text_blank happy_backend.
Definition world_empty : Core.World :=
  make_world "win32" None text_none happy_backend.

End Samples.

(** ** utils/sentiment_analyzer.py: classification against a caller's options *)

Module SentimentOptions.
Import Py Sentiment.

Section Options.

Variable backend : nat -> Request -> result (option string).
Variable str_lower : string -> string.
Variable available_models : gmap string ClientConfig.

(** [', '.join(options)] *)
Fixpoint join_comma (options : list string) : string :=
  match options with
  | [] => ""
  | [o] => o
  | o :: rest => o +:+ ", " +:+ join_comma rest
  end.

(** The prompt [analyze_sentiment_with_options] builds around the options. *)
Definition options_prompt (options : list string) : string :=
  "你是一个聊天文本情感分析助手。你需要分析用户输入文本的情感，并从以下选项中选择最合适的一个表情，动作或者情感：["
  +:+ join_comma options +:+ "]。

规则：
1. 只返回选项中的词汇，不要添加其他内容
2. 文本没有实际含义时，可能需要推测前后文来判断情感
3. 无法判断或无内容时返回最后一个选项
4. 选项列表总是以最新的为准

请开始分析随后的用户输入：".

(** [_extract_option]: exact match, else the first option contained in
    the reply, else the first one contained in it ignoring case. *)
Definition _extract_option (response : string) (options : list string)
  : option string :=
  let cleaned_response := strip response in
  match List.find (fun option => bool_decide (option = cleaned_response)) options with
  | Some option => Some option
  | None =>
      match List.find (fun option => contains option cleaned_response) options with
      | Some option => Some option
      | None =>
          List.find (fun option =>
                       contains (str_lower option) (str_lower cleaned_response))
                    options
      end
  end.

(** [analyze_sentiment_with_options] *)
Definition analyze_sentiment_with_options (text : string) (options : list string)
           (a : Analyzer) : option string * Analyzer :=
  match current_client a with
  | None => (None, a)
  | Some c =>
      if negb (nonempty c) then (None, a)
      else
        match options with
        | [] => (None, a)
        | first :: _ =>
            let custom_prompt := options_prompt options in
            match _send_request_with_prompt backend available_models
                    text (Some custom_prompt) a with
            | (Ok response, a') =>
                (match _extract_option response options with
                 | Some selected_option =>
                     if nonempty selected_option then Some selected_option
                     else Some first
                 | None => Some first
                 end, a')
            | (Raise _, a') => (Some first, a')
            end
        end
  end.

End Options.

End SentimentOptions.

(** ** core.py: switching and re-checking sentiment matching; what a run
    does to the keyboard *)

Module CoreControl.
Import Py Core.

#[global] Instance ClientConfig_eq_dec : EqDecision Sentiment.ClientConfig.
Proof. solve_decision. Defined.

#[global] Instance Key_eq_dec : EqDecision Key.
Proof. solve_decision. Defined.

(** [toggle_sentiment_matching]; the boolean tells whether
    [_initialize_sentiment_analyzer_async] was called, that is whether an
    initialization thread was started.  Writing
    [CONFIGS.gui_settings["sentiment_matching"]["enabled"]] needs the
    "sentiment_matching" entry to exist. *)
Definition toggle_sentiment_matching (s : State) : result (State * bool) :=
  if initializing s then Ok (s, false)
  else
    let sentiment_settings := sentiment_matching s in
    let current_enabled := settings_enabled sentiment_settings in
    if negb current_enabled then
      match sentiment_settings with
      | None => Raise (KeyError "sentiment_matching")
      | Some m =>
          let s :=
            set_sentiment_matching
              (Some (mkSentimentSettings (Some true) (ai_model m) (model_configs m))) s in
          let s := save_gui_settings s in
          if negb (initialized s) then
            let s := update_status "正在初始化情感分析器..." s in
            Ok (s, true)
          else
            let s := update_status "已启用情感匹配功能" s in
            Ok (_notify_gui_status_change true (Some true) false s, false)
      end
    else
      let s := update_status "已禁用情感匹配功能" s in
      match sentiment_settings with
      | None => Raise (KeyError "sentiment_matching")
      | Some m =>
          let s :=
            set_sentiment_matching
              (Some (mkSentimentSettings (Some false) (ai_model m) (model_configs m))) s in
          let s := save_gui_settings s in
          Ok (_notify_gui_status_change (initialized s) (Some false) false s, false)
      end.

(** [_reinitialize_sentiment_analyzer_if_needed]; the boolean tells
    whether an initialization thread was started. *)
Definition _reinitialize_sentiment_analyzer_if_needed (s : State) : State * bool :=
  let sentiment_settings := sentiment_matching s in
  if negb (settings_enabled sentiment_settings) then
    if initialized s then
      let s := set_initialized false s in
      let s := update_status "情感匹配已禁用，重置分析器状态" s in
      (_notify_gui_status_change false (Some false) false s, false)
    else (s, false)
  else
    let client_type := default "ollama" (m ← sentiment_settings; ai_model m) in
    let config :=
      default (Sentiment.mkClientConfig None None None)
        (m ← sentiment_settings; model_configs m !! client_type) in
    let new_config := Some (client_type, config) in
    if bool_decide (new_config <> current_config s) then
      let s := update_status "AI配置已更改，重新初始化情感分析器" s in
      let s := set_initialized false s in
      let s := set_current_config new_config s in
      let s := _notify_gui_status_change false (Some false) false s in
      (s, true)
    else (s, false).

(** The keys held down after a run of effects, starting from [held], the
    key pressed last first; [None] when a key is released that is not the
    one pressed last among those still held. *)
Definition release (k : Key) (held : list Key) : option (list Key) :=
  match held with
  | [] => None
  | h :: rest => if decide (h = k) then Some rest else None
  end.

Fixpoint keys_after (held : list Key) (es : list Effect) : option (list Key) :=
  match es with
  | [] => Some held
  | Press k :: rest => keys_after (k :: held) rest
  | Release k :: rest =>
      match release k held with
      | Some held' => keys_after held' rest
      | None => None
      end
  | _ :: rest => keys_after held rest
  end.

(** Keys pressed and released in a nested fashion leave the keyboard as
    they found it. *)
Definition balanced (es : list Effect) : Prop :=
  forall held, keys_after held es = Some held.

Definition keyless (e : Effect) : bool :=
  match e with
  | Press _ | Release _ => false
  | _ => true
  end.

(** Whether a run of effects presses Enter, which sends the message. *)
Definition presses_enter (e : Effect) : bool :=
  match e with
  | Press Key_enter => true
  | _ => false
  end.

Definition sends (es : list Effect) : bool := existsb presses_enter es.

(** How often the clipboard was asked whether it holds the image. *)
Definition is_check (e : Effect) : bool :=
  match e with
  | HasImageInClipboard => true
  | _ => false
  end.

Definition confirmation_checks (es : list Effect) : nat :=
  length (List.filter is_check es).

(** The sentiment settings and flags of a core, apart from the analyzer. *)
Definition settings_of (s : State)
  : bool * bool * option (string * Sentiment.ClientConfig)
    * option SentimentSettings * option SentimentSettings :=
  (initialized s, initializing s, current_config s, sentiment_matching s,
   saved_sentiment_matching s).

(** The in-memory sentiment settings are the ones last written out. *)
Definition persisted (s : State) : Prop :=
  saved_sentiment_matching s = sentiment_matching s.

(** A layer after a sentiment update: left as it was, or an enabled
    character layer given an emotion of its filtered-sentiment set. *)
Definition kept_or_matched (w : World) (sentiment current_character : string)
           (before after : Component) : Prop :=
  after = before \/
  (is_character_layer before = true /\
   exists idx,
     idx ∈ matching_emotions w sentiment current_character before /\
     after = mkComponent (enabled before) (type before) (character_name before)
               (emotion_filter before) (Some idx) (Some true)).

End CoreControl.


(** ** core.py: generate_preview *)

Module Preview.
Import Py Core.

(** One entry of [CONFIGS.mahoshojo], with the keys [generate_preview]
    reads besides those of [Config.Character]: the name box text
    configuration (kept as written), the scale, the base offset and the
    offsets by emotion, whose keys are [str(emotion_index)].  Numbers are
    floats. *)
Record Profile : Type := mkProfile {
  character : Config.Character;
  text : option string;
  scale : option PrimFloat.float;
  offset : option (list PrimFloat.float);
  offsetX : gmap string PrimFloat.float;
  offsetY : gmap string PrimFloat.float
}.

(** A component dictionary with all the keys [generate_preview] reads or
    writes: the ones the sentiment update works on, and the others. *)
Record Layer : Type := mkLayer {
  base : Component;
  use_fixed_character : option bool;
  use_fixed_background : option bool;
  overlay : option string;
  color : option string;
  textcfg : option string;
  font_name : option string;
  scale1 : option PrimFloat.float;
  offset_x1 : option PrimFloat.float;
  offset_y1 : option PrimFloat.float
}.

Definition set_base (c : Component) (l : Layer) : Layer :=
  mkLayer c (use_fixed_character l) (use_fixed_background l) (overlay l) (color l)
    (textcfg l) (font_name l) (scale1 l) (offset_x1 l) (offset_y1 l).
Definition set_overlay (o : string) (l : Layer) : Layer :=
  mkLayer (base l) (use_fixed_character l) (use_fixed_background l) (Some o) (color l)
    (textcfg l) (font_name l) (scale1 l) (offset_x1 l) (offset_y1 l).
Definition set_color (c : string) (l : Layer) : Layer :=
  mkLayer (base l) (use_fixed_character l) (use_fixed_background l) (overlay l) (Some c)
    (textcfg l) (font_name l) (scale1 l) (offset_x1 l) (offset_y1 l).
Definition set_textcfg (t : string) (l : Layer) : Layer :=
  mkLayer (base l) (use_fixed_character l) (use_fixed_background l) (overlay l) (color l)
    (Some t) (font_name l) (scale1 l) (offset_x1 l) (offset_y1 l).
Definition set_font_name (f : string) (l : Layer) : Layer :=
  mkLayer (base l) (use_fixed_character l) (use_fixed_background l) (overlay l) (color l)
    (textcfg l) (Some f) (scale1 l) (offset_x1 l) (offset_y1 l).
Definition set_placement (scale offset_x offset_y : PrimFloat.float) (l : Layer) : Layer :=
  mkLayer (base l) (use_fixed_character l) (use_fixed_background l) (overlay l) (color l)
    (textcfg l) (font_name l) (Some scale) (Some offset_x) (Some offset_y).

(** [component["emotion_index"] = emotion_index], after
    [component["character_name"] = character_name] when [name] is given,
    and after [component.pop("force_use", None)] when [pop] is set. *)
Definition set_emotion (name : option string) (emotion_index : Z) (pop : bool)
           (l : Layer) : Layer :=
  let c := base l in
  set_base
    (mkComponent (enabled c) (type c)
       (match name with Some n => Some n | None => character_name c end)
       (emotion_filter c) (Some emotion_index)
       (if pop then None else force_use c)) l.

(** An element of [cp_components]: the [{"use_cache": True}] placeholder
    for layers taken from the layer cache, or a component. *)
Inductive Rendered : Type :=
| UseCache
| Comp (component : Layer).

(** A computation inside the [try] of [generate_preview]: an exception is
    kept as its [str(e)], which is all the [except] clause uses of it. *)
Inductive Attempt (A : Type) : Type :=
| Went (a : A)
| Threw (str_e : string).
Arguments Went {A} a.
Arguments Threw {A} str_e.

(** What [generate_preview] depends on outside the core. *)
Record World : Type := mkWorld {
  aspect_ratio : string;
  _get_current_character_from_layers : string;
  mahoshojo : gmap string Profile;
  get_filtered_emotions : string -> string -> list Z;
  background_count : Z;
  background_list : list string;
  random : nat -> nat;
  (** [str] of the [ValueError] of [random.randint] on an empty range,
      which differs between Python versions *)
  empty_range : Z -> Z -> string;
  generate_image_with_dll : Z * Z -> list Rendered -> Attempt (option LoadUtils.Image)
}.

(** The configuration and loader state a preview reads and writes. *)
Record State : Type := mkState {
  components : list Layer;
  layer_cache : bool;
  draws : nat
}.

(** The variables of the loop over the components. *)
Record Loop : Type := mkLoop {
  state : State;
  cp_components : list Rendered;
  compress_layer : bool;
  character_info : string;
  background_info : string
}.

(** [random.choice(seq)] for a non-empty [seq] and [random.randint(a, b)],
    each using up one draw. *)
Definition choice {A} (w : World) (draws : nat) (first : A) (rest : list A) : A :=
  nth (random w draws mod length (first :: rest))%nat (first :: rest) first.

Definition randint (w : World) (draws : nat) (a b : Z) : Attempt Z :=
  if b <? a then Threw (empty_range w a b)
  else Went (a + Z.of_nat (random w draws mod Z.to_nat (b - a + 1))%nat).

(** The emotion picked for a layer without a usable index: one of the
    filtered emotions, or any emotion of the character when the filtered
    list is empty. *)
Definition pick_emotion (w : World) (draws : nat) (character_name : string)
           (component : Layer) : Attempt Z :=
  let filter_name := default "全部" (emotion_filter (base component)) in
  match get_filtered_emotions w character_name filter_name with
  | first :: rest => Went (choice w draws first rest)
  | [] =>
      let emotion_count :=
        default 1 (p ← mahoshojo w !! character_name;
                   Config.emotion_count (character p)) in
      randint w draws 1 emotion_count
  end.

Definition full_name_of (w : World) (character_name : string) : string :=
  default character_name
    (p ← mahoshojo w !! character_name; Config.full_name (character p)).

(** The scale and the offsets [generate_preview] gives a character
    layer. *)
Definition placement (w : World) (character_name : string) (emotion_index : Z)
  : PrimFloat.float * PrimFloat.float * PrimFloat.float :=
  let character_config := mahoshojo w !! character_name in
  let scale := default 1%float (p ← character_config; scale p) in
  let offset := default [0%float; 0%float] (p ← character_config; offset p) in
  let emotion_offsets_X := default ∅ (offsetX <$> character_config) in
  let emotion_offsets_Y := default ∅ (offsetY <$> character_config) in
  let offset_x := default 0%float (emotion_offsets_X !! pretty emotion_index) in
  let offset_y := default 0%float (emotion_offsets_Y !! pretty emotion_index) in
  match offset with
  | o0 :: o1 :: _ => (scale, PrimFloat.add offset_x o0, PrimFloat.add offset_y o1)
  | _ => (scale, offset_x, offset_y)
  end.

Definition put (i : nat) (component : Layer) (lp : Loop) : Loop :=
  mkLoop
    (mkState (<[i := component]> (components (state lp))) (layer_cache (state lp))
       (draws (state lp)))
    (cp_components lp ++ [Comp component]) (compress_layer lp)
    (character_info lp) (background_info lp).

Definition drew (lp : Loop) : Loop :=
  mkLoop
    (mkState (components (state lp)) (layer_cache (state lp)) (S (draws (state lp))))
    (cp_components lp) (compress_layer lp) (character_info lp) (background_info lp).

Definition set_compress_layer (b : bool) (lp : Loop) : Loop :=
  mkLoop (state lp) (cp_components lp) b (character_info lp) (background_info lp).
Definition set_character_info (m : string) (lp : Loop) : Loop :=
  mkLoop (state lp) (cp_components lp) (compress_layer lp) m (background_info lp).
Definition set_background_info (m : string) (lp : Loop) : Loop :=
  mkLoop (state lp) (cp_components lp) (compress_layer lp) (character_info lp) m.

(** Whether the layer cache stands in for a component. *)
Definition cached (use_cache : bool) (component : Layer) : bool :=
  let ufc := default false (use_fixed_character component) in
  let ufb := default false (use_fixed_background component) in
  let comp_type := type (base component) in
  let layered :=
    bool_decide (comp_type = Some "background")
    || bool_decide (comp_type = Some "character") in
  use_cache && ((layered && (ufc || ufb)) || negb layered).

(** The [namebox] branch. *)
Definition namebox (w : World) (i : nat) (component : Layer) (lp : Loop)
  : Attempt Loop :=
  let current_character_name := _get_current_character_from_layers w in
  match mahoshojo w !! current_character_name with
  | Some p =>
      match text p with
      | Some t => Went (put i (set_font_name "font3" (set_textcfg t component)) lp)
      | None => Threw "'text'"
      end
  | None => Went (put i component lp)
  end.

(** The [character] branch. *)
Definition character_layer (w : World) (i : nat) (component : Layer) (lp : Loop)
  : Attempt Loop :=
  let current_character_name := _get_current_character_from_layers w in
  let character_name :=
    default current_character_name (character_name (base component)) in
  let emotion_index := emotion_index (base component) in
  let force_use := default false (force_use (base component)) in
  let char_full_name := full_name_of w character_name in
  let finish (emotion_index : Z) (component : Layer) (lp : Loop) :=
    let '(scale, offset_x, offset_y) := placement w character_name emotion_index in
    put i (set_placement scale offset_x offset_y component) lp in
  match (if force_use then emotion_index else None) with
  | Some emotion_index =>
      let lp :=
        set_character_info
          ("角色: " +:+ char_full_name +:+ ", 表情: " +:+ pretty emotion_index
           +:+ "(强制)") lp in
      Went (finish emotion_index (set_emotion None emotion_index true component) lp)
  | None =>
      if default false (use_fixed_character component) then
        match emotion_index with
        | None =>
            match pick_emotion w (draws (state lp)) character_name component with
            | Threw e => Threw e
            | Went emotion_index =>
                let lp := drew lp in
                let lp :=
                  set_character_info
                    ("角色: " +:+ char_full_name +:+ ", 表情: "
                     +:+ pretty emotion_index) lp in
                Went (finish emotion_index
                        (set_emotion None emotion_index false component) lp)
            end
        | Some emotion_index =>
            let lp :=
              set_character_info
                ("角色: " +:+ char_full_name +:+ ", 表情: " +:+ pretty emotion_index)
                lp in
            Went (finish emotion_index
                    (set_emotion None emotion_index false component) lp)
        end
      else
        match pick_emotion w (draws (state lp)) character_name component with
        | Threw e => Threw e
        | Went emotion_index =>
            let lp := drew lp in
            let lp := set_compress_layer false lp in
            let lp :=
              set_character_info
                ("角色: " +:+ char_full_name +:+ ", 表情: 随机("
                 +:+ pretty emotion_index +:+ ")") lp in
            Went (finish emotion_index
                    (set_emotion (Some character_name) emotion_index false component)
                    lp)
        end
  end.

(** The [background] branch. *)
Definition background_layer (w : World) (i : nat) (component : Layer) (lp : Loop)
  : Attempt Loop :=
  let overlay := default "" (overlay component) in
  if default false (use_fixed_background component) && nonempty overlay then
    if startswith overlay "#" then
      let lp := set_background_info ("背景: 纯色(" +:+ overlay +:+ ")") lp in
      let lp := set_compress_layer false lp in
      Went (put i (set_color overlay component) lp)
    else
      let lp := set_background_info ("背景: 图片(" +:+ overlay +:+ ")") lp in
      let lp := set_compress_layer false lp in
      Went (put i component lp)
  else if 0 <? background_count w then
    match background_list w with
    | [] => Threw "Cannot choose from an empty sequence"
    | first :: rest =>
        let overlay := choice w (draws (state lp)) first rest in
        let lp := drew lp in
        let lp := set_compress_layer false lp in
        let lp := set_background_info ("背景: 随机(" +:+ overlay +:+ ")") lp in
        Went (put i (set_overlay overlay component) lp)
    end
  else Went (put i (set_overlay "" component) lp).

(** One round of the loop, for the component at position [i]. *)
Definition step (w : World) (use_cache : bool) (i : nat) (component : Layer)
           (lp : Loop) : Attempt Loop :=
  if negb (default true (enabled (base component))) then Went lp
  else if cached use_cache component then
    if negb (compress_layer lp) then
      Went (set_compress_layer true
              (mkLoop (state lp) (cp_components lp ++ [UseCache]) (compress_layer lp)
                 (character_info lp) (background_info lp)))
    else Went lp
  else
    let comp_type := type (base component) in
    if bool_decide (comp_type = Some "namebox") then namebox w i component lp
    else if bool_decide (comp_type = Some "character") then character_layer w i component lp
    else if bool_decide (comp_type = Some "background") then background_layer w i component lp
    else Went (put i component lp).

(** The loop over [components]; when a round raises, what the earlier
    rounds wrote stays written. *)
Fixpoint loop (w : World) (use_cache : bool) (todo : list Layer) (i : nat)
         (lp : Loop) : option string * Loop :=
  match todo with
  | [] => (None, lp)
  | component :: rest =>
      match step w use_cache i component lp with
      | Threw e => (Some e, lp)
      | Went lp => loop w use_cache rest (S i) lp
      end
  end.

(** The variables as the loop starts. *)
Definition start (s : State) : Loop := mkLoop s [] false "" "".

(** [_create_empty_preview] *)
Definition _create_empty_preview (w : World) : result (LoadUtils.Image * string) :=
  let canvas_size := Canvas._calculate_canvas_size (aspect_ratio w) in
  match LoadUtils.Image_new canvas_size [0; 0; 0; 0] with
  | Ok preview_image => Ok (preview_image, "没有找到组件配置")
  | Raise e => Raise e
  end.

(** The [except Exception as e] clause of [generate_preview]. *)
Definition on_exception (w : World) (str_e : string)
  : result (LoadUtils.Image * string) :=
  match _create_empty_preview w with
  | Ok (preview_image, _) => Ok (preview_image, "错误: " +:+ str_e)
  | Raise e => Raise e
  end.

(** [generate_preview] *)
Definition generate_preview (w : World) (s : State)
  : result (LoadUtils.Image * string) * State :=
  let use_cache := layer_cache s in
  match components s with
  | [] => (_create_empty_preview w, s)
  | _ :: _ =>
      match loop w use_cache (components s) 0 (start s) with
      | (Some str_e, lp) => (on_exception w str_e, state lp)
      | (None, lp) =>
          let background_info :=
            if nonempty (background_info lp) then background_info lp else "背景: 无" in
          let character_info :=
            if nonempty (character_info lp) then character_info lp else "角色: 无" in
          let canvas_size := Canvas._calculate_canvas_size (aspect_ratio w) in
          match generate_image_with_dll w canvas_size (cp_components lp) with
          | Threw str_e => (on_exception w str_e, state lp)
          | Went preview_image =>
              let s :=
                mkState (components (state lp)) true (draws (state lp)) in
              match preview_image with
              | Some preview_image =>
                  (Ok (preview_image,
                       character_info +:+ " | " +:+ background_info +:+ " | 生成成功"), s)
              | None =>
                  match LoadUtils.Image_new canvas_size [0; 0; 0; 0] with
                  | Ok preview_image =>
                      (Ok (preview_image,
                           character_info +:+ " | " +:+ background_info
                           +:+ " | 生成失败"), s)
                  | Raise e => (on_exception w (exn_message e), s)
                  end
              end
          end
      end
  end.

(** The components the renderer was handed. *)
Definition rendered (cp : list Rendered) : list Layer :=
  omap (fun r => match r with Comp c => Some c | UseCache => None end) cp.

(** A layer that carries an emotion forced on it. *)
Definition forced (component : Layer) : option Z :=
  if default false (force_use (base component)) then emotion_index (base component)
  else None.

(** What a round never changes in its component. *)
Definition same_settings (c c' : Layer) : Prop :=
  enabled (base c') = enabled (base c) /\
  type (base c') = type (base c) /\
  emotion_filter (base c') = emotion_filter (base c) /\
  use_fixed_character c' = use_fixed_character c /\
  use_fixed_background c' = use_fixed_background c.

(** The emotion a character layer ends up with: the forced one, whose
    mark is then removed; else the fixed one; else one of the filtered
    emotions or, when there is none, one of [1 .. emotion_count]. *)
Definition emotion_choice (w : World) (c c' : Layer) : Prop :=
  let name :=
    default (_get_current_character_from_layers w) (character_name (base c)) in
  match forced c with
  | Some idx => emotion_index (base c') = Some idx /\ force_use (base c') = None
  | None =>
      force_use (base c') = force_use (base c) /\
      match (if default false (use_fixed_character c)
             then emotion_index (base c) else None) with
      | Some idx => emotion_index (base c') = Some idx
      | None =>
          exists idx,
            emotion_index (base c') = Some idx /\
            match get_filtered_emotions w name
                    (default "全部" (emotion_filter (base c))) with
            | [] =>
                1 <= idx
                <= default 1 (p ← mahoshojo w !! name;
                              Config.emotion_count (character p))
            | filtered_emotions => idx ∈ filtered_emotions
            end
      end
  end.

(** What a round does to the component it renders. *)
Definition touched (w : World) (c c' : Layer) : Prop :=
  same_settings c c' /\
  (type (base c) = Some "character" ->
   emotion_choice w c c' /\
   scale1 c'
   = Some (default 1%float
             (p ← mahoshojo w
                  !! default (_get_current_character_from_layers w)
                       (character_name (base c));
              scale p))) /\
  (type (base c) <> Some "character" -> base c' = base c).

(** Whether a round hands its component to the renderer. *)
Definition shown (use_cache : bool) (c : Layer) : bool :=
  default true (enabled (base c)) && negb (cached use_cache c).

(** A component before and after its round. *)
Definition round (w : World) (use_cache : bool) (c c' : Layer) : Prop :=
  if shown use_cache c then touched w c c' else c' = c.

(** No two placeholders follow each other. *)
Fixpoint no_double_placeholder (cp : list Rendered) : Prop :=
  match cp with
  | UseCache :: ((UseCache :: _) as rest) => False
  | _ :: rest => no_double_placeholder rest
  | [] => True
  end.

End Preview.


(** ** load_utils.py: the caches over a sequence of calls, and the
    background preload *)

Module CacheOps.
Import Py LoadUtils.

(** One call into [load_utils]: a loader, with the file system and the
    character scale of the moment, or [clear_cache]. *)
Inductive Call : Type :=
| CallRead (fs : gmap string File) (character_scale : PrimFloat.float) (r : ImageRead)
| CallFont (fs : gmap string File) (font_name : string) (size : Z)
| CallClear (cache_type : string).

Section History.
Variable get_resource_path : string -> string.
Variable get_font_path : string -> string.
Variable os_path_join : list string -> string.
Variable system_font : string -> bool.
Variable lanczos : Z * Z -> Image -> Z -> Z -> RGBA.

Definition call (c : Call) (st : Store) : Store :=
  match c with
  | CallRead fs character_scale r =>
      (read fs get_resource_path os_path_join lanczos character_scale r st).2
  | CallFont fs font_name size =>
      (load_font_cached fs get_font_path system_font font_name size st).2
  | CallClear cache_type => clear_cache cache_type st
  end.

(** The store after a sequence of calls, starting with empty caches. *)
Definition after (calls : list Call) : Store :=
  foldl (fun st c => call c st) empty_store calls.

(** Every entry of an image partition refers to a live image, and every
    entry of the font partition to a live font. *)
Definition typed (st : Store) : Prop :=
  forall p key l,
    cache_of p st !! key = Some l ->
    match p with
    | PFont => exists f, heap st !! l = Some (FontObj f)
    | _ => exists img, heap st !! l = Some (ImgObj img)
    end.

(** What the observer of [preload_backgrounds_async] sees: the arguments
    of [update_status], one constructor per message format. *)
Inductive BackgroundEvent : Type :=
| BackgroundsStarted
| BackgroundProgress (background_index background_count : Z)
| BackgroundsCompleted
| BackgroundsFailed (e : exn).

(** The loop of [preload_task] in [preload_backgrounds_async], over the
    indices still to load. *)
Fixpoint preload_backgrounds (fs : gmap string File) (background_count : Z)
         (todo : list Z) (st : Store) (trace : list BackgroundEvent)
  : list BackgroundEvent * Store :=
  match todo with
  | [] => (trace ++ [BackgroundsCompleted], st)
  | background_index :: rest =>
      match load_background_safe fs get_resource_path os_path_join lanczos
              ("c" +:+ pretty background_index)
              background_default_size background_default_color st with
      | (Ok _, st') =>
          let trace :=
            if (background_index mod 5 =? 0) || (background_index =? background_count)
            then trace ++ [BackgroundProgress background_index background_count]
            else trace in
          preload_backgrounds fs background_count rest st' trace
      | (Raise e, st') => (trace ++ [BackgroundsFailed e], st')
      end
  end.

(** [preload_task], the body of the thread [preload_backgrounds_async]
    starts, run on its own. *)
Definition preload_task (fs : gmap string File) (background_count : Z) (st : Store)
  : list BackgroundEvent * Store :=
  preload_backgrounds fs background_count (seqZ 1 background_count) st
    [BackgroundsStarted].

End History.

End CacheOps.

(** ** load_utils.py: what the preload status says while the worker runs *)

Module PreloadStatus.
Import Py LoadUtils.

(** [get_preload_status] *)
Definition get_preload_status (p : Preload) : Z * Z * bool * option string :=
  (loaded_items p, total_items p, is_complete p, _current_character p).

(** The status agrees with where the worker is: never more items loaded
    than the total; once a task has been entered, its character and not
    complete, with the counts still those of the task before until the
    second locked section has run; and inside the loop, the task's
    emotion count and as many items loaded as updates of [loaded_items]
    were made. *)
Definition status_consistent (p : Preload) : Prop :=
  0 <= loaded_items p <= Z.max 0 (total_items p) /\
  match worker p with
  | Waiting | Taken _ => True
  | Counted c _ | Failing c =>
      is_complete p = false /\ _current_character p = Some c
  | LoopHead c i n =>
      get_preload_status p = (i - 1, n, false, Some c) /\ 1 <= i <= Z.max 0 n + 1
  | Loading c i n | Loaded c i n =>
      get_preload_status p = (i - 1, n, false, Some c) /\ 1 <= i <= n
  end.

End PreloadStatus.


(** ** Further sample data *)

Module MoreSamples.
Import Py Samples.

(** An analyzer with a client and the sample vocabulary. *)
Definition analyzer_ready : Sentiment.Analyzer :=
  Sentiment.mkAnalyzer (Some "ollama") true sample_emotions "RULE" None "" "" [].

(** A clipboard that is empty for two readings and then holds "hi". *)
Definition text_late (i : nat) : string * option Core.Bitmap :=
  if (i <? 2)%nat then ("", None) else ("hi", None).

Definition world_late : Core.World := make_world "win32" None text_late happy_backend.

(** A world whose allow-list names one application while another one is
    in the foreground. *)
Definition world_foreign : Core.World :=
  Core.mkWorld "win32" ["Chat.exe"] (fun _ => Some "notepad.exe") None text_hi
    (fun _ => 0%N) (fun text _ => Ok ("bmp:" +:+ text)) (fun _ => true) (fun _ => true)
    true true "a" sample_filtered sample_cast (fun _ => 1%nat) 42
    happy_backend ascii_lower id ∅.

(** The sentiment settings of [core_new]. *)
Definition settings_on_record : Core.SentimentSettings :=
  Core.mkSentimentSettings (Some true) (Some "ollama")
    {[ "ollama" := Sentiment.mkClientConfig None None (Some "qwen") ]}.

(** *** Previews *)

Definition one_pixel : LoadUtils.Image := LoadUtils.mkImage 1 1 (fun _ _ => (0, 0, 0, 255)).

(** Character "a" with a scale of 0.5, a renderer that always produces a
    picture, and no backgrounds. *)
Definition preview_world : Preview.World :=
  Preview.mkWorld "16:9" "a"
    {[ "a" := Preview.mkProfile
                (Config.mkCharacter (Some "Alice") (Some 3) {[ "开心" := [2; 3] ]})
                (Some "text") (Some 0.5%float) None ∅ ∅ ]}
    sample_filtered 0 [] (fun _ => 1%nat) (fun _ _ => "empty range")
    (fun _ _ => Preview.Went (Some one_pixel)).

Definition plain_layer (c : Core.Component) : Preview.Layer :=
  Preview.mkLayer c None None None None None None None None None.

(** A character layer on which emotion 3 was forced. *)
Definition forced_layer : Preview.Layer :=
  plain_layer (Core.mkComponent None (Some "character") (Some "a") None (Some 3) (Some true)).

(** The forced layer, a disabled layer and a name box, with the layer
    cache off. *)
Definition preview_state : Preview.State :=
  Preview.mkState
    [forced_layer;
     plain_layer (Core.mkComponent (Some false) (Some "character") (Some "b") None None None);
     plain_layer (Core.mkComponent None (Some "namebox") None None None None)]
    false 0.


(** *** Files *)

(** Only a JPEG of background [c1]. *)
Definition fs_jpg : gmap string LoadUtils.File :=
  {[ "assets/background/c1.jpg" :=
       LoadUtils.ImageFile (LoadUtils.mkImage 2560 10 (fun _ _ => (7, 7, 7, 255))) ]}.

(** The picture of "a (1)" is there but is not an image. *)
Definition fs_corrupt : gmap string LoadUtils.File :=
  {[ "assets/chara/a/a (1).png" := LoadUtils.OtherFile ]}.

(** A host on which every font is installed system-wide. *)
Definition every_system_font (path : string) : bool := true.

(** The store after one load of "a (1)" from [sample_fs]. *)
Definition one_load : list CacheOps.Call :=
  [CacheOps.CallRead sample_fs 1%float (LoadUtils.ReadCharacter "a" 1)].

Definition store_after_one_load : LoadUtils.Store :=
  CacheOps.after id sample_font_path sample_join no_system_font nearest one_load.

End MoreSamples.

(** * Properties *)

(** ** Canvas size *)

Module CanvasFacts.
Import Canvas.

(** C9: the canvas used for composition is 2560 wide; its height is 2048
    for the aspect ratio "5:4", 1440 for "16:9", and 854 for every other
    configured value. *)
Theorem canvas_size_by_ratio (ratio : string) :
  (_calculate_canvas_size ratio).1 = 2560 /\
  (ratio = "5:4" -> (_calculate_canvas_size ratio).2 = 2048) /\
  (ratio = "16:9" -> (_calculate_canvas_size ratio).2 = 1440) /\
  (ratio <> "5:4" -> ratio <> "16:9" -> (_calculate_canvas_size ratio).2 = 854).
Proof.
  unfold _calculate_canvas_size; cbn [fst snd].
  split; [reflexivity|].
  repeat split; intros; repeat case_decide; congruence.
Qed.

Lemma canvas_size_by_ratio_witness :
  _calculate_canvas_size "5:4" = (2560, 2048) /\
  _calculate_canvas_size "16:9" = (2560, 1440) /\
  _calculate_canvas_size "3:1" = (2560, 854).
Proof.
  destruct (canvas_size_by_ratio "5:4") as (W1 & H1 & _ & _).
  destruct (canvas_size_by_ratio "16:9") as (W2 & _ & H2 & _).
  destruct (canvas_size_by_ratio "3:1") as (W3 & _ & _ & H3).
  specialize (H1 eq_refl). specialize (H2 eq_refl).
  assert (N1 : "3:1" <> "5:4") by discriminate.
  assert (N2 : "3:1" <> "16:9") by discriminate.
  specialize (H3 N1 N2).
  repeat split; apply injective_projections; cbn [fst snd]; assumption.
Defined.

End CanvasFacts.

(** ** Cache partitions *)

Module CacheFacts.
Import Py LoadUtils Samples.

Lemma heap_set_cache_of p c st : heap (set_cache_of p c st) = heap st.
Proof. destruct p; reflexivity. Qed.

Lemma heap_set_heap h st : heap (set_heap h st) = h.
Proof. reflexivity. Qed.

Lemma cache_of_set_heap p h st : cache_of p (set_heap h st) = cache_of p st.
Proof. destruct p; reflexivity. Qed.

Lemma cache_of_set_cache_of p q c st :
  cache_of q (set_cache_of p c st) = if decide (p = q) then c else cache_of q st.
Proof. destruct p, q; reflexivity. Qed.

Lemma fresh_lookup (h : gmap positive Obj) : h !! fresh (dom h) = None.
Proof. apply not_elem_of_dom, is_fresh. Qed.

(** *** What an [image_get] guarantees *)

Section ImageGet.
Context {p : Partition} {key : string} {st st' : Store} {r : result positive}.
Hypothesis Hget : image_get p key st r st'.

(** Objects that existed before the read are still there, unchanged. *)
Lemma image_get_heap : heap st ⊆ heap st'.
Proof using Hget.
  destruct Hget; rewrite ?heap_set_heap; try reflexivity.
  - apply insert_subseteq, fresh_lookup.
  - etrans; [apply insert_subseteq, fresh_lookup|].
    apply insert_subseteq, fresh_lookup.
  - apply insert_subseteq, fresh_lookup.
Qed.

(** Entries are only added. *)
Lemma image_get_cache q : cache_of q st ⊆ cache_of q st'.
Proof using Hget.
  destruct Hget; rewrite ?cache_of_set_heap; try reflexivity.
  rewrite cache_of_set_cache_of. case_decide as E; [subst q|reflexivity].
  apply insert_subseteq. assumption.
Qed.

(** A master after the read was a master before, or is a new object. *)
Lemma image_get_master q k m :
  cache_of q st' !! k = Some m ->
  cache_of q st !! k = Some m \/ heap st !! m = None.
Proof using Hget.
  destruct Hget; rewrite ?cache_of_set_heap; auto.
  rewrite cache_of_set_cache_of. case_decide as E; [subst q|auto].
  rewrite lookup_insert. case_decide as E.
  - intros [= <-]. right. apply fresh_lookup.
  - auto.
Qed.

Lemma image_get_wf : wf st -> wf st'.
Proof using Hget.
  intros Hwf q k m Hm.
  destruct (image_get_master q k m Hm) as [Hold|Hnew].
  - destruct (Hwf q k m Hold) as [o Ho]. exists o.
    eapply lookup_weaken; [exact Ho|apply image_get_heap].
  - destruct Hget; rewrite ?cache_of_set_heap in Hm.
    + destruct (Hwf q k m Hm) as [o Ho]. congruence.
    + rewrite cache_of_set_cache_of in Hm. case_decide as E; [subst q|].
      * rewrite lookup_insert in Hm. case_decide as E'.
        -- injection Hm as <-. rewrite heap_set_heap.
           destruct (decide (fresh (dom (<[fresh (dom (heap st)) := ImgObj img]> (heap st)))
                             = fresh (dom (heap st)))) as [->|Hne].
           ++ rewrite lookup_insert_eq. eauto.
           ++ rewrite lookup_insert_ne by exact Hne. rewrite lookup_insert_eq. eauto.
        -- destruct (Hwf p k m Hm) as [o Ho]. congruence.
      * destruct (Hwf q k m Hm) as [o Ho]. congruence.
    + destruct (Hwf q k m Hm) as [o Ho]. congruence.
    + destruct (Hwf q k m Hm) as [o Ho]. congruence.
Qed.

End ImageGet.

Section ImageGetOk.
Context {p : Partition} {key : string} {st st' : Store} {l : positive}.
Hypothesis Hget : image_get p key st (Ok l) st'.

(** The object handed out did not exist before the read. *)
Lemma image_get_fresh : heap st !! l = None.
Proof using Hget.
  inversion Hget; subst; try apply fresh_lookup.
  pose proof (fresh_lookup (<[fresh (dom (heap st)) := ImgObj img]> (heap st))) as Hf.
  apply lookup_insert_None in Hf. tauto.
Qed.

(** It is an image. *)
Lemma image_get_image : exists img, heap st' !! l = Some (ImgObj img).
Proof using Hget.
  inversion Hget; subst; rewrite heap_set_heap, lookup_insert_eq; eauto.
Qed.

(** No partition refers to it. *)
Lemma image_get_not_master : wf st -> ~ master st' l.
Proof using Hget.
  intros Hwf (q & k & Hm).
  destruct (image_get_master Hget q k l Hm) as [Hold|Hnew].
  - destruct (Hwf q k l Hold) as [o Ho].
    rewrite image_get_fresh in Ho. discriminate.
  - inversion Hget; subst; rewrite ?cache_of_set_heap in Hm.
    + destruct (Hwf q k _ Hm) as [o Ho]. congruence.
    + rewrite cache_of_set_cache_of in Hm. case_decide as E; [subst q|].
      * rewrite lookup_insert in Hm. case_decide as E'.
        -- injection Hm as Hm.
           pose proof (fresh_lookup (<[fresh (dom (heap st)) := ImgObj img]> (heap st))) as Hf.
           rewrite <- Hm in Hf. rewrite lookup_insert_eq in Hf. discriminate.
        -- destruct (Hwf p k _ Hm) as [o Ho]. congruence.
      * destruct (Hwf q k _ Hm) as [o Ho]. congruence.
    + destruct (Hwf q k _ Hm) as [o Ho]. congruence.
Qed.

(** When the key is cached after the read, the object handed out holds
    what the master holds, and is not the master. *)
Lemma image_get_copy m :
  cache_of p st' !! key = Some m ->
  heap st' !! l = heap st' !! m /\ l <> m.
Proof using Hget.
  inversion Hget; subst; rewrite ?cache_of_set_heap, ?heap_set_heap.
  - intros Hm. assert (m = m0) as -> by congruence.
    assert (fresh (dom (heap st)) <> m0) as Hne.
    { intros E. pose proof (fresh_lookup (heap st)) as Hf. rewrite E in Hf. congruence. }
    split; [|assumption].
    rewrite lookup_insert_eq. rewrite lookup_insert_ne by exact Hne. congruence.
  - rewrite cache_of_set_cache_of. case_decide; [|congruence].
    rewrite lookup_insert_eq. intros [= <-].
    pose proof (fresh_lookup (<[fresh (dom (heap st)) := ImgObj img]> (heap st))) as Hf.
    apply lookup_insert_None in Hf. destruct Hf as [_ Hne].
    split; [|congruence].
    rewrite lookup_insert_eq. rewrite lookup_insert_ne by congruence.
    rewrite lookup_insert_eq. reflexivity.
  - congruence.
Qed.

End ImageGetOk.

(** *** The loaders are [image_get]s *)

Lemma get_hit_eq p key st m img r st' :
  cache_of p st !! key = Some m ->
  heap st !! m = Some (ImgObj img) ->
  r = Ok (fresh (dom (heap st))) ->
  st' = set_heap (<[fresh (dom (heap st)) := ImgObj img]> (heap st)) st ->
  image_get p key st r st'.
Proof. intros ? ? -> ->. eapply get_hit; eassumption. Qed.

Lemma get_fill_eq p key st img r st' :
  cache_of p st !! key = None ->
  r = Ok (fresh (dom (<[fresh (dom (heap st)) := ImgObj img]> (heap st)))) ->
  st' = set_heap
          (<[fresh (dom (<[fresh (dom (heap st)) := ImgObj img]> (heap st)))
             := ImgObj img]>
             (<[fresh (dom (heap st)) := ImgObj img]> (heap st)))
          (set_cache_of p (<[key := fresh (dom (heap st))]> (cache_of p st)) st) ->
  image_get p key st r st'.
Proof. intros ? -> ->. apply get_fill; assumption. Qed.

Lemma get_placeholder_eq p key st img r st' :
  cache_of p st !! key = None ->
  r = Ok (fresh (dom (heap st))) ->
  st' = set_heap (<[fresh (dom (heap st)) := ImgObj img]> (heap st)) st ->
  image_get p key st r st'.
Proof. intros ? -> ->. apply get_placeholder; assumption. Qed.

Ltac get_leaf :=
  first
    [ apply get_raise
    | eapply get_hit_eq; [eassumption|eassumption|reflexivity|reflexivity]
    | eapply get_fill_eq; [eassumption|reflexivity|reflexivity]
    | eapply get_placeholder_eq; [eassumption|reflexivity|reflexivity] ].

Ltac unfold_monad :=
  unfold try_except, bind, subscript, Image_copy, alloc, modify, lift, raise, ret.

Section Reads.
Variable fs : gmap string File.
Variable get_resource_path : string -> string.
Variable get_font_path : string -> string.
Variable os_path_join : list string -> string.
Variable system_font : string -> bool.
Variable lanczos : Z * Z -> Image -> Z -> Z -> RGBA.
Variable character_scale : PrimFloat.float.

(** The default image of [load_background_safe] is scaled from 800x600 to
    2560x1920. *)
Lemma scale_default_background (f : Z -> Z -> RGBA) :
  scale_to_width lanczos 2560 (mkImage 800 600 f)
  = Ok (mkImage 2560 1920 (lanczos (2560, 1920) (mkImage 800 600 f))).
Proof. vm_compute. reflexivity. Qed.

Lemma default_background_eq st :
  default_background lanczos background_default_size background_default_color st
  = (Ok (fresh (dom (heap st))),
     set_heap
       (<[fresh (dom (heap st)) :=
            ImgObj (mkImage 2560 1920
                      (lanczos (2560, 1920)
                         (mkImage 800 600 (fun _ _ => (100, 100, 200, 255)))))]>
          (heap st)) st).
Proof.
  unfold default_background; unfold_monad.
  replace (Image_new background_default_size background_default_color)
    with (Ok (mkImage 800 600 (fun _ _ => (100, 100, 200, 255))))
    by (vm_compute; reflexivity).
  rewrite scale_default_background. reflexivity.
Qed.

Lemma default_character_eq st :
  default_character character_default_size character_default_color st
  = (Ok (fresh (dom (heap st))),
     set_heap
       (<[fresh (dom (heap st)) :=
            ImgObj (mkImage 800 600 (fun _ _ => (0, 0, 0, 0)))]> (heap st)) st).
Proof. reflexivity. Qed.

Lemma load_image_cached_get image_path st :
  image_get PGeneral image_path st
    (load_image_cached fs image_path st).1 (load_image_cached fs image_path st).2.
Proof.
  unfold load_image_cached; unfold_monad.
  destruct (_general_image_cache st !! image_path) as [m|] eqn:Hc; cbn.
  - rewrite Hc. destruct (heap st !! m) as [[img|f]|] eqn:Hm; cbn; get_leaf.
  - destruct (negb (String.eqb image_path "") && path_exists fs image_path); cbn;
      [|get_leaf].
    destruct (Image_open_convert fs image_path) as [img|e]; cbn; [|get_leaf].
    rewrite lookup_insert_eq. cbn. rewrite lookup_insert_eq. cbn.
    eapply (get_fill_eq PGeneral); [exact Hc|reflexivity|reflexivity].
Qed.

Lemma load_background_safe_get background_name st :
  let r := load_background_safe fs get_resource_path os_path_join lanczos
             background_name background_default_size background_default_color st in
  image_get PBackground
    (get_background_path fs get_resource_path os_path_join background_name)
    st r.1 r.2.
Proof.
  unfold load_background_safe.
  set (key := get_background_path fs get_resource_path os_path_join background_name).
  unfold_monad.
  destruct (_background_cache st !! key) as [m|] eqn:Hc; cbn.
  - rewrite Hc. destruct (heap st !! m) as [[img|f]|] eqn:Hm; cbn; get_leaf.
  - assert (Hph : forall e : exn,
      let r := if is_FileNotFoundError e
               then default_background lanczos background_default_size
                      background_default_color st
               else (Raise e, st) in
      image_get PBackground key st r.1 r.2).
    { intros e. destruct (is_FileNotFoundError e); cbn zeta; [|get_leaf].
      rewrite default_background_eq. get_leaf. }
    destruct (path_exists fs key); cbn; [|apply (Hph (FileNotFoundError ("背景图片文件不存在: " +:+ key)))].
    destruct (Image_open_convert fs key) as [img|e]; cbn; [|apply Hph].
    destruct (scale_to_width lanczos 2560 img) as [img'|e]; cbn; [|apply Hph].
    rewrite lookup_insert_eq. cbn. rewrite lookup_insert_eq. cbn.
    eapply (get_fill_eq PBackground); [exact Hc|reflexivity|reflexivity].
Qed.

Lemma load_character_safe_get character_name emotion_index st :
  let r := load_character_safe fs get_resource_path os_path_join lanczos
             character_scale character_name emotion_index
             character_default_size character_default_color st in
  image_get PCharacter
    (rsplit1_head "."%char
       (get_character_path fs get_resource_path os_path_join character_name emotion_index))
    st r.1 r.2.
Proof.
  unfold load_character_safe.
  set (path := get_character_path fs get_resource_path os_path_join
                 character_name emotion_index).
  set (key := rsplit1_head "."%char path).
  unfold_monad.
  destruct (_character_cache st !! key) as [m|] eqn:Hc; cbn.
  - rewrite Hc. destruct (heap st !! m) as [[img|f]|] eqn:Hm; cbn; get_leaf.
  - assert (Hph : forall e : exn,
      let r := if is_FileNotFoundError e
               then default_character character_default_size
                      character_default_color st
               else (Raise e, st) in
      image_get PCharacter key st r.1 r.2).
    { intros e. destruct (is_FileNotFoundError e); cbn zeta; [|get_leaf].
      rewrite default_character_eq. get_leaf. }
    destruct (path_exists fs path); cbn; [|apply (Hph (FileNotFoundError ("角色图片文件不存在: " +:+ path)))].
    destruct (Image_open_convert fs path) as [img|e]; cbn; [|apply Hph].
    destruct (apply_scale lanczos character_scale img) as [img'|e]; cbn; [|apply Hph].
    rewrite lookup_insert_eq. cbn. rewrite lookup_insert_eq. cbn.
    eapply (get_fill_eq PCharacter); [exact Hc|reflexivity|reflexivity].
Qed.

Lemma read_get (r : ImageRead) st :
  let o := read fs get_resource_path os_path_join lanczos character_scale r st in
  image_get (partition_of r) (key_of fs get_resource_path os_path_join r) st o.1 o.2.
Proof.
  destruct r; cbn [read partition_of key_of].
  - apply load_image_cached_get.
  - apply load_background_safe_get.
  - apply load_character_safe_get.
Qed.

Abbreviation read_ := (read fs get_resource_path os_path_join lanczos character_scale).
Abbreviation key_of_ := (key_of fs get_resource_path os_path_join).
Abbreviation load_font_ := (load_font_cached fs get_font_path system_font).

Lemma mutate_other l g st l' : l <> l' -> heap (mutate l g st) !! l' = heap st !! l'.
Proof. intros Hne. unfold mutate. rewrite heap_set_heap. apply lookup_alter_ne, Hne. Qed.

(** C4 (amended): a read of the general, background or character
    partition hands out a new object, never a cached master: of two
    successive reads of the same key the two results differ from each other
    and from every master, the second holds what the master of the key
    holds, and changing either result in place changes neither the other
    nor any master.  A read of the font partition hands out the cached font
    object itself: when the font file exists or the key is cached, the
    result is the master and the next read returns the same object. *)
Theorem image_reads_copy_font_reads_share :
  (forall (r : ImageRead) st l1 st1 l2 st2,
     wf st ->
     read_ r st = (Ok l1, st1) ->
     read_ r st1 = (Ok l2, st2) ->
     l1 <> l2 /\ ~ master st2 l1 /\ ~ master st2 l2 /\
     (forall m, cache_of (partition_of r) st2 !! key_of_ r = Some m ->
                heap st2 !! l2 = heap st2 !! m) /\
     (forall g,
        heap (mutate l1 g st2) !! l2 = heap st2 !! l2 /\
        heap (mutate l2 g st2) !! l1 = heap st2 !! l1 /\
        (forall m, master st2 m ->
                   heap (mutate l1 g st2) !! m = heap st2 !! m /\
                   heap (mutate l2 g st2) !! m = heap st2 !! m))) /\
  (forall font_name size st l st1,
     path_exists fs (get_font_path font_name) = true \/
       is_Some (_font_cache st !! font_key font_name size) ->
     load_font_ font_name size st = (Ok l, st1) ->
     _font_cache st1 !! font_key font_name size = Some l /\
     load_font_ font_name size st1 = (Ok l, st1)).
Proof.
  split.
  - intros r st l1 st1 l2 st2 Hwf H1 H2.
    pose proof (read_get r st) as G1. cbn zeta in G1. rewrite H1 in G1. cbn [fst snd] in G1.
    pose proof (read_get r st1) as G2. cbn zeta in G2. rewrite H2 in G2. cbn [fst snd] in G2.
    pose proof (image_get_wf G1 Hwf) as Hwf1.
    destruct (image_get_image G1) as [img1 Hl1].
    pose proof (image_get_fresh G2) as Hl2.
    assert (Hne : l1 <> l2) by congruence.
    assert (Hm1 : ~ master st2 l1).
    { intros (q & k & Hm).
      destruct (image_get_master G2 q k l1 Hm) as [Hold|Hnew]; [|congruence].
      apply (image_get_not_master G1 Hwf). exists q, k. exact Hold. }
    assert (Hm2 : ~ master st2 l2) by exact (image_get_not_master G2 Hwf1).
    repeat split; try assumption.
    + intros m Hm. apply (image_get_copy G2 m Hm).
    + apply mutate_other, Hne.
    + apply mutate_other. congruence.
    + apply mutate_other. intros ->. contradiction.
    + apply mutate_other. intros ->. contradiction.
  - intros font_name size st l st1 Hsrc.
    unfold load_font_cached, font_key in *.
    set (key := font_name +:+ "_" +:+ pretty size) in *.
    unfold_monad.
    destruct (_font_cache st !! key) as [m|] eqn:Hc.
    + intros [= <- <-]. rewrite Hc. auto.
    + destruct Hsrc as [Hex|[? ?]]; [|discriminate].
      rewrite Hex.
      destruct (truetype fs system_font (get_font_path font_name) size) as [f|e];
        [|discriminate].
      cbn. rewrite lookup_insert_eq. intros [= <- <-]. cbn.
      rewrite lookup_insert_eq. auto.
Qed.

(** C2 (amended): when the source file is missing and nothing is cached
    under its key, [load_character_safe] does not raise and returns a new
    800x600 fully transparent image; [load_background_safe] does not raise
    and returns a new 2560x1920 image, the LANCZOS resize of an 800x600
    image filled with the opaque colour (100, 100, 200); and
    [load_image_cached] raises [FileNotFoundError] and leaves the store
    as it was. *)
Theorem missing_file_placeholders (st : Store) :
  (forall character_name emotion_index,
     let path := get_character_path fs get_resource_path os_path_join
                   character_name emotion_index in
     path_exists fs path = false ->
     _character_cache st !! rsplit1_head "."%char path = None ->
     exists img,
       load_character_safe fs get_resource_path os_path_join lanczos character_scale
         character_name emotion_index character_default_size character_default_color st
       = (Ok (fresh (dom (heap st))),
          set_heap (<[fresh (dom (heap st)) := ImgObj img]> (heap st)) st) /\
       width img = 800 /\ height img = 600 /\ fully_transparent img) /\
  (forall background_name,
     let path := get_background_path fs get_resource_path os_path_join background_name in
     path_exists fs path = false ->
     _background_cache st !! path = None ->
     exists img,
       load_background_safe fs get_resource_path os_path_join lanczos
         background_name background_default_size background_default_color st
       = (Ok (fresh (dom (heap st))),
          set_heap (<[fresh (dom (heap st)) := ImgObj img]> (heap st)) st) /\
       width img = 2560 /\ height img = 1920 /\
       pixel img = lanczos (2560, 1920)
                     (mkImage 800 600 (fun _ _ => (100, 100, 200, 255)))) /\
  (forall image_path,
     path_exists fs image_path = false ->
     _general_image_cache st !! image_path = None ->
     load_image_cached fs image_path st
     = (Raise (FileNotFoundError ("图片文件不存在: " +:+ image_path)), st)).
Proof.
  split; [|split].
  - intros character_name emotion_index path Hmiss Hc.
    exists (mkImage 800 600 (fun _ _ => (0, 0, 0, 0))).
    split; [|repeat split].
    unfold load_character_safe. fold path. unfold_monad.
    rewrite Hc, Hmiss. cbn [is_FileNotFoundError]. apply default_character_eq.
  - intros background_name path Hmiss Hc.
    exists (mkImage 2560 1920
              (lanczos (2560, 1920) (mkImage 800 600 (fun _ _ => (100, 100, 200, 255))))).
    split; [|repeat split].
    unfold load_background_safe. fold path. unfold_monad.
    rewrite Hc, Hmiss. cbn [is_FileNotFoundError]. apply default_background_eq.
  - intros image_path Hmiss Hc.
    unfold load_image_cached; unfold_monad.
    rewrite Hc, Hmiss, andb_false_r. reflexivity.
Qed.

End Reads.

Lemma wf_empty : wf empty_store.
Proof. intros [] k l; cbn; rewrite lookup_empty; discriminate. Qed.

Lemma image_reads_copy_font_reads_share_witness :
  exists l1 st1 l2 st2,
    sample_read (ReadCharacter "a" 1) empty_store = (Ok l1, st1) /\
    sample_read (ReadCharacter "a" 1) st1 = (Ok l2, st2) /\
    l1 <> l2 /\ ~ master st2 l1 /\ ~ master st2 l2 /\
    _font_cache (sample_font_get empty_store).2 !! "font3_12"
    = Some 1%positive.
Proof.
  destruct (image_reads_copy_font_reads_share sample_fs id sample_font_path
              sample_join no_system_font nearest 1%float) as [Himg Hfont].
  eexists _, _, _, _.
  split; [vm_compute; reflexivity|].
  split; [vm_compute; reflexivity|].
  destruct (Himg (ReadCharacter "a" 1) empty_store _ _ _ _ wf_empty
              ltac:(vm_compute; reflexivity) ltac:(vm_compute; reflexivity))
    as (Hne & Hm1 & Hm2 & _).
  split; [exact Hne|]. split; [exact Hm1|]. split; [exact Hm2|].
  refine (proj1 (Hfont "font3" 12 empty_store 1%positive
                   (sample_font_get empty_store).2 (or_introl eq_refl) _)).
  vm_compute. reflexivity.
Defined.

(** Against C4 as stated: two successive reads of a font return the same
    object, it is the cached master, and resizing it in place changes what
    the cache holds. *)
Lemma font_reads_share_the_master :
  exists l st1,
    sample_font_get empty_store = (Ok l, st1) /\
    sample_font_get st1 = (Ok l, st1) /\
    _font_cache st1 !! "font3_12" = Some l /\
    heap (mutate l enlarge st1) !! l
    = Some (FontObj (mkFont "fonts/font3.ttf" 99)) /\
    heap st1 !! l = Some (FontObj (mkFont "fonts/font3.ttf" 12)).
Proof.
  eexists _, _. split; [vm_compute; reflexivity|].
  repeat split; vm_compute; reflexivity.
Qed.

Lemma missing_file_placeholders_witness :
  (exists img,
     sample_read (ReadCharacter "a" 2) empty_store
     = (Ok 1%positive, set_heap {[ 1%positive := ImgObj img ]} empty_store) /\
     fully_transparent img) /\
  (exists img,
     sample_read (ReadBackground "c1") empty_store
     = (Ok 1%positive, set_heap {[ 1%positive := ImgObj img ]} empty_store) /\
     width img = 2560 /\ height img = 1920) /\
  sample_read (ReadGeneral "missing.png") empty_store
  = (Raise (FileNotFoundError "图片文件不存在: missing.png"), empty_store).
Proof.
  destruct (missing_file_placeholders sample_fs id sample_join nearest 1%float
              empty_store) as (Hch & Hbg & Hgen).
  split; [|split].
  - destruct (Hch "a" 2 eq_refl eq_refl) as (img & Heq & _ & _ & Htr).
    exists img. split; [exact Heq|exact Htr].
  - destruct (Hbg "c1" eq_refl eq_refl) as (img & Heq & Hw & Hh & _).
    exists img. split; [exact Heq|]. split; assumption.
  - exact (Hgen "missing.png" eq_refl eq_refl).
Defined.

(** Against C2 as stated: the general-image read of a missing file raises
    [FileNotFoundError], and the placeholder for a missing background is
    opaque (alpha 255), not transparent. *)
Lemma missing_general_image_raises_and_background_default_is_opaque :
  sample_read (ReadGeneral "missing.png") empty_store
  = (Raise (FileNotFoundError "图片文件不存在: missing.png"), empty_store) /\
  exists l st img,
    sample_read (ReadBackground "c1") empty_store = (Ok l, st) /\
    heap st !! l = Some (ImgObj img) /\
    width img = 2560 /\ alpha (pixel img 0 0) = 255.
Proof.
  split; [vm_compute; reflexivity|].
  eexists _, _, _. split; [vm_compute; reflexivity|].
  split; [vm_compute; reflexivity|]. split; reflexivity.
Qed.


(** C7: clearing one partition leaves the others as they were.  After
    [clear_cache "character"] the font, background and general partitions
    (and the objects on the heap) are exactly the prior ones and the
    character partition is empty; the same holds for each other partition
    name, and a name other than "all" never changes a partition it does not
    name. *)
Theorem clear_cache_partition_isolation (st : Store) :
  clear_cache "character" st
  = mkStore (heap st) (_font_cache st) (_background_cache st) ∅
      (_general_image_cache st) /\
  clear_cache "font" st
  = mkStore (heap st) ∅ (_background_cache st) (_character_cache st)
      (_general_image_cache st) /\
  clear_cache "background" st
  = mkStore (heap st) (_font_cache st) ∅ (_character_cache st)
      (_general_image_cache st) /\
  clear_cache "image" st
  = mkStore (heap st) (_font_cache st) (_background_cache st)
      (_character_cache st) ∅ /\
  (forall cache_type, cache_type <> "all" ->
     heap (clear_cache cache_type st) = heap st /\
     (cache_type <> "font" ->
      _font_cache (clear_cache cache_type st) = _font_cache st) /\
     (cache_type <> "background" ->
      _background_cache (clear_cache cache_type st) = _background_cache st) /\
     (cache_type <> "character" ->
      _character_cache (clear_cache cache_type st) = _character_cache st) /\
     (cache_type <> "image" ->
      _general_image_cache (clear_cache cache_type st) = _general_image_cache st)).
Proof.
  do 4 (split; [reflexivity|]).
  intros cache_type Hall. unfold clear_cache.
  assert (E : forall p, bool_decide (cache_type ∈ [p; "all"])
                        = bool_decide (cache_type = p)).
  { intros p. apply bool_decide_ext.
    rewrite !elem_of_cons, elem_of_nil.
    split; [intros [?|[?|?]]; [assumption|contradiction|contradiction]|].
    intros ?; left; assumption. }
  rewrite !E.
  repeat case_bool_decide; repeat split; intros; congruence.
Qed.

Lemma clear_cache_partition_isolation_witness :
  _font_cache (clear_cache "character" sample_store) = _font_cache sample_store /\
  _background_cache (clear_cache "character" sample_store)
  = _background_cache sample_store /\
  _general_image_cache (clear_cache "character" sample_store)
  = _general_image_cache sample_store /\
  _character_cache (clear_cache "character" sample_store) = ∅.
Proof.
  destruct (clear_cache_partition_isolation sample_store) as (Hc & _ & _ & _ & Hg).
  assert (N : "character" <> "all") by discriminate.
  destruct (Hg "character" N) as (_ & Hf & Hb & _ & Hi).
  split; [apply Hf; discriminate|].
  split; [apply Hb; discriminate|].
  split; [apply Hi; discriminate|].
  rewrite Hc. reflexivity.
Defined.

(** *** The invariant [wf] holds along every use of the cache *)

Lemma clear_cache_wf cache_type st : wf st -> wf (clear_cache cache_type st).
Proof.
  intros Hwf q k l Hl.
  assert (Hh : heap (clear_cache cache_type st) = heap st).
  { unfold clear_cache. repeat case_bool_decide; reflexivity. }
  rewrite Hh. apply (Hwf q k l).
  revert Hl. unfold clear_cache.
  repeat case_bool_decide; destruct q; cbn;
    rewrite ?lookup_empty; (discriminate || trivial).
Qed.

Lemma mutate_wf l g st : wf st -> wf (mutate l g st).
Proof.
  intros Hwf q k m Hm. unfold mutate in *.
  rewrite cache_of_set_heap in Hm. rewrite heap_set_heap.
  destruct (Hwf q k m Hm) as [o Ho].
  rewrite lookup_alter. case_decide; subst; rewrite Ho; cbn; eauto.
Qed.

Lemma load_font_cached_wf fs get_font_path system_font font_name size st :
  wf st -> wf (load_font_cached fs get_font_path system_font font_name size st).2.
Proof.
  intros Hwf. unfold load_font_cached. unfold_monad.
  assert (Halloc : forall o, wf (set_heap (<[fresh (dom (heap st)) := o]> (heap st)) st)).
  { intros o q k m Hm. rewrite cache_of_set_heap in Hm. rewrite heap_set_heap.
    destruct (Hwf q k m Hm) as [o' Ho'].
    exists o'. rewrite lookup_insert_ne; [exact Ho'|].
    intros E. pose proof (fresh_lookup (heap st)) as Hf. rewrite E in Hf. congruence. }
  destruct (_font_cache st !! (font_name +:+ "_" +:+ pretty size)) as [m|] eqn:Hc.
  - exact Hwf.
  - destruct (path_exists fs (get_font_path font_name)).
    + destruct (truetype fs system_font (get_font_path font_name) size) as [f|e]; cbn.
      * rewrite lookup_insert_eq. cbn.
        intros q k m Hm.
        change (is_Some (<[fresh (dom (heap st)) := FontObj f]> (heap st) !! m)).
        assert (Hold : forall q' k', cache_of q' st !! k' = Some m ->
                  is_Some (<[fresh (dom (heap st)) := FontObj f]> (heap st) !! m)).
        { intros q' k' Hm'. destruct (Halloc (FontObj f) q' k' m) as [o Ho]; [|eauto].
          rewrite cache_of_set_heap. exact Hm'. }
        destruct q; cbn in Hm;
          [|exact (Hold PBackground k Hm)|exact (Hold PCharacter k Hm)
           |exact (Hold PGeneral k Hm)].
        rewrite lookup_insert in Hm. case_decide.
        -- injection Hm as <-. rewrite lookup_insert_eq. eauto.
        -- exact (Hold PFont k Hm).
      * exact Hwf.
    + destruct (truetype fs system_font (get_font_path font_name) size) as [f|e]; cbn.
      * apply Halloc.
      * exact Hwf.
Qed.

End CacheFacts.

(** ** Preload scheduler *)

Module PreloadFacts.
Import Py LoadUtils Samples CacheFacts.

Section Scheduler.
Variable fs : gmap string File.
Variable get_resource_path : string -> string.
Variable os_path_join : list string -> string.
Variable lanczos : Z * Z -> Image -> Z -> Z -> RGBA.
Variable character_scale : PrimFloat.float.
Variable mahoshojo : gmap string Config.Character.
Variable preload_character : bool.

Abbreviation step_ :=
  (worker_step fs get_resource_path os_path_join lanczos character_scale
     mahoshojo preload_character).
Abbreviation act_ :=
  (act fs get_resource_path os_path_join lanczos character_scale
     mahoshojo preload_character).
Abbreviation run_ :=
  (run fs get_resource_path os_path_join lanczos character_scale
     mahoshojo preload_character).
















End Scheduler.


End PreloadFacts.

(** ** Sentiment handshake and the dispatch pipeline *)

Module CoreFacts.
Import Py Core Samples.

(** *** The cut step *)

(** C8: in the "direct" cut mode the code presses the control key on every
    platform, macOS included, where the other two modes (and the paste step)
    choose the command key; the direct mode does send the cut keystroke
    alone, with no selecting keystrokes before it. *)
Theorem direct_cut_presses_ctrl_on_macos :
  (forall platform,
     cut_keystrokes platform "direct"
     = [Press Key_ctrl; Press (KeyChar "x"); Release (KeyChar "x"); Release Key_ctrl]) /\
  cut_keystrokes "darwin" "direct"
  = [Press Key_ctrl; Press (KeyChar "x"); Release (KeyChar "x"); Release Key_ctrl] /\
  cut_keystrokes "win32" "direct"
  = [Press Key_ctrl; Press (KeyChar "x"); Release (KeyChar "x"); Release Key_ctrl] /\
  cut_keystrokes "darwin" "full"
  = [Press Key_cmd; Press (KeyChar "a"); Release (KeyChar "a");
     Press (KeyChar "x"); Release (KeyChar "x"); Release Key_cmd] /\
  cut_keystrokes "win32" "full"
  = [Press Key_ctrl; Press (KeyChar "a"); Release (KeyChar "a");
     Press (KeyChar "x"); Release (KeyChar "x"); Release Key_ctrl] /\
  cut_keystrokes "darwin" "single_line"
  = [Press Key_shift; Press Key_home; Release Key_home; Release Key_shift;
     Sleep 0.01%float;
     Press Key_cmd; Press (KeyChar "x"); Release (KeyChar "x"); Release Key_cmd] /\
  cut_keystrokes "win32" "single_line"
  = [Press Key_end; Release Key_end;
     Press Key_shift; Press Key_home; Release Key_home; Release Key_shift;
     Sleep 0.01%float;
     Press Key_ctrl; Press (KeyChar "x"); Release (KeyChar "x"); Release Key_ctrl].
Proof. split; [intros platform; reflexivity|]. repeat split; reflexivity. Qed.

(** *** The handshake *)

(** Whatever the backend does, [initialize] hands back a true value unless
    the connection test succeeded and the handshake request then raised. *)
Lemma initialize_false_only_on_exception backend str_lower available_models
      client_type config a :
  Sentiment.truthy
    (Sentiment.initialize backend str_lower available_models client_type config a).1
  = false ->
  exists a1 a2 e,
    Sentiment.initialize_client backend client_type config a
    = (Sentiment.PyTuple [Sentiment.PyBool true; Sentiment.PyStr ""], a1) /\
    Sentiment._send_request backend available_models (Sentiment.rule_prompt a1) a1
    = (Raise e, a2).
Proof.
  unfold Sentiment.initialize.
  unfold Sentiment.initialize_client, Sentiment._test_connection.
  destruct (Sentiment.create _ _ _ _) as [[content|e] a1]; cbn [fst snd].
  - destruct content as [c|]; cbn.
    + destruct (Sentiment._send_request _ _ _ _) as [[response|e] a2] eqn:Hreq;
        cbn; [discriminate|].
      intros _. eauto.
    + discriminate.
  - cbn. discriminate.
Qed.

(** A true value sends [init_task] down its success branch. *)
Lemma init_task_follows_truth_value (w : World) (s : State) :
  settings_enabled (sentiment_matching s) = true ->
  Sentiment.truthy
    (Sentiment.initialize (backend w) (str_lower w) (available_models w)
       (default "ollama" (m ← sentiment_matching s; ai_model m))
       (default (Sentiment.mkClientConfig None None None)
          (m ← sentiment_matching s;
           model_configs m !! default "ollama" (m ← sentiment_matching s; ai_model m)))
       (sentiment_analyzer s)).1 = true ->
  initialized (init_task w s) = true /\
  sentiment_matching (init_task w s) = sentiment_matching s /\
  saved_sentiment_matching (init_task w s) = saved_sentiment_matching s.
Proof.
  intros Hen Htrue. unfold init_task.
  cbn [_notify_gui_status_change set_initializing emit sentiment_matching].
  rewrite Hen.
  cbn [set_current_config sentiment_analyzer].
  destruct (Sentiment.initialize _ _ _ _ _ _) as [v a]. cbn [fst] in Htrue.
  rewrite Htrue. repeat split.
Qed.

(** C1: when the backend is unreachable, and when it answers without naming
    any emotion, [initialize] hands back a pair, which [init_task] tests as
    true: the core reports success, marks the analyzer initialized and
    leaves sentiment matching enabled, nothing being saved.  Only when the
    handshake request itself raises does the core report the failure,
    disable the feature and save the settings. *)
Theorem failed_handshake_reported_as_success :
  (Sentiment.initialize offline_backend ascii_lower ∅ "ollama"
     (Sentiment.mkClientConfig None None (Some "qwen"))
     (Sentiment.new_analyzer sample_emotions "RULE")).1
  = Sentiment.PyTuple
      [Sentiment.PyBool false;
       Sentiment.PyExn (ConnectionError "Connection refused")] /\
  initialized (init_task world_offline core_new) = true /\
  settings_enabled (sentiment_matching (init_task world_offline core_new)) = true /\
  effects (init_task world_offline core_new)
  = [GuiStatus false false true;
     Status "情感分析器初始化完成，功能已启用";
     GuiStatus true true false] /\
  (Sentiment.initialize unacknowledging_backend ascii_lower ∅ "ollama"
     (Sentiment.mkClientConfig None None (Some "qwen"))
     (Sentiment.new_analyzer sample_emotions "RULE")).1
  = Sentiment.PyTuple [Sentiment.PyBool false; Sentiment.PyStr ""] /\
  initialized (init_task world_unacknowledged core_new) = true /\
  settings_enabled (sentiment_matching (init_task world_unacknowledged core_new)) = true /\
  effects (init_task world_unacknowledged core_new)
  = [GuiStatus false false true;
     Status "情感分析器初始化完成，功能已启用";
     GuiStatus true true false] /\
  initialized (init_task world_dropping core_new) = false /\
  settings_enabled (sentiment_matching (init_task world_dropping core_new)) = false /\
  settings_enabled (saved_sentiment_matching (init_task world_dropping core_new)) = false /\
  effects (init_task world_dropping core_new)
  = [GuiStatus false false true;
     Status "情感分析器初始化失败，功能已禁用";
     GuiStatus false false false;
     SaveGuiSettings;
     Status "情感匹配功能已禁用"].
Proof. repeat split; vm_compute; reflexivity. Qed.

(** *** The sentiment branch *)

(** An enabled character layer with an empty filtered list ends the update
    with [False], whatever was updated before it and whatever follows. *)
Lemma update_layers_stops_at_empty_filter (w : World) sentiment current_character
      component rest i updated s :
  default true (enabled component) = true ->
  type component = Some "character" ->
  get_filtered_emotions w
    (default current_character (character_name component))
    (default "全部" (emotion_filter component)) = [] ->
  update_layers w sentiment current_character (component :: rest) i updated s
  = (false, s).
Proof.
  intros Hen Hty Hf. cbn [update_layers].
  rewrite Hen, Hty, Hf. reflexivity.
Qed.

(** When no enabled character layer has an empty filtered list, the update
    does to every layer what it is meant to, answers whether some layer had
    a match (or one was updated before), and clears the cache exactly
    then. *)
Lemma update_layers_without_empty_filter (w : World) (sentiment current_character : string) :
  forall todo pre updated s,
    components s = pre ++ todo ->
    (forall c, c ∈ todo -> is_character_layer c = true ->
               filtered_of w current_character c <> []) ->
    let r := update_layers w sentiment current_character todo (length pre) updated s in
    r.1 = updated || existsb (has_match w sentiment current_character) todo /\
    effects r.2 = effects s ++ (if r.1 then [ClearCache] else []) /\
    exists todo',
      components r.2 = pre ++ todo' /\
      Forall2 (layer_updated w sentiment current_character) todo todo'.
Proof.
  induction todo as [|c rest IH]; intros pre updated s Hcs Hfilt; cbn zeta.
  - cbn [update_layers existsb]. rewrite orb_false_r.
    destruct updated; cbn [fst snd emit effects components].
    + split; [reflexivity|]. split; [reflexivity|]. exists []. split; [exact Hcs|constructor].
    + split; [reflexivity|]. rewrite app_nil_r. split; [reflexivity|].
      exists []. split; [exact Hcs|constructor].
  - assert (Hpre : components s = (pre ++ [c]) ++ rest)
      by (rewrite <- app_assoc; exact Hcs).
    assert (Hlen : S (length pre) = length (pre ++ [c]))
      by (rewrite length_app; cbn; lia).
    assert (Hrest : forall c', c' ∈ rest -> is_character_layer c' = true ->
                               filtered_of w current_character c' <> []).
    { intros c' Hin. apply Hfilt. apply elem_of_cons. auto. }
    assert (Hskip : has_match w sentiment current_character c = false ->
      let r := update_layers w sentiment current_character rest (S (length pre)) updated s in
      r.1 = updated || existsb (has_match w sentiment current_character) (c :: rest) /\
      effects r.2 = effects s ++ (if r.1 then [ClearCache] else []) /\
      exists todo',
        components r.2 = pre ++ todo' /\
        Forall2 (layer_updated w sentiment current_character) (c :: rest) todo').
    { intros Hno. cbn zeta. rewrite Hlen.
      destruct (IH (pre ++ [c]) updated s Hpre Hrest) as (Hr & He & todo' & Hc' & Hall).
      cbn [existsb]. rewrite Hno. cbn [orb].
      split; [exact Hr|]. split; [exact He|].
      exists (c :: todo'). split; [rewrite Hc', <- app_assoc; reflexivity|].
      constructor; [|exact Hall]. unfold layer_updated. rewrite Hno. reflexivity. }
    cbn [update_layers].
    destruct (default true (enabled c)) eqn:Hen; cbn [negb].
    2:{ apply Hskip. unfold has_match, is_character_layer. rewrite Hen. reflexivity. }
    case_bool_decide as Hty.
    2:{ apply Hskip. unfold has_match, is_character_layer.
        rewrite Hen, (bool_decide_eq_false_2 _ Hty). reflexivity. }
    assert (Hch : is_character_layer c = true).
    { unfold is_character_layer. rewrite Hen, (bool_decide_eq_true_2 _ Hty). reflexivity. }
    pose proof (Hfilt c ltac:(apply elem_of_cons; auto) Hch) as Hne.
    unfold filtered_of in Hne.
    destruct (get_filtered_emotions w (default current_character (character_name c))
                (default "全部" (emotion_filter c))) as [|f0 frest] eqn:Hf;
      [congruence|].
    fold (filtered_of w current_character c) in Hf.
    assert (Hav : filter (fun idx => idx ∈ f0 :: frest)
                    (default []
                       (cfg ← mahoshojo w !! default current_character (character_name c);
                        Config.by_sentiment cfg !! sentiment))
                  = matching_emotions w sentiment current_character c).
    { unfold matching_emotions. rewrite Hf. reflexivity. }
    rewrite Hav.
    destruct (matching_emotions w sentiment current_character c) as [|first more] eqn:Hm.
    { apply Hskip. unfold has_match. rewrite Hm. apply andb_false_r. }
    set (idx := nth (random w (draws s) mod length (first :: more))%nat (first :: more) first).
    assert (Hidx : idx ∈ first :: more).
    { apply list_elem_of_In, nth_In, Nat.mod_upper_bound. cbn. lia. }
    set (c' := mkComponent (enabled c) (type c) (character_name c) (emotion_filter c)
                 (Some idx) (Some true)).
    match goal with
    | |- context [update_layers _ _ _ rest (S (length pre)) true ?s1] => set (s1' := s1)
    end.
    assert (Hcs1 : components s1' = (pre ++ [c']) ++ rest).
    { subst s1'. cbn [components set_base_msg set_components set_draws].
      rewrite Hcs, insert_app_r_alt by lia.
      rewrite Nat.sub_diag, <- app_assoc. reflexivity. }
    assert (Hlen' : S (length pre) = length (pre ++ [c']))
      by (rewrite length_app; cbn; lia).
    rewrite Hlen'.
    destruct (IH (pre ++ [c']) true s1' Hcs1 Hrest) as (Hr & He & todo' & Hc' & Hall).
    assert (Hhm : has_match w sentiment current_character c = true).
    { unfold has_match. rewrite Hch, Hm. reflexivity. }
    cbn [orb] in Hr.
    split; [rewrite Hr; cbn [existsb]; rewrite Hhm, orb_true_r; reflexivity|].
    split.
    { rewrite He. subst s1'. reflexivity. }
    exists (c' :: todo'). split; [rewrite Hc', <- app_assoc; reflexivity|].
    constructor; [|exact Hall].
    unfold layer_updated. rewrite Hhm.
    exists idx. split; [rewrite Hm; exact Hidx|reflexivity].
Qed.

(** The loop over the layers does not talk to the model. *)
Lemma update_layers_analyzer (w : World) (sentiment current_character : string) :
  forall todo i updated s,
    sentiment_analyzer (update_layers w sentiment current_character todo i updated s).2
    = sentiment_analyzer s.
Proof.
  induction todo as [|c rest IH]; intros i updated s; cbn [update_layers].
  - destruct updated; reflexivity.
  - destruct (negb (default true (enabled c))); [apply IH|].
    case_bool_decide; [|apply IH].
    destruct (get_filtered_emotions w _ _); [reflexivity|].
    destruct (filter _ _); [apply IH|].
    rewrite IH. reflexivity.
Qed.

(** One sentiment update sends at most one request to the model. *)
Lemma update_emotion_sends_at_most_one_request (w : World) (text : string) (s : State) :
  (length (Sentiment.requests
             (sentiment_analyzer (_update_emotion_by_sentiment w text s).2))
   <= S (length (Sentiment.requests (sentiment_analyzer s))))%nat.
Proof.
  unfold _update_emotion_by_sentiment.
  destruct (initialized s); cbn [negb]; [|cbn; lia].
  assert (Hreq : (length (Sentiment.requests
                    (Sentiment.analyze_sentiment (backend w) (re_sub_nonword w)
                       (available_models w) text (sentiment_analyzer s)).2)
                  <= S (length (Sentiment.requests (sentiment_analyzer s))))%nat).
  { unfold Sentiment.analyze_sentiment, Sentiment._send_request_with_prompt,
      Sentiment.create.
    destruct (Sentiment.current_client (sentiment_analyzer s)) as [c|]; [|cbn; lia].
    destruct (negb (nonempty c)); [cbn; lia|].
    destruct (available_models w !! c) as [entry|];
      [destruct (Sentiment.model entry)|];
      try (cbn; lia);
      destruct (backend w _ _) as [[content|]|e]; cbn; rewrite ?length_app; cbn; lia. }
  destruct (Sentiment.analyze_sentiment _ _ _ _ _) as [sentiment a]. cbn [snd] in Hreq.
  destruct sentiment as [sentiment|]; [|exact Hreq].
  destruct (negb (nonempty sentiment)); [exact Hreq|].
  rewrite update_layers_analyzer. exact Hreq.
Qed.

(** C3: with the layers "a" (two matching emotions) and "b" (empty filtered
    list), one classification is run and "a" gets emotion 3 of its matching
    set [2; 3] with [force_use] set, but on reaching "b" the update returns
    [False]: neither the cache is cleared nor the preview recomputed.  With
    "b" first, "a" is not updated at all. *)
Theorem empty_filter_layer_aborts_sentiment_update :
  components (generate_image world_hi (core_ready [layer "a"; layer "b"])).2
  = [mkComponent None (Some "character") (Some "a") None (Some 3) (Some true);
     layer "b"] /\
  length (Sentiment.requests
            (sentiment_analyzer
               (generate_image world_hi (core_ready [layer "a"; layer "b"])).2)) = 1%nat /\
  effects (generate_image world_hi (core_ready [layer "a"; layer "b"])).2
  = [ClearClipboard; Sleep 0.005%float;
     Press Key_ctrl; Press (KeyChar "a"); Release (KeyChar "a");
     Press (KeyChar "x"); Release (KeyChar "x"); Release Key_ctrl;
     GetClipboardAll;
     DrawContentAuto "hi" None; CopyImageToClipboard "bmp:hi";
     HasImageInClipboard] /\
  components (generate_image world_hi (core_ready [layer "b"; layer "a"])).2
  = [layer "b"; layer "a"] /\
  effects (generate_image world_hi (core_ready [layer "a"])).2
  = [ClearClipboard; Sleep 0.005%float;
     Press Key_ctrl; Press (KeyChar "a"); Release (KeyChar "a");
     Press (KeyChar "x"); Release (KeyChar "x"); Release Key_ctrl;
     GetClipboardAll;
     ClearCache; GeneratePreview;
     DrawContentAuto "hi" None; CopyImageToClipboard "bmp:hi";
     HasImageInClipboard].
Proof. repeat split; vm_compute; reflexivity. Qed.

(** *** Clipboard polling *)

(** The loop itself makes no composition attempt. *)
Lemma polling_effects_quiet (p : Polled) :
  forallb (fun e => negb (composition_attempt e)) (polling_effects p) = true.
Proof.
  unfold polling_effects.
  assert (H : forall n,
    forallb (fun e => negb (composition_attempt e))
      (mjoin (replicate n [GetClipboardAll; Sleep 0.005%float])) = true).
  { induction n as [|n IHn]; [reflexivity|]. cbn. exact IHn. }
  destruct (stopped_early p); [|apply H].
  rewrite forallb_app, H. reflexivity.
Qed.

Lemma cut_keystrokes_quiet (platform cut_mode : string) :
  forallb (fun e => negb (composition_attempt e)) (cut_keystrokes platform cut_mode)
  = true.
Proof.
  unfold cut_keystrokes.
  repeat case_bool_decide; destruct (startswith platform "win"); reflexivity.
Qed.

(** The clock of the polling loop: every round takes at least 5 ms, so
    the deadline is reached within 500 rounds, and there is a first round
    at which the clock has reached it. *)
Lemma time_at_lower (w : World) (j : nat) : 5000 * Z.of_nat j <= time_at w j.
Proof. induction j as [|j IH]; cbn [time_at]; lia. Qed.

Lemma time_at_mono (w : World) (a b : nat) : (a <= b)%nat -> time_at w a <= time_at w b.
Proof. intros Hab. induction Hab as [|b Hab IH]; [lia|]. cbn [time_at]. lia. Qed.

Lemma deadline_round (w : World) :
  exists n,
    (0 < n <= 500)%nat /\
    (forall k, (k < n)%nat -> time_at w k < deadline) /\
    deadline <= time_at w n.
Proof.
  assert (H : forall b, deadline <= time_at w b ->
            exists n, (n <= b)%nat /\
              (forall k, (k < n)%nat -> time_at w k < deadline) /\
              deadline <= time_at w n).
  { induction b as [|b IH]; intros Hb.
    - exists 0%nat. split; [lia|]. split; [intros k Hk; lia|exact Hb].
    - destruct (Z.le_gt_cases deadline (time_at w b)) as [Hle|Hgt].
      + destruct (IH Hle) as (n & Hn & Hbefore & Hafter).
        exists n. split; [lia|]. split; assumption.
      + exists (S b). split; [lia|]. split; [|exact Hb].
        intros k Hk. pose proof (time_at_mono w k b ltac:(lia)). lia. }
  destruct (H 500%nat) as (n & Hn & Hbefore & Hafter).
  { pose proof (time_at_lower w 500). unfold deadline. lia. }
  exists n. split; [|split; assumption].
  split; [|exact Hn].
  destruct n as [|n]; [|lia]. cbn [time_at] in Hafter. unfold deadline in Hafter. lia.
Qed.

(** When no reading stops the loop, it reads the clipboard once per round
    up to the first round at which the clock has reached the deadline, and
    ends with the reading of the round before in hand. *)
Lemma poll_clipboard_deadline (w : World) (n : nat) :
  (forall k, stop_polling (clipboard w k) = false) ->
  (0 < n)%nat ->
  (forall k, (k < n)%nat -> time_at w k < deadline) ->
  deadline <= time_at w n ->
  forall fuel i last,
    (i <= n)%nat -> (n - i <= fuel)%nat ->
    ((0 < i)%nat -> last = Some (clipboard w (i - 1))) ->
    poll_clipboard w fuel i (time_at w i) last
    = Some (mkPolled (clipboard w (n - 1)).1 (clipboard w (n - 1)).2 n
              (time_at w n) false).
Proof.
  intros Hgo Hn Hbefore Hafter.
  assert (Hend : forall fuel last,
            last = Some (clipboard w (n - 1)) ->
            poll_clipboard w fuel n (time_at w n) last
            = Some (mkPolled (clipboard w (n - 1)).1 (clipboard w (n - 1)).2 n
                      (time_at w n) false)).
  { intros fuel last ->. destruct fuel; cbn [poll_clipboard];
      (destruct (Z.ltb_spec (time_at w n) deadline) as [Hlt|Hge]; [lia|reflexivity]). }
  induction fuel as [|fuel IH]; intros i last Hi Hfuel Hlast.
  - assert (i = n) as -> by lia. apply Hend, Hlast, Hn.
  - destruct (decide (i = n)) as [->|Hne]; [apply Hend, Hlast, Hn|].
    cbn [poll_clipboard].
    destruct (Z.ltb_spec (time_at w i) deadline) as [Hlt|Hge].
    2:{ pose proof (Hbefore i ltac:(lia)). lia. }
    rewrite Hgo.
    change (time_at w i + 5000 + Z.of_N (lag w i)) with (time_at w (S i)).
    apply IH; [lia|lia|].
    intros _. replace (S i - 1)%nat with i by lia. reflexivity.
Qed.

(** Polling always comes to an end with a reading in hand. *)
Lemma poll_clipboard_total (w : World) :
  forall fuel i now last,
    deadline - now <= 5000 * Z.of_nat fuel ->
    (last = None -> now < deadline) ->
    is_Some (poll_clipboard w fuel i now last).
Proof.
  induction fuel as [|fuel IH]; intros i now last Hfuel Hlast; cbn [poll_clipboard].
  - destruct (Z.ltb_spec now deadline) as [Hlt|Hge]; [lia|].
    destruct last as [r|]; [eauto|specialize (Hlast eq_refl); lia].
  - destruct (Z.ltb_spec now deadline) as [Hlt|Hge].
    + destruct (stop_polling (clipboard w i)); [eauto|].
      apply IH; [lia|discriminate].
    + destruct last as [r|]; [eauto|specialize (Hlast eq_refl); lia].
Qed.

(** When polling was not stopped by a reading, the clock has reached the
    deadline and the reading in hand is one that does not stop the loop. *)
Lemma poll_not_stopped (w : World) :
  forall fuel i now last p,
    (forall r, last = Some r -> stop_polling r = false) ->
    poll_clipboard w fuel i now last = Some p ->
    stopped_early p = false ->
    deadline <= finished_at p /\ stop_polling (text p, image p) = false.
Proof.
  induction fuel as [|fuel IH]; intros i now last p Hlast; cbn [poll_clipboard].
  - destruct (Z.ltb_spec now deadline) as [Hlt|Hge]; [discriminate|].
    destruct last as [r|]; [|discriminate].
    intros [= <-] _. cbn. split; [assumption|].
    rewrite <- (Hlast r eq_refl). destruct r; reflexivity.
  - destruct (Z.ltb_spec now deadline) as [Hlt|Hge].
    + destruct (stop_polling (clipboard w i)) eqn:Hstop.
      * intros [= <-]. discriminate.
      * apply IH. intros r [= <-]. exact Hstop.
    + destruct last as [r|]; [|discriminate].
      intros [= <-] _. cbn. split; [assumption|].
      rewrite <- (Hlast r eq_refl). destruct r; reflexivity.
Qed.

(** C5: when the foreground application is allowed, polling always ends
    with an outcome; and when it ended at the deadline (no reading stopped
    it) with the empty text in hand, there is no image either,
    [generate_image] returns exactly the "no content" result, and all it
    has done by then is clear the clipboard, send the cut keystrokes and
    poll: no renderer call, no preview, no copy-back. *)
Theorem deadline_without_content_returns_no_content (w : World) (s : State) :
  _active_process_allowed w 0 = true ->
  (exists p, poll_clipboard w poll_rounds 0 0 None = Some p) /\
  (forall p,
     poll_clipboard w poll_rounds 0 0 None = Some p ->
     stopped_early p = false ->
     text p = "" ->
     deadline <= finished_at p /\
     image p = None /\
     (generate_image w s).1 = Ok no_content /\
     effects (generate_image w s).2
     = effects s
       ++ [ClearClipboard; Sleep 0.005%float]
       ++ cut_keystrokes (platform w) (default "full" (cut_mode w))
       ++ polling_effects p /\
     forallb (fun e => negb (composition_attempt e))
       (drop (length (effects s)) (effects (generate_image w s).2)) = true).
Proof.
  intros Hallowed. split.
  { apply (poll_clipboard_total w poll_rounds 0%nat 0 None).
    - unfold deadline, poll_rounds. lia.
    - intros _. unfold deadline. lia. }
  intros p Hp Hs Ht.
  destruct (poll_not_stopped w poll_rounds 0%nat 0 None p) as [Hf Hstop];
    [discriminate|assumption|assumption|].
  assert (Hi : image p = None).
  { unfold stop_polling in Hstop. cbn [fst snd] in Hstop.
    apply orb_false_elim in Hstop as [_ Hstop].
    apply bool_decide_eq_false in Hstop.
    destruct (image p); [exfalso; apply Hstop; eauto|reflexivity]. }
  do 2 (split; [assumption|]).
  unfold generate_image. rewrite Hallowed, Hp. cbn [negb].
  rewrite Ht, Hi.
  replace (nonempty (strip "")) with false by reflexivity.
  rewrite andb_false_r. cbn [bool_decide decide_rel].
  assert (Heff : effects
            (emit (polling_effects p)
               (emit (cut_keystrokes (platform w) (default "full" (cut_mode w)))
                  (emit [ClearClipboard; Sleep 0.005%float] (set_base_msg "" s))))
          = effects s ++ [ClearClipboard; Sleep 0.005%float]
            ++ cut_keystrokes (platform w) (default "full" (cut_mode w))
            ++ polling_effects p).
  { cbn [emit effects set_base_msg]. rewrite <- !app_assoc. reflexivity. }
  replace (bool_decide ("" = "") && bool_decide (@None Bitmap = None)) with true
    by reflexivity.
  cbn [fst snd]. split; [reflexivity|]. split; [exact Heff|].
  rewrite Heff, drop_app_length.
  rewrite !forallb_app, cut_keystrokes_quiet, polling_effects_quiet. reflexivity.
Qed.

Lemma deadline_without_content_returns_no_content_witness :
  poll_clipboard world_empty poll_rounds 0 0 None
  = Some (mkPolled "" None 500 2500000 false) /\
  (generate_image world_empty (core_ready [layer "a"])).1 = Ok no_content.
Proof.
  assert (Hp : poll_clipboard world_empty poll_rounds 0 0 None
               = Some (mkPolled "" None 500 2500000 false))
    by (vm_compute; reflexivity).
  destruct (deadline_without_content_returns_no_content world_empty
              (core_ready [layer "a"]) eq_refl) as [_ H].
  destruct (H _ Hp eq_refl eq_refl) as (_ & _ & Hres & _).
  split; [exact Hp|exact Hres].
Defined.

(** The waits of the confirmation loop add up to 0.5 s within ten rounds:
    more fuel than ten changes nothing. *)
Lemma confirm_clipboard_ten_rounds (w : World) (extra : nat) (s : State) :
  confirm_clipboard w (10 + extra) 0 0.01%float 0%float s
  = confirm_clipboard w 10 0 0.01%float 0%float s.
Proof.
  cbn [Nat.add].
  do 10 (cbn [confirm_clipboard];
         match goal with
         | |- context [PrimFloat.ltb ?a ?b] =>
             let v := eval vm_compute in (PrimFloat.ltb a b) in
             change (PrimFloat.ltb a b) with v
         end; cbn iota;
         match goal with
         | |- context [has_image_in_clipboard w ?k] =>
             destruct (has_image_in_clipboard w k); [reflexivity|]
         end).
  destruct extra; cbn [confirm_clipboard]; [reflexivity|].
  match goal with
  | |- context [PrimFloat.ltb ?a ?b] =>
      let v := eval vm_compute in (PrimFloat.ltb a b) in
      change (PrimFloat.ltb a b) with v
  end. reflexivity.
Qed.
(** The confirmation loop only appends effects. *)
Lemma confirm_clipboard_frame (w : World) :
  forall fuel k wait total s,
    base_msg (confirm_clipboard w fuel k wait total s) = base_msg s /\
    exists new,
      effects (confirm_clipboard w fuel k wait total s) = effects s ++ new.
Proof.
  induction fuel as [|fuel IH]; intros k wait total s; cbn [confirm_clipboard].
  - split; [reflexivity|]. exists []. symmetry. apply app_nil_r.
  - destruct (PrimFloat.ltb total 0.5%float).
    + destruct (has_image_in_clipboard w k).
      * split; [reflexivity|]. eexists. reflexivity.
      * edestruct IH as [Hb [new Hnew]]. rewrite Hb, Hnew. split; [reflexivity|].
        cbn [emit effects]. rewrite <- !app_assoc. eexists. reflexivity.
    + split; [reflexivity|]. exists []. symmetry. apply app_nil_r.
Qed.

(** C10: when the foreground application is allowed and every reading of
    the clipboard is a non-empty text of whitespace only with no image, no
    reading stops the polling: the loop reads the clipboard once per
    round until the clock has reached the deadline, [n] rounds in all,
    and keeps the last reading.  That text is not the empty string, so the
    empty guard lets it through: [generate_image] does not return the
    "no content" result, and right after the [n] readings, with no
    sentiment request in between, it calls the renderer with the
    whitespace text of the last reading. *)
Theorem blank_clipboard_text_is_composed (w : World) (s : State) :
  _active_process_allowed w 0 = true ->
  (forall i, exists t, clipboard w i = (t, None) /\ t <> "" /\ strip t = "") ->
  exists n : nat,
    (0 < n <= 500)%nat /\
    (forall k, (k < n)%nat -> time_at w k < deadline) /\
    deadline <= time_at w n /\
    poll_clipboard w poll_rounds 0 0 None
    = Some (mkPolled (clipboard w (n - 1)).1 None n (time_at w n) false) /\
    (clipboard w (n - 1)).1 <> "" /\
    strip (clipboard w (n - 1)).1 = "" /\
    (generate_image w s).1 <> Ok no_content /\
    exists rest,
      effects (generate_image w s).2
      = effects s
        ++ [ClearClipboard; Sleep 0.005%float]
        ++ cut_keystrokes (platform w) (default "full" (cut_mode w))
        ++ mjoin (replicate n [GetClipboardAll; Sleep 0.005%float])
        ++ DrawContentAuto (clipboard w (n - 1)).1 None :: rest.
Proof.
  intros Hallowed Hclip.
  assert (Hgo : forall j, stop_polling (clipboard w j) = false).
  { intros i. destruct (Hclip i) as (t & -> & _ & Hstrip).
    unfold stop_polling. cbn [fst snd]. rewrite Hstrip. cbn.
    rewrite andb_false_r. reflexivity. }
  destruct (deadline_round w) as (n & Hn & Hbefore & Hafter).
  exists n. do 3 (split; [assumption|]).
  pose proof (poll_clipboard_deadline w n Hgo ltac:(lia) Hbefore Hafter
                poll_rounds 0%nat None ltac:(lia) ltac:(unfold poll_rounds; lia)
                ltac:(intros H; lia)) as Hp.
  cbn [time_at] in Hp.
  destruct (Hclip (n - 1)%nat) as (t & Ht & Hne & Hstrip).
  rewrite Ht in *. cbn [fst snd] in *.
  split; [exact Hp|]. do 2 (split; [assumption|]).
  unfold generate_image. rewrite Hallowed, Hp. cbn [negb text image].
  rewrite Hstrip. replace (nonempty "") with false by reflexivity.
  rewrite andb_false_r.
  rewrite (bool_decide_eq_false_2 _ Hne). cbn [andb].
  unfold polling_effects. cbn [stopped_early reads].
  set (s1 := emit [DrawContentAuto t None] _).
  assert (He1 : effects s1
                = effects s
                  ++ [ClearClipboard; Sleep 0.005%float]
                  ++ cut_keystrokes (platform w) (default "full" (cut_mode w))
                  ++ mjoin (replicate n [GetClipboardAll; Sleep 0.005%float])
                  ++ [DrawContentAuto t None]).
  { subst s1. cbn [emit effects set_base_msg]. rewrite <- !app_assoc. reflexivity. }
  assert (Hmsg : base_msg s1 = "") by reflexivity.
  assert (Hfin : forall (l extra : list Effect),
            l = effects s1 ++ extra ->
            exists rest,
              l = effects s
                  ++ [ClearClipboard; Sleep 0.005%float]
                  ++ cut_keystrokes (platform w) (default "full" (cut_mode w))
                  ++ mjoin (replicate n [GetClipboardAll; Sleep 0.005%float])
                  ++ DrawContentAuto t None :: rest).
  { intros l extra ->. exists extra. rewrite He1, <- !app_assoc. reflexivity. }
  clearbody s1.
  destruct (draw_content_auto w t None) as [bmp|e]; cbn [fst snd].
  2:{ split; [discriminate|]. apply (Hfin _ []). symmetry. apply app_nil_r. }
  destruct (copy_image_to_clipboard w bmp); cbn [negb fst snd].
  2:{ split; [discriminate|]. apply (Hfin _ [CopyImageToClipboard bmp]). reflexivity. }
  destruct (confirm_clipboard_frame w 16 0 0.01%float 0%float
              (emit [CopyImageToClipboard bmp] s1)) as [Hb [new Hnew]].
  set (s2 := confirm_clipboard w 16 0 0.01%float 0%float _) in *.
  assert (Hmsg2 : base_msg s2 = "").
  { rewrite Hb. exact Hmsg. }
  cbn [emit effects] in Hnew. clearbody s2.
  destruct (AUTO_PASTE_IMAGE w); [|cbn [fst snd base_msg set_base_msg effects]].
  - destruct (_active_process_allowed w 1); cbn [negb].
    + destruct (AUTO_SEND_IMAGE w);
        cbn [fst snd base_msg set_base_msg emit effects]; rewrite Hmsg2;
        (split; [discriminate|]); rewrite Hnew, <- !app_assoc;
        eapply Hfin; reflexivity.
    + cbn [fst snd emit effects]. split; [discriminate|].
      rewrite Hnew, <- !app_assoc. eapply Hfin. reflexivity.
  - rewrite Hmsg2. split; [discriminate|]. rewrite Hnew, <- !app_assoc.
    eapply Hfin. reflexivity.
Qed.

Lemma blank_clipboard_text_is_composed_witness :
  poll_clipboard world_blank poll_rounds 0 0 None
  = Some (mkPolled "  " None 500 2500000 false) /\
  (generate_image world_blank (core_ready [layer "a"])).1 <> Ok no_content /\
  DrawContentAuto "  " None
    ∈ effects (generate_image world_blank (core_ready [layer "a"])).2.
Proof.
  assert (Hclip : forall i : nat,
            exists t, clipboard world_blank i = (t, None) /\ t <> "" /\ strip t = "").
  { intros i. exists "  ". repeat split. discriminate. }
  destruct (blank_clipboard_text_is_composed world_blank (core_ready [layer "a"])
              eq_refl Hclip) as (n & _ & _ & _ & _ & _ & _ & Hres & rest & He).
  split; [vm_compute; reflexivity|]. split; [exact Hres|].
  rewrite He. change (clipboard world_blank (n - 1)%nat) with ("  ", @None Bitmap).
  cbn [fst]. do 4 (apply elem_of_app; right). apply elem_of_cons. left. reflexivity.
Defined.

End CoreFacts.

(** * Further properties of the code *)

(** ** The sentiment client's answers *)

Module SentimentFacts.
Import Py Sentiment SentimentOptions Samples MoreSamples.

(** The branches of [initialize] in which the model did not acknowledge. *)
Ltac unanswered :=
  cbn; rewrite ?length_app; cbn;
  (split; [reflexivity|]); (split; [reflexivity|]); (split; [lia|]);
  (split; [discriminate|]); intros ? ?; congruence.

Section Answers.
Variable backend : nat -> Request -> result (option string).
Variable str_lower : string -> string.
Variable re_sub_nonword : string -> string.
Variable available_models : gmap string ClientConfig.

Lemma send_request_keeps_vocabulary message custom_prompt a :
  emotion_list (_send_request_with_prompt backend available_models
                  message custom_prompt a).2 = emotion_list a /\
  current_client (_send_request_with_prompt backend available_models
                    message custom_prompt a).2 = current_client a.
Proof.
  unfold _send_request_with_prompt, create.
  destruct (current_client a) as [c|] eqn:Hc.
  - destruct (available_models !! c) as [entry|]; [destruct (model entry)|];
      try (cbn; rewrite ?Hc; split; reflexivity);
      destruct (backend _ _) as [[content|]|e]; cbn; split; reflexivity.
  - destruct (backend _ _) as [[content|]|e]; cbn; split; reflexivity.
Qed.

Lemma analyze_sentiment_word (text : string) (a : Analyzer) (w : string) :
  (analyze_sentiment backend re_sub_nonword available_models text a).1 = Some w ->
  w ∈ emotion_list a /\ w <> "".
Proof.
  unfold analyze_sentiment.
  destruct (current_client a) as [c|]; [|discriminate].
  destruct (negb (nonempty c)); [discriminate|].
  pose proof (send_request_keeps_vocabulary text None a) as [Hv _].
  destruct (_send_request_with_prompt _ _ _ _ _) as [[response|e] a'];
    cbn [fst snd] in *; [|discriminate].
  unfold _extract_emotion. rewrite Hv.
  case_bool_decide as Hin; [|discriminate].
  destruct (nonempty (re_sub_nonword response)) eqn:Hne; [|discriminate].
  intros [= <-]. split; [exact Hin|].
  intros E. rewrite E in Hne. discriminate.
Qed.

(** X1: a classification is either nothing or a non-empty word of the
    closed emotion vocabulary, and the vocabulary and the client are the
    same afterwards; without a client no request is sent. *)
Theorem analyze_sentiment_in_vocabulary (text : string) (a : Analyzer) :
  (forall w,
     (analyze_sentiment backend re_sub_nonword available_models text a).1 = Some w ->
     w ∈ emotion_list a /\ w <> "") /\
  emotion_list (analyze_sentiment backend re_sub_nonword available_models text a).2
  = emotion_list a /\
  (current_client a = None ->
   analyze_sentiment backend re_sub_nonword available_models text a = (None, a)).
Proof.
  split; [intros w; apply analyze_sentiment_word|]. split.
  - unfold analyze_sentiment.
    destruct (current_client a) as [c|]; [|reflexivity].
    destruct (negb (nonempty c)); [reflexivity|].
    pose proof (send_request_keeps_vocabulary text None a) as [Hv _].
    destruct (_send_request_with_prompt _ _ _ _ _) as [[response|e] a'];
      cbn [fst snd] in *; exact Hv.
  - intros Hc. unfold analyze_sentiment. rewrite Hc. reflexivity.
Qed.

(** What [_extract_option] finds is one of the options, related to the
    reply in one of the three ways. *)
Lemma extract_option_sound response options o :
  _extract_option str_lower response options = Some o ->
  o ∈ options /\
  (o = strip response \/
   contains o (strip response) = true \/
   contains (str_lower o) (str_lower (strip response)) = true).
Proof.
  unfold _extract_option.
  destruct (find (fun option => bool_decide (option = strip response)) options)
    as [o1|] eqn:H1.
  { intros [= <-]. apply find_some in H1 as [Hin Heq].
    apply bool_decide_eq_true in Heq. split; [apply list_elem_of_In, Hin|auto]. }
  destruct (find (fun option => contains option (strip response)) options)
    as [o2|] eqn:H2.
  { intros [= <-]. apply find_some in H2 as [Hin Hc].
    split; [apply list_elem_of_In, Hin|auto]. }
  intros H3. apply find_some in H3 as [Hin Hc].
  split; [apply list_elem_of_In, Hin|auto].
Qed.

(** X2: [_extract_option] only ever answers with one of the options, and a
    reply that is exactly an option (up to surrounding whitespace) is
    answered with that very option, even when an earlier option is
    contained in it. *)
Theorem extract_option_prefers_exact_match (response : string) (options : list string) :
  (forall o, _extract_option str_lower response options = Some o -> o ∈ options) /\
  (strip response ∈ options ->
   _extract_option str_lower response options = Some (strip response)).
Proof.
  split.
  - intros o Ho. exact (proj1 (extract_option_sound response options o Ho)).
  - intros Hin. unfold _extract_option.
    destruct (find (fun option => bool_decide (option = strip response)) options)
      as [o1|] eqn:H1.
    + apply find_some in H1 as [_ Heq]. apply bool_decide_eq_true in Heq.
      rewrite Heq. reflexivity.
    + exfalso. apply list_elem_of_In in Hin.
      pose proof (find_none _ _ H1 _ Hin) as Hf. cbn in Hf.
      apply bool_decide_eq_false in Hf. congruence.
Qed.

(** X3: with a client set and at least one option, the options mode always
    answers, and always with one of the options, whatever the backend
    replies or raises; with no option it answers nothing and sends no
    request.  When the request raises, and when no option is found in the
    reply, the answer is the first option. *)
Theorem options_mode_always_answers (text : string) (options : list string)
        (a : Analyzer) :
  (forall c,
     current_client a = Some c -> c <> "" -> options <> [] ->
     exists o,
       (analyze_sentiment_with_options backend str_lower available_models
          text options a).1 = Some o /\
       o ∈ options) /\
  analyze_sentiment_with_options backend str_lower available_models text [] a
  = (None, a) /\
  (forall c first rest,
     current_client a = Some c -> c <> "" -> options = first :: rest ->
     let request :=
       _send_request_with_prompt backend available_models text
         (Some (options_prompt options)) a in
     let answer :=
       (analyze_sentiment_with_options backend str_lower available_models
          text options a).1 in
     (forall e, request.1 = Raise e -> answer = Some first) /\
     (forall response,
        request.1 = Ok response ->
        _extract_option str_lower response options = None ->
        answer = Some first)).
Proof.
  split; [|split].
  3:{ intros c first rest Hc Hne ->. cbn zeta.
      unfold analyze_sentiment_with_options. rewrite Hc.
      destruct c as [|ch c']; [congruence|]. cbn [nonempty negb].
      destruct (_send_request_with_prompt _ _ _ _ _) as [[response|e] a'];
        cbn [fst snd].
      - split; [discriminate|]. intros r [= <-] ->. reflexivity.
      - split; [reflexivity|discriminate]. }
  - intros c Hc Hne Hopt. unfold analyze_sentiment_with_options. rewrite Hc.
    destruct c as [|ch c']; [congruence|]. cbn [nonempty negb].
    destruct options as [|first rest]; [congruence|].
    assert (Hfirst : first ∈ first :: rest) by (apply elem_of_cons; auto).
    destruct (_send_request_with_prompt _ _ _ _ _) as [[response|e] a'];
      cbn [fst snd]; [|eauto].
    destruct (_extract_option str_lower response (first :: rest)) as [o|] eqn:Ho;
      [|eauto].
    destruct (nonempty o); [|eauto].
    exists o. split; [reflexivity|].
    exact (proj1 (extract_option_sound response _ o Ho)).
  - unfold analyze_sentiment_with_options.
    destruct (current_client a) as [c|]; [|reflexivity].
    destruct (negb (nonempty c)); reflexivity.
Qed.

(** X4: [initialize] always makes [client_type] the current client and
    keeps the vocabulary; it sends the connection test and at most one
    more request, the handshake.  It hands back the pair [(True, "")] only
    with the analyzer marked initialized; and an analyzer that was not
    initialized before is marked initialized only in that case, the
    handshake reply then containing, in lower case, a word of the
    vocabulary. *)
Theorem initialize_marks_acknowledged_analyzers (client_type : string)
        (config : ClientConfig) (a : Analyzer) :
  let r := initialize backend str_lower available_models client_type config a in
  current_client r.2 = Some client_type /\
  emotion_list r.2 = emotion_list a /\
  (length (requests a) < length (requests r.2) <= length (requests a) + 2)%nat /\
  (r.1 = PyTuple [PyBool true; PyStr ""] -> is_initialized r.2 = true) /\
  (is_initialized a = false -> is_initialized r.2 = true ->
   r.1 = PyTuple [PyBool true; PyStr ""] /\
   exists keyword n req content,
     keyword ∈ emotion_list a /\
     backend n req = Ok (Some content) /\
     contains keyword (str_lower (strip content)) = true).
Proof.
  cbn zeta. unfold initialize, initialize_client, _test_connection, _send_request,
    _send_request_with_prompt, create.
  cbn [current_client is_initialized emotion_list rule_prompt selected_emotion
         openai_api_key openai_base_url requests].
  destruct (backend (length (requests a)) _) as [content|e]; [|unanswered].
  destruct content as [content|];
    [|rewrite bool_decide_eq_false_2 by (intros [? ?]; discriminate); unanswered].
  rewrite bool_decide_eq_true_2 by eauto. cbn [truthy].
  cbn [current_client requests rule_prompt emotion_list].
  assert (Hack : forall (reply : string) (n : nat) (req : Request) (a2 : Analyzer),
            backend n req = Ok (Some reply) ->
            current_client a2 = Some client_type ->
            emotion_list a2 = emotion_list a ->
            (length (requests a) < length (requests a2) <= length (requests a) + 2)%nat ->
            let ok := existsb (fun keyword => contains keyword (str_lower (strip reply)))
                        (emotion_list a2) in
            current_client (set_is_initialized ok a2) = Some client_type /\
            emotion_list (set_is_initialized ok a2) = emotion_list a /\
            (length (requests a) < length (requests (set_is_initialized ok a2))
             <= length (requests a) + 2)%nat /\
            (PyTuple [PyBool ok; PyStr ""] = PyTuple [PyBool true; PyStr ""] ->
             is_initialized (set_is_initialized ok a2) = true) /\
            (is_initialized a = false ->
             is_initialized (set_is_initialized ok a2) = true ->
             PyTuple [PyBool ok; PyStr ""] = PyTuple [PyBool true; PyStr ""] /\
             exists keyword n req content,
               keyword ∈ emotion_list a /\
               backend n req = Ok (Some content) /\
               contains keyword (str_lower (strip content)) = true)).
  { intros reply n req a2 Hb Hc He Hl ok.
    cbn [set_is_initialized current_client emotion_list requests is_initialized].
    do 3 (split; [assumption|]). split; [intros [= ->]; reflexivity|].
    intros _ Hok. rewrite Hok. split; [reflexivity|].
    subst ok. apply existsb_exists in Hok as (keyword & Hin & Hk).
    exists keyword, n, req, reply.
    split; [rewrite <- He; apply list_elem_of_In, Hin|]. split; [exact Hb|exact Hk]. }
  destruct (available_models !! client_type) as [entry|].
  - destruct (model entry) as [m|]; [|unanswered].
    destruct (backend (length (requests a ++ _)) _) as [[reply|]|e] eqn:Hb;
      [|unanswered|unanswered].
    cbn [fst snd]. eapply Hack; [exact Hb|reflexivity|reflexivity|].
    cbn [requests]. rewrite !length_app. cbn. lia.
  - destruct (backend (length (requests a ++ _)) _) as [[reply|]|e] eqn:Hb;
      [|unanswered|unanswered].
    cbn [fst snd]. eapply Hack; [exact Hb|reflexivity|reflexivity|].
    cbn [requests]. rewrite !length_app. cbn. lia.
Qed.

End Answers.

Lemma initialize_marks_acknowledged_analyzers_witness :
  is_initialized
    (initialize happy_backend ascii_lower ∅ "ollama"
       (mkClientConfig None None (Some "qwen")) (new_analyzer sample_emotions "RULE")).2
  = true.
Proof.
  destruct (initialize_marks_acknowledged_analyzers happy_backend ascii_lower ∅ "ollama"
              (mkClientConfig None None (Some "qwen"))
              (new_analyzer sample_emotions "RULE")) as (_ & _ & _ & H & _).
  apply H. vm_compute. reflexivity.
Defined.

Lemma analyze_sentiment_in_vocabulary_witness :
  (analyze_sentiment happy_backend id ∅ "hi" analyzer_ready).1 = Some "开心" /\
  "开心" ∈ emotion_list analyzer_ready /\ "开心" <> "".
Proof.
  assert (E : (analyze_sentiment happy_backend id ∅ "hi" analyzer_ready).1 = Some "开心")
    by (vm_compute; reflexivity).
  destruct (analyze_sentiment_in_vocabulary happy_backend id ∅ "hi" analyzer_ready)
    as [H _].
  split; [exact E|exact (H _ E)].
Defined.

Lemma extract_option_prefers_exact_match_witness :
  _extract_option ascii_lower " 不开心 " ["开心"; "不开心"] = Some "不开心".
Proof.
  assert (E : strip " 不开心 " = "不开心") by (vm_compute; reflexivity).
  destruct (extract_option_prefers_exact_match ascii_lower " 不开心 " ["开心"; "不开心"])
    as [_ H].
  rewrite E in H. apply H.
  apply elem_of_cons. right. apply elem_of_cons. left. reflexivity.
Defined.

Lemma options_mode_always_answers_witness :
  exists o,
    (analyze_sentiment_with_options offline_backend ascii_lower ∅ "hi" ["笑"; "哭"]
       analyzer_ready).1 = Some o /\
    o ∈ ["笑"; "哭"].
Proof.
  destruct (options_mode_always_answers offline_backend ascii_lower ∅ "hi" ["笑"; "哭"]
              analyzer_ready) as [H _].
  apply (H "ollama"); [reflexivity|discriminate|discriminate].
Defined.

End SentimentFacts.

(** ** One run of the pipeline *)

Module PipelineFacts.
Import Py Core CoreControl Samples MoreSamples.

Lemma keys_after_app (a b : list Effect) : forall held,
  keys_after held (a ++ b) = held' ← keys_after held a; keys_after held' b.
Proof.
  induction a as [|e a IH]; intros held; [reflexivity|].
  destruct e; cbn [keys_after app]; try apply IH.
  destruct (release k held); [apply IH|reflexivity].
Qed.

Lemma balanced_app (a b : list Effect) : balanced a -> balanced b -> balanced (a ++ b).
Proof.
  intros Ha Hb held. rewrite keys_after_app, Ha. cbn. apply Hb.
Qed.

Lemma balanced_keyless (es : list Effect) : forallb keyless es = true -> balanced es.
Proof.
  induction es as [|e es IH]; intros H held; [reflexivity|].
  cbn in H. apply andb_prop in H as [He Hes].
  destruct e; try discriminate; cbn [keys_after]; apply IH, Hes.
Qed.

Lemma release_head (k : Key) (held : list Key) : release k (k :: held) = Some held.
Proof. cbn. destruct (decide (k = k)); [reflexivity|congruence]. Qed.

Ltac balance :=
  intros held; cbn [keys_after]; rewrite ?release_head; cbn [keys_after];
  try reflexivity.

Lemma cut_keystrokes_balanced (platform cut_mode : string) :
  balanced (cut_keystrokes platform cut_mode).
Proof.
  unfold cut_keystrokes.
  repeat case_bool_decide; destruct (startswith platform "win"); balance.
Qed.

Lemma polling_effects_keyless (p : Polled) :
  forallb keyless (polling_effects p) = true /\
  confirmation_checks (polling_effects p) = 0%nat.
Proof.
  unfold polling_effects, confirmation_checks.
  assert (H : forall n,
    forallb keyless (mjoin (replicate n [GetClipboardAll; Sleep 0.005%float])) = true /\
    List.filter is_check (mjoin (replicate n [GetClipboardAll; Sleep 0.005%float])) = []).
  { induction n as [|n IHn]; [split; reflexivity|]. cbn. exact IHn. }
  destruct (stopped_early p); [|destruct (H (reads p)) as [-> ->]; split; reflexivity].
  destruct (H (reads p - 1)%nat) as [Hk Hc].
  rewrite forallb_app, Hk, List.filter_app, Hc. split; reflexivity.
Qed.

Lemma checks_app (a b : list Effect) :
  confirmation_checks (a ++ b) = (confirmation_checks a + confirmation_checks b)%nat.
Proof. unfold confirmation_checks. rewrite List.filter_app, length_app. reflexivity. Qed.

Lemma cut_keystrokes_checks (platform cut_mode : string) :
  confirmation_checks (cut_keystrokes platform cut_mode) = 0%nat.
Proof.
  unfold cut_keystrokes.
  repeat case_bool_decide; destruct (startswith platform "win"); reflexivity.
Qed.

Lemma sends_app (a b : list Effect) : sends (a ++ b) = sends a || sends b.
Proof. apply existsb_app. Qed.

Lemma sends_keyless (es : list Effect) : forallb keyless es = true -> sends es = false.
Proof.
  unfold sends. induction es as [|e es IH]; [reflexivity|]. cbn [forallb existsb].
  intros H. apply andb_prop in H as [He Hes]. rewrite (IH Hes).
  destruct e; try discriminate; reflexivity.
Qed.

Lemma cut_keystrokes_sends (platform cut_mode : string) :
  sends (cut_keystrokes platform cut_mode) = false.
Proof.
  unfold cut_keystrokes.
  repeat case_bool_decide; destruct (startswith platform "win"); reflexivity.
Qed.

(** What the loop over the layers leaves alone, and the one effect it can
    have. *)
Lemma update_layers_frame (w : World) (sentiment current_character : string) :
  forall todo i updated s,
    let r := update_layers w sentiment current_character todo i updated s in
    settings_of r.2 = settings_of s /\
    (effects r.2 = effects s \/ effects r.2 = effects s ++ [ClearCache]).
Proof.
  induction todo as [|c rest IH]; intros i updated s; cbn zeta; cbn [update_layers].
  - destruct updated; cbn; auto.
  - destruct (negb (default true (enabled c))); [apply IH|].
    case_bool_decide; [|apply IH].
    destruct (get_filtered_emotions w _ _); [cbn; auto|].
    destruct (filter _ _); [apply IH|].
    match goal with
    | |- context [update_layers _ _ _ rest (S i) true ?s1] =>
        destruct (IH (S i) true s1) as [Hs He]
    end.
    split; [rewrite Hs; reflexivity|exact He].
Qed.

Lemma update_emotion_frame (w : World) (text : string) (s : State) :
  let r := _update_emotion_by_sentiment w text s in
  settings_of r.2 = settings_of s /\
  exists new,
    effects r.2 = effects s ++ new /\
    forallb keyless new = true /\ confirmation_checks new = 0%nat.
Proof.
  cbn zeta. unfold _update_emotion_by_sentiment.
  destruct (initialized s) eqn:Hi; cbn [negb].
  2:{ cbn [snd]. split; [unfold settings_of; cbn; rewrite Hi; reflexivity|].
      eexists. split; [reflexivity|]. split; reflexivity. }
  destruct (Sentiment.analyze_sentiment _ _ _ _ _) as [sentiment a].
  assert (Hnone : forall s0 : State, settings_of s0 = settings_of s ->
            effects s0 = effects s ->
            settings_of s0 = settings_of s /\
            exists new, effects s0 = effects s ++ new /\
                        forallb keyless new = true /\ confirmation_checks new = 0%nat).
  { intros s0 H1 H2. split; [exact H1|]. exists []. rewrite app_nil_r. auto. }
  destruct sentiment as [sentiment|]; [|apply Hnone; reflexivity].
  destruct (negb (nonempty sentiment)); [apply Hnone; reflexivity|].
  destruct (update_layers_frame w sentiment (get_character w)
              (components (set_sentiment_analyzer a s)) 0%nat false
              (set_sentiment_analyzer a s)) as [Hs He].
  split; [rewrite Hs; reflexivity|].
  destruct He as [He|He]; rewrite He; cbn [effects set_sentiment_analyzer].
  - exists []. rewrite app_nil_r. auto.
  - eexists. split; [reflexivity|]. split; reflexivity.
Qed.

(** The confirmation loop only looks at the clipboard and sleeps, and it
    looks at most once per round. *)
Lemma confirm_clipboard_run (w : World) :
  forall fuel k wait total s,
    let s' := confirm_clipboard w fuel k wait total s in
    settings_of s' = settings_of s /\
    sentiment_analyzer s' = sentiment_analyzer s /\
    components s' = components s /\
    base_msg s' = base_msg s /\
    exists new,
      effects s' = effects s ++ new /\
      forallb keyless new = true /\
      (confirmation_checks new <= fuel)%nat.
Proof.
  induction fuel as [|fuel IH]; intros k wait total s; cbn zeta;
    cbn [confirm_clipboard].
  - do 4 (split; [reflexivity|]). exists []. rewrite app_nil_r.
    split; [reflexivity|]. split; [reflexivity|]. cbn. lia.
  - destruct (PrimFloat.ltb total 0.5%float).
    + destruct (has_image_in_clipboard w k).
      * do 4 (split; [reflexivity|]). eexists. split; [reflexivity|].
        split; [reflexivity|]. cbn. lia.
      * match goal with
        | |- context [confirm_clipboard w fuel ?k' ?wt ?tt ?s1] =>
            destruct (IH k' wt tt s1) as (Hs & Ha & Hc & Hb & new & He & Hk & Hn)
        end.
        rewrite Hs, Ha, Hc, Hb, He. do 4 (split; [reflexivity|]).
        cbn [emit effects]. rewrite <- !app_assoc.
        eexists. split; [reflexivity|]. cbn [app forallb keyless andb].
        split; [exact Hk|].
        change (confirmation_checks (HasImageInClipboard :: Sleep wait :: new))
          with (S (confirmation_checks new)). lia.
    + do 4 (split; [reflexivity|]). exists []. rewrite app_nil_r.
      split; [reflexivity|]. split; [reflexivity|]. cbn. lia.
Qed.

(** What every run of [generate_image] has in common. *)
Lemma generate_image_run (w : World) (s : State) :
  let r := generate_image w s in
  exists msg new,
    r.1 = Ok msg /\
    effects r.2 = effects s ++ new /\
    balanced new /\
    (confirmation_checks new <= 10)%nat /\
    settings_of r.2 = settings_of s /\
    (length (Sentiment.requests (sentiment_analyzer r.2))
     <= S (length (Sentiment.requests (sentiment_analyzer s))))%nat /\
    (settings_enabled (sentiment_matching s) && initialized s = false ->
     sentiment_analyzer r.2 = sentiment_analyzer s /\ components r.2 = components s) /\
    (sends new = true ->
     _active_process_allowed w 0 = true /\ _active_process_allowed w 1 = true /\
     AUTO_PASTE_IMAGE w = true /\ AUTO_SEND_IMAGE w = true).
Proof.
  cbn zeta. unfold generate_image.
  destruct (_active_process_allowed w 0) eqn:Hallowed; cbn [negb].
  2:{ exists "前台应用不在白名单内", []. cbn [fst snd]. rewrite app_nil_r.
      split; [reflexivity|]. split; [reflexivity|].
      split; [intros held; reflexivity|]. split; [cbn; lia|].
      split; [reflexivity|]. split; [lia|].
      split; [intros _; split; reflexivity|discriminate]. }
  destruct (CoreFacts.poll_clipboard_total w poll_rounds 0%nat 0 None) as [p Hp].
  { unfold deadline, poll_rounds. lia. }
  { intros _. unfold deadline. lia. }
  rewrite Hp.
  set (s1 := emit (polling_effects p) _).
  set (A := [ClearClipboard; Sleep 0.005%float]
            ++ cut_keystrokes (platform w) (default "full" (cut_mode w))
            ++ polling_effects p).
  assert (He1 : effects s1 = effects s ++ A).
  { subst s1 A. cbn [emit effects set_base_msg]. rewrite <- !app_assoc. reflexivity. }
  assert (HbA : balanced A).
  { subst A. apply balanced_app; [apply balanced_keyless; reflexivity|].
    apply balanced_app; [apply cut_keystrokes_balanced|].
    apply balanced_keyless, polling_effects_keyless. }
  assert (HsA : sends A = false).
  { subst A. rewrite !sends_app, cut_keystrokes_sends.
    rewrite (sends_keyless _ (proj1 (polling_effects_keyless p))). reflexivity. }
  assert (HcA : confirmation_checks A = 0%nat).
  { subst A. rewrite !checks_app, cut_keystrokes_checks.
    rewrite (proj2 (polling_effects_keyless p)). reflexivity. }
  assert (Hs1 : settings_of s1 = settings_of s) by reflexivity.
  assert (Ha1 : sentiment_analyzer s1 = sentiment_analyzer s) by reflexivity.
  assert (Hc1 : components s1 = components s) by reflexivity.
  set (s2 := if settings_enabled (sentiment_matching s1) && initialized s1
                && nonempty (strip (text p))
             then _ else s1).
  assert (H2 : settings_of s2 = settings_of s1 /\
               (exists B, effects s2 = effects s1 ++ B /\
                          forallb keyless B = true /\ confirmation_checks B = 0%nat) /\
               (length (Sentiment.requests (sentiment_analyzer s2))
                <= S (length (Sentiment.requests (sentiment_analyzer s1))))%nat /\
               (settings_enabled (sentiment_matching s) && initialized s = false ->
                sentiment_analyzer s2 = sentiment_analyzer s1 /\
                components s2 = components s1)).
  { subst s2.
    change (settings_enabled (sentiment_matching s1) && initialized s1)
      with (settings_enabled (sentiment_matching s) && initialized s).
    destruct (settings_enabled (sentiment_matching s) && initialized s);
      cbn [andb].
    2:{ split; [reflexivity|]. split.
        - exists []. rewrite app_nil_r. auto.
        - split; [lia|auto]. }
    destruct (nonempty (strip (text p))).
    2:{ split; [reflexivity|]. split.
        - exists []. rewrite app_nil_r. auto.
        - split; [lia|discriminate]. }
    pose proof (update_emotion_frame w (text p) s1) as [Hs [B (He & Hk & Hc)]].
    pose proof (CoreFacts.update_emotion_sends_at_most_one_request w (text p) s1) as Hreq.
    destruct (_update_emotion_by_sentiment w (text p) s1) as [emotion_updated s'].
    cbn [snd] in *. split.
    { destruct emotion_updated; [rewrite <- Hs|exact Hs]; reflexivity. }
    split.
    { destruct emotion_updated.
      - exists (B ++ [GeneratePreview]). cbn [emit effects].
        rewrite He, <- app_assoc. split; [reflexivity|].
        rewrite forallb_app, checks_app, Hk, Hc. split; reflexivity.
      - exists B. auto. }
    split; [destruct emotion_updated; exact Hreq|discriminate]. }
  destruct H2 as (Hs2 & (B & He2 & HkB & HcB) & Hr2 & Hoff).
  clearbody s2. clearbody s1.
  assert (Hfin : forall (msg : string) (s3 : State) (C : list Effect),
            effects s3 = effects s2 ++ C ->
            balanced C ->
            (confirmation_checks C <= 10)%nat ->
            settings_of s3 = settings_of s2 ->
            sentiment_analyzer s3 = sentiment_analyzer s2 ->
            components s3 = components s2 ->
            (sends C = true ->
             _active_process_allowed w 1 = true /\
             AUTO_PASTE_IMAGE w = true /\ AUTO_SEND_IMAGE w = true) ->
            exists msg0 new,
              Ok msg = Ok msg0 /\
              effects s3 = effects s ++ new /\
              balanced new /\
              (confirmation_checks new <= 10)%nat /\
              settings_of s3 = settings_of s /\
              (length (Sentiment.requests (sentiment_analyzer s3))
               <= S (length (Sentiment.requests (sentiment_analyzer s))))%nat /\
              (settings_enabled (sentiment_matching s) && initialized s = false ->
               sentiment_analyzer s3 = sentiment_analyzer s /\
               components s3 = components s) /\
              (sends new = true ->
               true = true /\ _active_process_allowed w 1 = true /\
               AUTO_PASTE_IMAGE w = true /\ AUTO_SEND_IMAGE w = true)).
  { intros msg s3 C He3 HbC HcC Hs3 Ha3 Hc3 HsC.
    exists msg, (A ++ B ++ C). split; [reflexivity|].
    split; [rewrite He3, He2, He1, <- !app_assoc; reflexivity|].
    split; [apply balanced_app; [exact HbA|];
            apply balanced_app; [apply balanced_keyless, HkB|exact HbC]|].
    split; [rewrite !checks_app, HcA, HcB; lia|].
    split; [congruence|].
    split; [rewrite Ha3, <- Ha1; exact Hr2|].
    split; [intros Hd; destruct (Hoff Hd) as [Ha Hc]; split; congruence|].
    rewrite !sends_app, HsA, (sends_keyless _ HkB). cbn [orb].
    intros HC. split; [reflexivity|apply HsC, HC]. }
  destruct (bool_decide (text p = "") && bool_decide (image p = None)); cbn [fst snd].
  { apply (Hfin _ s2 []); try reflexivity;
      [rewrite app_nil_r; reflexivity|balance|cbn; lia|discriminate]. }
  destruct (draw_content_auto w (text p) (image p)) as [bmp|e]; cbn [fst snd].
  2:{ apply (Hfin _ _ [DrawContentAuto (text p) (image p)]); try reflexivity;
        [balance|cbn; lia|discriminate]. }
  destruct (copy_image_to_clipboard w bmp); cbn [negb fst snd].
  2:{ apply (Hfin _ _ [DrawContentAuto (text p) (image p); CopyImageToClipboard bmp]);
        try reflexivity;
        [cbn [emit effects]; rewrite <- app_assoc; reflexivity|balance|cbn; lia
        |discriminate]. }
  rewrite (CoreFacts.confirm_clipboard_ten_rounds w 6).
  match goal with
  | |- context [confirm_clipboard w 10 0 ?wt ?tt ?s0] =>
      destruct (confirm_clipboard_run w 10 0%nat wt tt s0)
        as (Hs4 & Ha4 & Hc4 & _ & D & He4 & HkD & HcD);
      set (s4 := confirm_clipboard w 10 0 wt tt s0) in *
  end.
  cbn [emit effects] in He4. rewrite <- !app_assoc in He4. cbn [app] in He4.
  change (settings_of s4 = settings_of s2) in Hs4.
  cbn [emit sentiment_analyzer components] in Ha4, Hc4.
  clearbody s4.
  set (D' := DrawContentAuto (text p) (image p) :: CopyImageToClipboard bmp :: D) in *.
  assert (HbD : balanced D').
  { apply (balanced_app [_; _] D); [apply balanced_keyless; reflexivity|].
    apply balanced_keyless, HkD. }
  assert (HnD : (confirmation_checks D' <= 10)%nat) by exact HcD.
  assert (HsD : sends D' = false) by (apply (sends_keyless D'); exact HkD).
  destruct (AUTO_PASTE_IMAGE w) eqn:Hpaste.
  2:{ cbn [fst snd]. apply (Hfin _ _ D'); try assumption.
      rewrite HsD. discriminate. }
  set (modifier := if bool_decide (platform w ≠ "darwin") then Key_ctrl else Key_cmd).
  set (P := [Press modifier; Press (KeyChar "v"); Release (KeyChar "v"); Release modifier]).
  assert (HbP : balanced P) by (subst P; balance).
  assert (HsP : sends P = false).
  { subst P modifier. case_bool_decide; reflexivity. }
  destruct (_active_process_allowed w 1) eqn:Hallowed1; cbn [negb].
  2:{ cbn [fst snd]. apply (Hfin _ _ (D' ++ P)); try assumption.
      - cbn [emit effects]. rewrite He4, <- app_assoc. reflexivity.
      - apply balanced_app; assumption.
      - rewrite checks_app. change (confirmation_checks P) with 0%nat. lia.
      - rewrite sends_app, HsD, HsP. discriminate. }
  destruct (AUTO_SEND_IMAGE w) eqn:Hsend; cbn [fst snd].
  - apply (Hfin _ _ (D' ++ P ++ [Sleep 0.4%float; Press Key_enter; Release Key_enter]));
      try assumption.
    + cbn [set_base_msg emit effects]. rewrite He4, <- !app_assoc. reflexivity.
    + apply balanced_app; [assumption|]. apply balanced_app; [assumption|]. balance.
    + rewrite !checks_app. change (confirmation_checks P) with 0%nat.
      change (confirmation_checks [Sleep 0.4%float; Press Key_enter; Release Key_enter])
        with 0%nat. lia.
    + intros _. auto.
  - apply (Hfin _ _ (D' ++ P)); try assumption.
    + cbn [set_base_msg emit effects]. rewrite He4, <- app_assoc. reflexivity.
    + apply balanced_app; assumption.
    + rewrite checks_app. change (confirmation_checks P) with 0%nat. lia.
    + rewrite sends_app, HsD, HsP. discriminate.
Qed.

(** X5: [generate_image] always returns a message, whatever the
    clipboard holds and whatever the renderer raises: the polling loop
    takes at least one reading, so [text] is bound when the loop is left.
    The run leaves the sentiment flags and settings of the core as they
    were. *)
Theorem generate_image_always_answers (w : World) (s : State) :
  (exists msg, (generate_image w s).1 = Ok msg) /\
  settings_of (generate_image w s).2 = settings_of s.
Proof.
  destruct (generate_image_run w s) as (msg & new & Hr & _ & _ & _ & Hs & _).
  split; [exists msg; exact Hr|exact Hs].
Qed.

(** X6: a run only adds to the log of effects, and whichever way it ends,
    every key it pressed has been released by then, innermost first. *)
Theorem generate_image_releases_every_key (w : World) (s : State) :
  exists new,
    effects (generate_image w s).2 = effects s ++ new /\
    keys_after [] new = Some [].
Proof.
  destruct (generate_image_run w s) as (msg & new & _ & He & Hb & _).
  exists new. split; [exact He|apply Hb].
Qed.

(** X7: one run asks the clipboard at most ten times whether the image
    has arrived, and sends at most one request to the model. *)
Theorem generate_image_bounded_traffic (w : World) (s : State) :
  (confirmation_checks (drop (length (effects s)) (effects (generate_image w s).2))
   <= 10)%nat /\
  (length (Sentiment.requests (sentiment_analyzer (generate_image w s).2))
   <= S (length (Sentiment.requests (sentiment_analyzer s))))%nat.
Proof.
  destruct (generate_image_run w s) as (msg & new & _ & He & _ & Hc & _ & Hr & _).
  split; [|exact Hr]. rewrite He, drop_app_length. exact Hc.
Qed.

(** X8: with sentiment matching switched off, or with the analyzer not
    initialized, a run sends nothing to the model and changes no layer. *)
Theorem generate_image_without_sentiment (w : World) (s : State) :
  settings_enabled (sentiment_matching s) = false \/ initialized s = false ->
  sentiment_analyzer (generate_image w s).2 = sentiment_analyzer s /\
  components (generate_image w s).2 = components s.
Proof.
  intros Hoff.
  destruct (generate_image_run w s) as (msg & new & _ & _ & _ & _ & _ & _ & H & _).
  apply H. destruct Hoff as [-> | ->]; [reflexivity|apply andb_false_r].
Qed.

Lemma generate_image_without_sentiment_witness :
  sentiment_analyzer (generate_image world_hi core_new).2 = sentiment_analyzer core_new /\
  components (generate_image world_hi core_new).2 = components core_new.
Proof.
  apply (generate_image_without_sentiment world_hi core_new). right. reflexivity.
Defined.

(** *** Polling *)

Lemma poll_clipboard_first (w : World) (j : nat) :
  (forall k, (k < j)%nat -> stop_polling (clipboard w k) = false) ->
  stop_polling (clipboard w j) = true ->
  time_at w j < deadline ->
  forall fuel i last,
    (i <= j)%nat -> (j - i < fuel)%nat ->
    poll_clipboard w fuel i (time_at w i) last
    = Some (mkPolled (clipboard w j).1 (clipboard w j).2 (S j) (time_at w j) true).
Proof.
  intros Hbefore Hstop Htime.
  assert (Hmono : forall a b, (a <= b)%nat -> time_at w a <= time_at w b).
  { intros a b Hab. induction Hab as [|b Hab IH]; [lia|]. cbn [time_at]. lia. }
  induction fuel as [|fuel IH]; intros i last Hi Hfuel; [lia|].
  cbn [poll_clipboard].
  pose proof (Hmono i j Hi) as Hle.
  destruct (Z.ltb_spec (time_at w i) deadline) as [_|Hge]; [|lia].
  destruct (decide (i = j)) as [->|Hne].
  - rewrite Hstop. reflexivity.
  - rewrite Hbefore by lia.
    change (time_at w i + 5000 + Z.of_N (lag w i)) with (time_at w (S i)).
    apply IH; lia.
Qed.

Lemma poll_clipboard_stopped (w : World) :
  forall fuel i now last p,
    poll_clipboard w fuel i now last = Some p ->
    stopped_early p = true ->
    (i < reads p <= i + fuel)%nat /\
    clipboard w (reads p - 1) = (text p, image p) /\
    stop_polling (clipboard w (reads p - 1)) = true /\
    (forall k, (i <= k < reads p - 1)%nat -> stop_polling (clipboard w k) = false) /\
    finished_at p < deadline.
Proof.
  induction fuel as [|fuel IH]; intros i now last p; cbn [poll_clipboard].
  - destruct (now <? deadline); [discriminate|].
    destruct last; [|discriminate]. intros [= <-]. discriminate.
  - destruct (Z.ltb_spec now deadline) as [Hlt|Hge].
    + destruct (stop_polling (clipboard w i)) eqn:Hstop.
      * intros [= <-] _. cbn [reads text image finished_at].
        replace (S i - 1)%nat with i by lia.
        split; [lia|]. split; [destruct (clipboard w i); reflexivity|].
        split; [exact Hstop|]. split; [intros k Hk; lia|exact Hlt].
      * intros Hp Hs. destruct (IH _ _ _ _ Hp Hs) as (Hr & Hc & Hst & Hb & Hf).
        split; [lia|]. split; [exact Hc|]. split; [exact Hst|].
        split; [|exact Hf].
        intros k Hk. destruct (decide (k = i)) as [->|Hne]; [exact Hstop|].
        apply Hb. lia.
    + destruct last; [|discriminate]. intros [= <-]. discriminate.
Qed.

(** X9: polling hands on exactly the first reading that has content (a
    text that is not blank, or an image), provided it is taken before the
    deadline: later readings are not looked at.  Conversely, content that
    stopped the loop is such a first reading, taken before the deadline
    within the first 500 readings. *)
Theorem poll_returns_first_content (w : World) :
  (forall j,
     (forall k, (k < j)%nat -> stop_polling (clipboard w k) = false) ->
     stop_polling (clipboard w j) = true ->
     time_at w j < deadline ->
     poll_clipboard w poll_rounds 0 0 None
     = Some (mkPolled (clipboard w j).1 (clipboard w j).2 (S j) (time_at w j) true)) /\
  (forall p,
     poll_clipboard w poll_rounds 0 0 None = Some p ->
     stopped_early p = true ->
     (0 < reads p <= 500)%nat /\
     clipboard w (reads p - 1) = (text p, image p) /\
     stop_polling (clipboard w (reads p - 1)) = true /\
     (forall k, (k < reads p - 1)%nat -> stop_polling (clipboard w k) = false) /\
     finished_at p < deadline).
Proof.
  split.
  - intros j Hbefore Hstop Htime.
    apply (poll_clipboard_first w j Hbefore Hstop Htime poll_rounds 0%nat None); [lia|].
    pose proof (CoreFacts.time_at_lower w j). unfold deadline, poll_rounds in *. lia.
  - intros p Hp Hs.
    destruct (poll_clipboard_stopped w _ _ _ _ _ Hp Hs) as (Hr & Hc & Hst & Hb & Hf).
    split; [exact Hr|]. split; [exact Hc|]. split; [exact Hst|].
    split; [intros k Hk; apply Hb; lia|exact Hf].
Qed.

Lemma text_late_before (k : nat) :
  (k < 2)%nat -> stop_polling (clipboard world_late k) = false.
Proof. destruct k as [|[|k]]; [reflexivity|reflexivity|lia]. Qed.

Lemma poll_returns_first_content_witness :
  poll_clipboard world_late poll_rounds 0 0 None
  = Some (mkPolled "hi" None 3 10000 true).
Proof.
  destruct (poll_returns_first_content world_late) as [H _].
  exact (H 2%nat text_late_before eq_refl eq_refl).
Defined.

(** X10: when the foreground application is allowed, the first clipboard
    reading with content, taken before the deadline, is what the renderer
    is called with, whether or not the sentiment update ran in between and
    whatever happens afterwards. *)
Theorem first_content_is_rendered (w : World) (s : State) (j : nat) :
  _active_process_allowed w 0 = true ->
  (forall k, (k < j)%nat -> stop_polling (clipboard w k) = false) ->
  stop_polling (clipboard w j) = true ->
  time_at w j < deadline ->
  DrawContentAuto (clipboard w j).1 (clipboard w j).2
    ∈ drop (length (effects s)) (effects (generate_image w s).2).
Proof.
  intros Hallowed Hbefore Hstop Htime.
  assert (Hp : poll_clipboard w poll_rounds 0 0 None
               = Some (mkPolled (clipboard w j).1 (clipboard w j).2 (S j)
                         (time_at w j) true)).
  { apply (poll_clipboard_first w j Hbefore Hstop Htime poll_rounds 0%nat None); [lia|].
    pose proof (CoreFacts.time_at_lower w j). unfold deadline, poll_rounds in *. lia. }
  destruct (clipboard w j) as [t img] eqn:Hclip. cbn [fst snd] in *.
  assert (Hguard : bool_decide (t = "") && bool_decide (img = None) = false).
  { unfold stop_polling in Hstop. cbn [fst snd] in Hstop.
    destruct t as [|c t']; [|reflexivity].
    destruct img; [reflexivity|discriminate]. }
  assert (Hgoal : forall s', (exists pre post,
                     effects s' = effects s ++ pre ++ DrawContentAuto t img :: post) ->
            DrawContentAuto t img ∈ drop (length (effects s)) (effects s')).
  { intros s' (pre & post & ->). rewrite drop_app_length.
    apply elem_of_app. right. apply elem_of_cons. auto. }
  unfold generate_image. rewrite Hallowed, Hp. cbn [negb text image].
  rewrite Hguard.
  set (s1 := emit (polling_effects _) _).
  assert (He1 : exists A, effects s1 = effects s ++ A).
  { subst s1. cbn [emit effects set_base_msg]. rewrite <- !app_assoc. eauto. }
  set (s2 := if settings_enabled (sentiment_matching s1) && initialized s1
                && nonempty (strip t)
             then _ else s1).
  assert (He2 : exists A, effects s2 = effects s ++ A).
  { destruct He1 as [A He1]. subst s2.
    destruct (settings_enabled (sentiment_matching s1) && initialized s1
              && nonempty (strip t)); [|eauto].
    pose proof (update_emotion_frame w t s1) as [_ [B (He & _)]].
    destruct (_update_emotion_by_sentiment w t s1) as [emotion_updated s'].
    cbn [snd] in He. destruct emotion_updated; cbn [emit effects];
      rewrite He, He1, <- !app_assoc; eauto. }
  destruct He2 as [A He2]. clearbody s2. clear s1 He1.
  set (s3 := emit [DrawContentAuto t img] s2).
  assert (He3 : effects s3 = effects s ++ A ++ [DrawContentAuto t img]).
  { subst s3. cbn [emit effects]. rewrite He2, <- app_assoc. reflexivity. }
  clearbody s3.
  destruct (draw_content_auto w t img) as [bmp|e]; cbn [fst snd].
  2:{ apply Hgoal. exists A, []. exact He3. }
  destruct (copy_image_to_clipboard w bmp); cbn [negb fst snd].
  2:{ apply Hgoal. exists A, [CopyImageToClipboard bmp]. cbn [emit effects].
      rewrite He3, <- !app_assoc. reflexivity. }
  match goal with
  | |- context [confirm_clipboard w 16 0 ?wt ?tt ?s0] =>
      destruct (confirm_clipboard_run w 16 0%nat wt tt s0)
        as (_ & _ & _ & _ & D & He4 & _);
      set (s4 := confirm_clipboard w 16 0 wt tt s0) in *
  end.
  cbn [emit effects] in He4. rewrite He3, <- !app_assoc in He4. cbn [app] in He4.
  clearbody s4.
  destruct (AUTO_PASTE_IMAGE w); cbn [fst snd].
  2:{ apply Hgoal. eexists A, _. exact He4. }
  destruct (_active_process_allowed w 1); cbn [negb fst snd].
  2:{ apply Hgoal. eexists A, _. cbn [emit effects].
      rewrite He4, <- !app_assoc. reflexivity. }
  destruct (AUTO_SEND_IMAGE w); cbn [fst snd]; apply Hgoal; eexists A, _;
    cbn [set_base_msg emit effects]; rewrite He4, <- !app_assoc; reflexivity.
Qed.

Lemma first_content_is_rendered_witness :
  DrawContentAuto "hi" None
    ∈ drop (length (effects (core_ready [layer "a"])))
        (effects (generate_image world_late (core_ready [layer "a"])).2).
Proof.
  exact (first_content_is_rendered world_late (core_ready [layer "a"]) 2%nat
           eq_refl text_late_before eq_refl eq_refl).
Defined.

(** X11: a run that finds the foreground application outside the
    whitelist does nothing at all.  Enter, which sends the message, is
    pressed only when the application was allowed both at the start and
    after pasting, and both automatic pasting and automatic sending are
    configured. *)
Theorem enter_only_to_allowed_application (w : World) (s : State) :
  (_active_process_allowed w 0 = false ->
   generate_image w s = (Ok "前台应用不在白名单内", s)) /\
  (sends (drop (length (effects s)) (effects (generate_image w s).2)) = true ->
   _active_process_allowed w 0 = true /\ _active_process_allowed w 1 = true /\
   AUTO_PASTE_IMAGE w = true /\ AUTO_SEND_IMAGE w = true).
Proof.
  split.
  - intros Hno. unfold generate_image. rewrite Hno. reflexivity.
  - destruct (generate_image_run w s) as (msg & new & _ & He & _ & _ & _ & _ & _ & H).
    rewrite He, drop_app_length. exact H.
Qed.

Lemma enter_only_to_allowed_application_witness :
  generate_image world_foreign core_new = (Ok "前台应用不在白名单内", core_new).
Proof.
  destruct (enter_only_to_allowed_application world_foreign core_new) as [H _].
  apply H. reflexivity.
Defined.

End PipelineFacts.

(** ** Switching sentiment matching on and off *)

Module ControlFacts.
Import Py Core CoreControl Samples MoreSamples.

Lemma kept_or_matched_refl (w : World) (sentiment current_character : string)
      (cs : list Component) :
  Forall2 (kept_or_matched w sentiment current_character) cs cs.
Proof. induction cs; constructor; [left; reflexivity|assumption]. Qed.

(** Whatever the layers are, the loop writes to a layer only an emotion of
    that layer's filtered-sentiment set, and only to enabled character
    layers. *)
Lemma update_layers_kept_or_matched (w : World) (sentiment current_character : string) :
  forall todo pre updated s,
    components s = pre ++ todo ->
    exists todo',
      components (update_layers w sentiment current_character todo
                    (length pre) updated s).2 = pre ++ todo' /\
      Forall2 (kept_or_matched w sentiment current_character) todo todo'.
Proof.
  induction todo as [|c rest IH]; intros pre updated s Hcs.
  - exists []. cbn [update_layers]. split; [|constructor].
    destruct updated; exact Hcs.
  - assert (Hpre : components s = (pre ++ [c]) ++ rest)
      by (rewrite <- app_assoc; exact Hcs).
    assert (Hlen : S (length pre) = length (pre ++ [c]))
      by (rewrite length_app; cbn; lia).
    assert (Hskip : exists todo',
      components (update_layers w sentiment current_character rest
                    (S (length pre)) updated s).2 = pre ++ todo' /\
      Forall2 (kept_or_matched w sentiment current_character) (c :: rest) todo').
    { rewrite Hlen. destruct (IH (pre ++ [c]) updated s Hpre) as (todo' & Hc' & Hall).
      exists (c :: todo'). split; [rewrite Hc', <- app_assoc; reflexivity|].
      constructor; [left; reflexivity|exact Hall]. }
    cbn [update_layers].
    destruct (default true (enabled c)) eqn:Hen; cbn [negb]; [|exact Hskip].
    case_bool_decide as Hty; [|exact Hskip].
    assert (Hch : is_character_layer c = true).
    { unfold is_character_layer. rewrite Hen, (bool_decide_eq_true_2 _ Hty). reflexivity. }
    destruct (get_filtered_emotions w (default current_character (character_name c))
                (default "全部" (emotion_filter c))) as [|f0 frest] eqn:Hf.
    { exists (c :: rest). split; [exact Hcs|apply kept_or_matched_refl]. }
    fold (filtered_of w current_character c) in Hf.
    assert (Hav : filter (fun idx => idx ∈ f0 :: frest)
                    (default []
                       (cfg ← mahoshojo w !! default current_character (character_name c);
                        Config.by_sentiment cfg !! sentiment))
                  = matching_emotions w sentiment current_character c).
    { unfold matching_emotions. rewrite Hf. reflexivity. }
    rewrite Hav.
    destruct (matching_emotions w sentiment current_character c) as [|first more] eqn:Hm;
      [exact Hskip|].
    set (idx := nth (random w (draws s) mod length (first :: more))%nat (first :: more) first).
    assert (Hidx : idx ∈ first :: more).
    { apply list_elem_of_In, nth_In, Nat.mod_upper_bound. cbn. lia. }
    set (c' := mkComponent (enabled c) (type c) (character_name c) (emotion_filter c)
                 (Some idx) (Some true)).
    match goal with
    | |- context [update_layers _ _ _ rest (S (length pre)) true ?s1] => set (s1' := s1)
    end.
    assert (Hcs1 : components s1' = (pre ++ [c']) ++ rest).
    { subst s1'. cbn [components set_base_msg set_components set_draws].
      rewrite Hcs, insert_app_r_alt by lia.
      rewrite Nat.sub_diag, <- app_assoc. reflexivity. }
    assert (Hlen' : S (length pre) = length (pre ++ [c']))
      by (rewrite length_app; cbn; lia).
    rewrite Hlen'.
    destruct (IH (pre ++ [c']) true s1' Hcs1) as (todo' & Hc' & Hall).
    exists (c' :: todo'). split; [rewrite Hc', <- app_assoc; reflexivity|].
    constructor; [|exact Hall].
    right. split; [exact Hch|]. exists idx. split; [rewrite Hm; exact Hidx|reflexivity].
Qed.

(** X12: whatever the layers and whatever the model answers, a sentiment
    update either leaves the layers as they are, or there is one non-empty
    word of the emotion vocabulary such that every layer is left as it was
    or is an enabled character layer that got an emotion from its own
    filtered-sentiment set for that word, with [force_use] set; no layer is
    added or dropped. *)
Theorem update_emotion_writes_only_matching_emotions (w : World) (text : string)
        (s : State) :
  components (_update_emotion_by_sentiment w text s).2 = components s \/
  exists sentiment,
    sentiment ∈ Sentiment.emotion_list (sentiment_analyzer s) /\
    sentiment <> "" /\
    Forall2 (kept_or_matched w sentiment (get_character w))
      (components s) (components (_update_emotion_by_sentiment w text s).2).
Proof.
  unfold _update_emotion_by_sentiment.
  destruct (initialized s); cbn [negb]; [|left; reflexivity].
  pose proof (SentimentFacts.analyze_sentiment_word (backend w) (re_sub_nonword w)
                (available_models w) text (sentiment_analyzer s)) as Hword.
  destruct (Sentiment.analyze_sentiment _ _ _ _ _) as [sentiment a].
  destruct sentiment as [sentiment|]; [|left; reflexivity].
  destruct (negb (nonempty sentiment)); [left; reflexivity|].
  right. exists sentiment. destruct (Hword sentiment eq_refl) as [Hin Hne].
  split; [exact Hin|]. split; [exact Hne|].
  destruct (update_layers_kept_or_matched w sentiment (get_character w)
              (components (set_sentiment_analyzer a s)) [] false
              (set_sentiment_analyzer a s) eq_refl) as (todo' & Hc & Hall).
  cbn [length app] in Hc. rewrite Hc. exact Hall.
Qed.

(** How an initialization attempt leaves the flags, the settings and the
    recorded configuration. *)
Lemma init_task_fields (w : World) (s : State) :
  initializing (init_task w s) = false /\
  ((initialized (init_task w s) = true /\
    settings_enabled (sentiment_matching s) = true /\
    sentiment_matching (init_task w s) = sentiment_matching s /\
    saved_sentiment_matching (init_task w s) = saved_sentiment_matching s /\
    current_config (init_task w s)
    = Some (default "ollama" (m ← sentiment_matching s; ai_model m),
            default (Sentiment.mkClientConfig None None None)
              (m ← sentiment_matching s;
               model_configs m
                 !! default "ollama" (m ← sentiment_matching s; ai_model m)))) \/
   (initialized (init_task w s) = false /\
    settings_enabled (sentiment_matching (init_task w s)) = false /\
    (saved_sentiment_matching (init_task w s) = sentiment_matching (init_task w s) \/
     (sentiment_matching (init_task w s) = sentiment_matching s /\
      saved_sentiment_matching (init_task w s) = saved_sentiment_matching s)))).
Proof.
  unfold init_task.
  cbn [_notify_gui_status_change set_initializing emit sentiment_matching].
  destruct (settings_enabled (sentiment_matching s)) eqn:Hen.
  - cbn [set_current_config sentiment_analyzer].
    destruct (Sentiment.initialize _ _ _ _ _ _) as [v a].
    destruct (Sentiment.truthy v).
    + split; [reflexivity|]. left. repeat split.
    + split; [reflexivity|]. right.
      unfold _disable_sentiment_matching.
      destruct (sentiment_matching s) as [m|] eqn:Hm; [|discriminate].
      cbn. rewrite Hm. cbn. repeat split. left. reflexivity.
  - split; [reflexivity|]. right. cbn. rewrite Hen. repeat split.
    right. split; reflexivity.
Qed.

(** An initialization attempt keeps the "sentiment_matching" entry of
    the settings. *)
Lemma init_task_keeps_entry (w : World) (s : State) (m : SentimentSettings) :
  sentiment_matching s = Some m ->
  exists m', sentiment_matching (init_task w s) = Some m'.
Proof.
  intros Hm. unfold init_task.
  cbn [_notify_gui_status_change set_initializing emit sentiment_matching].
  destruct (settings_enabled (sentiment_matching s)).
  - cbn [set_current_config sentiment_analyzer].
    destruct (Sentiment.initialize _ _ _ _ _ _) as [v a].
    destruct (Sentiment.truthy v).
    + cbn. eauto.
    + unfold _disable_sentiment_matching. cbn. rewrite Hm. cbn. eauto.
  - cbn. eauto.
Qed.

(** A click on the switch outside an initialization. *)
Lemma toggle_step (s : State) (m : SentimentSettings) :
  initializing s = false -> sentiment_matching s = Some m ->
  exists s1,
    toggle_sentiment_matching s
    = Ok (s1, negb (settings_enabled (Some m)) && negb (initialized s)) /\
    sentiment_matching s1
    = Some (mkSentimentSettings (Some (negb (settings_enabled (Some m))))
              (ai_model m) (model_configs m)) /\
    persisted s1 /\
    initialized s1 = initialized s /\ initializing s1 = false /\
    current_config s1 = current_config s /\
    sentiment_analyzer s1 = sentiment_analyzer s /\
    components s1 = components s.
Proof.
  intros Hi Hm. unfold toggle_sentiment_matching. rewrite Hi, Hm.
  destruct (settings_enabled (Some m)) eqn:Hen; cbn [negb andb].
  - eexists. split; [reflexivity|]. cbn. repeat split; assumption.
  - cbn [save_gui_settings set_sentiment_matching emit initialized].
    destruct (initialized s) eqn:Hin0; cbn [negb];
      (eexists; split; [reflexivity|]); cbn; repeat split; assumption.
Qed.

(** X13: while an initialization is running a click on the switch is
    ignored.  Otherwise, when the settings hold a "sentiment_matching"
    entry, the click flips the enabled flag and keeps the model choice,
    writes the settings out, and starts an initialization exactly when it
    switched the feature on with the analyzer not initialized; the
    analyzer, the flags and the layers are not touched.  A second click
    gives back the flag one started with when the first one started no
    initialization.  When it did, a second click is ignored once the
    initialization thread has raised its flag; and after the thread has
    finished, the second click switches the feature off again if the
    initialization succeeded, whereas after a failed initialization,
    which has switched the feature off itself, it switches the feature on
    and starts the next initialization. *)
Theorem toggle_sentiment_matching_flips (w : World) (s : State) :
  (initializing s = true -> toggle_sentiment_matching s = Ok (s, false)) /\
  (forall m,
     initializing s = false -> sentiment_matching s = Some m ->
     exists s1,
       toggle_sentiment_matching s
       = Ok (s1, negb (settings_enabled (Some m)) && negb (initialized s)) /\
       sentiment_matching s1
       = Some (mkSentimentSettings (Some (negb (settings_enabled (Some m))))
                 (ai_model m) (model_configs m)) /\
       persisted s1 /\
       initialized s1 = initialized s /\ initializing s1 = false /\
       current_config s1 = current_config s /\
       sentiment_analyzer s1 = sentiment_analyzer s /\
       components s1 = components s /\
       (negb (settings_enabled (Some m)) && negb (initialized s) = false ->
        exists s2 started,
          toggle_sentiment_matching s1 = Ok (s2, started) /\
          settings_enabled (sentiment_matching s2) = settings_enabled (Some m)) /\
       (negb (settings_enabled (Some m)) && negb (initialized s) = true ->
        toggle_sentiment_matching (set_initializing true s1)
        = Ok (set_initializing true s1, false) /\
        exists s2,
          toggle_sentiment_matching (init_task w s1)
          = Ok (s2, negb (initialized (init_task w s1))) /\
          settings_enabled (sentiment_matching s2)
          = negb (initialized (init_task w s1)))).
Proof.
  split.
  { intros Hi. unfold toggle_sentiment_matching. rewrite Hi. reflexivity. }
  intros m Hi Hm.
  destruct (toggle_step s m Hi Hm) as (s1 & Ht & Hm1 & Hp & Hin & Hi1 & Hcc & Ha & Hc).
  exists s1. do 8 (split; [assumption|]). split.
  - intros _. destruct (toggle_step s1 _ Hi1 Hm1) as (s2 & Ht2 & Hm2 & _).
    exists s2. eexists. split; [exact Ht2|].
    rewrite Hm2. destruct (settings_enabled (Some m)); reflexivity.
  - intros _. split; [reflexivity|].
    destruct (init_task_keeps_entry w s1 _ Hm1) as [m3 Hm3].
    destruct (init_task_fields w s1) as [Hi3 Hflags].
    destruct (toggle_step (init_task w s1) m3 Hi3 Hm3) as (s2 & Ht2 & Hm2 & _).
    assert (Hagree : settings_enabled (Some m3) = initialized (init_task w s1)).
    { rewrite <- Hm3.
      destruct Hflags as [(Hin3 & Hen & Hsm & _)|(Hin3 & Hen & _)].
      - rewrite Hin3, Hsm, Hen. reflexivity.
      - rewrite Hin3, Hen. reflexivity. }
    exists s2. split.
    + rewrite Ht2, Hagree. destruct (initialized (init_task w s1)); reflexivity.
    + rewrite Hm2, Hagree. destruct (initialized (init_task w s1)); reflexivity.
Qed.

Lemma toggle_sentiment_matching_flips_witness :
  exists s1 s2 s3,
    toggle_sentiment_matching core_new = Ok (s1, false) /\
    settings_enabled (sentiment_matching s1) = false /\
    persisted s1 /\
    toggle_sentiment_matching s1 = Ok (s2, true) /\
    initialized (init_task world_dropping s2) = false /\
    toggle_sentiment_matching (init_task world_dropping s2) = Ok (s3, true) /\
    settings_enabled (sentiment_matching s3) = true.
Proof.
  destruct (toggle_sentiment_matching_flips world_dropping core_new) as [_ H].
  destruct (H settings_on_record eq_refl eq_refl) as (s1 & Ht & Hm & Hp & Hin & Hi & _).
  destruct (toggle_sentiment_matching_flips world_dropping s1) as [_ H'].
  destruct (H' _ Hi Hm) as (s2 & Ht2 & _ & _ & _ & _ & _ & _ & _ & _ & Hthread).
  assert (Hstart : negb (settings_enabled
                           (Some (mkSentimentSettings
                                    (Some (negb (settings_enabled (Some settings_on_record))))
                                    (ai_model settings_on_record)
                                    (model_configs settings_on_record))))
                   && negb (initialized s1) = true).
  { rewrite Hin. reflexivity. }
  destruct (Hthread Hstart) as [_ (s3 & Ht3 & Hen3)].
  rewrite Hstart in Ht2.
  assert (Hfailed : initialized (init_task world_dropping s2) = false).
  { pose proof Ht as E1. vm_compute in E1. injection E1 as E1. subst s1.
    pose proof Ht2 as E2. vm_compute in E2. injection E2 as E2. subst s2.
    vm_compute. reflexivity. }
  rewrite Hfailed in Ht3, Hen3.
  exists s1, s2, s3. split; [exact Ht|]. split; [rewrite Hm; reflexivity|].
  split; [exact Hp|]. split; [exact Ht2|]. split; [exact Hfailed|].
  split; [exact Ht3|exact Hen3].
Defined.

(** The two situations in which the configuration check finds nothing to
    do. *)
Lemma reinitialize_noop (s : State) :
  (settings_enabled (sentiment_matching s) = false /\ initialized s = false) \/
  (settings_enabled (sentiment_matching s) = true /\
   current_config s
   = Some (default "ollama" (m ← sentiment_matching s; ai_model m),
           default (Sentiment.mkClientConfig None None None)
             (m ← sentiment_matching s;
              model_configs m
                !! default "ollama" (m ← sentiment_matching s; ai_model m)))) ->
  _reinitialize_sentiment_analyzer_if_needed s = (s, false).
Proof.
  unfold _reinitialize_sentiment_analyzer_if_needed.
  intros [[-> ->]|[-> Hc]]; cbn [negb]; [reflexivity|].
  rewrite bool_decide_eq_false_2 by (intros H; apply H; symmetry; exact Hc).
  reflexivity.
Qed.

(** X14: the configuration check is idempotent: run twice in a row, the
    second run changes nothing and starts nothing.  And once the
    initialization it may have started has run, the check finds nothing to
    do either: an unchanged configuration is not initialized again, and
    after a failed initialization the feature is off with the flag
    already reset. *)
Theorem reinitialize_only_on_change (w : World) (s : State) :
  _reinitialize_sentiment_analyzer_if_needed
    (_reinitialize_sentiment_analyzer_if_needed s).1
  = ((_reinitialize_sentiment_analyzer_if_needed s).1, false) /\
  _reinitialize_sentiment_analyzer_if_needed (init_task w s)
  = (init_task w s, false).
Proof.
  split.
  - apply reinitialize_noop.
    unfold _reinitialize_sentiment_analyzer_if_needed.
    destruct (settings_enabled (sentiment_matching s)) eqn:Hen; cbn [negb].
    + right. case_bool_decide as Hne; cbn [fst].
      * cbn. rewrite Hen. split; reflexivity.
      * rewrite Hen. split; [reflexivity|]. symmetry. exact Hne.
    + left. destruct (initialized s) eqn:Hin; cbn [fst].
      * cbn. rewrite Hen. split; reflexivity.
      * rewrite Hen, Hin. split; reflexivity.
  - apply reinitialize_noop.
    destruct (init_task_fields w s) as [_ [(Hi & Hen & Hm & _ & Hc)|(Hi & Hen & _)]].
    + right. rewrite Hm. split; [exact Hen|exact Hc].
    + left. split; assumption.
Qed.

(** X15: an initialization attempt always ends with the [initializing]
    flag down, and with the analyzer marked initialized exactly when
    sentiment matching is (still) enabled in the settings. *)
Theorem init_task_flags_agree (w : World) (s : State) :
  initializing (init_task w s) = false /\
  initialized (init_task w s) = settings_enabled (sentiment_matching (init_task w s)).
Proof.
  destruct (init_task_fields w s) as [Hg [(Hi & Hen & Hm & _)|(Hi & Hen & _)]].
  - split; [exact Hg|]. rewrite Hi, Hm, Hen. reflexivity.
  - split; [exact Hg|]. rewrite Hi, Hen. reflexivity.
Qed.

(** X16: once the settings in memory are the ones on disk, they stay so:
    every operation of the core that changes the sentiment settings writes
    them out before it returns. *)
Theorem sentiment_settings_stay_persisted (w : World) (s : State) :
  persisted s ->
  persisted (init_task w s) /\
  persisted (_reinitialize_sentiment_analyzer_if_needed s).1 /\
  persisted (generate_image w s).2 /\
  (forall s' started, toggle_sentiment_matching s = Ok (s', started) -> persisted s').
Proof.
  unfold persisted. intros Hp. split; [|split; [|split]].
  - destruct (init_task_fields w s) as [_ [(_ & _ & Hm & Hsv & _)|(_ & _ & H)]].
    + congruence.
    + destruct H as [H|[Hm Hsv]]; [exact H|congruence].
  - unfold _reinitialize_sentiment_analyzer_if_needed.
    destruct (negb (settings_enabled (sentiment_matching s))).
    + destruct (initialized s); exact Hp.
    + case_bool_decide; exact Hp.
  - pose proof (PipelineFacts.generate_image_run w s)
      as (msg & new & _ & _ & _ & _ & Hs & _).
    unfold settings_of in Hs. injection Hs as _ _ _ Hm Hsv. congruence.
  - intros s' started. unfold toggle_sentiment_matching.
    destruct (initializing s); [intros [= <- _]; exact Hp|].
    destruct (settings_enabled (sentiment_matching s)); cbn [negb].
    + destruct (sentiment_matching s) as [m|]; [|discriminate].
      intros [= <- _]. reflexivity.
    + destruct (sentiment_matching s) as [m|]; [|discriminate].
      cbn [save_gui_settings set_sentiment_matching emit initialized].
      destruct (initialized s); cbn [negb]; intros [= <- _]; reflexivity.
Qed.

Lemma sentiment_settings_stay_persisted_witness :
  persisted (init_task world_dropping core_new) /\
  settings_enabled (sentiment_matching (init_task world_dropping core_new)) = false.
Proof.
  destruct (sentiment_settings_stay_persisted world_dropping core_new eq_refl)
    as [H _].
  split; [exact H|vm_compute; reflexivity].
Defined.

End ControlFacts.

(** ** The preview *)

Module PreviewFacts.
Import Py Core Preview MoreSamples.

Lemma placement_scale (w : World) (character_name : string) (emotion_index : Z) :
  (placement w character_name emotion_index).1.1
  = default 1%float (p ← mahoshojo w !! character_name; scale p).
Proof.
  unfold placement.
  destruct (default [0%float; 0%float] (mahoshojo w !! character_name ≫= offset))
    as [|o0 [|o1 rest]]; reflexivity.
Qed.

Lemma randint_range (w : World) (draws : nat) (a b idx : Z) :
  randint w draws a b = Went idx -> a <= idx <= b.
Proof.
  unfold randint. destruct (Z.ltb_spec b a) as [Hlt|Hle]; [discriminate|].
  intros [= <-].
  assert (Hpos : (Z.to_nat (b - a + 1) <> 0)%nat) by lia.
  pose proof (Nat.mod_upper_bound (random w draws) _ Hpos). lia.
Qed.

Lemma choice_in {A} (w : World) (draws : nat) (first : A) (rest : list A) :
  choice w draws first rest ∈ first :: rest.
Proof.
  unfold choice. apply list_elem_of_In, nth_In, Nat.mod_upper_bound. cbn. lia.
Qed.

Lemma pick_emotion_range (w : World) (draws : nat) (name : string) (c : Layer)
      (idx : Z) :
  pick_emotion w draws name c = Went idx ->
  match get_filtered_emotions w name (default "全部" (emotion_filter (base c))) with
  | [] => 1 <= idx <= default 1 (p ← mahoshojo w !! name;
                                 Config.emotion_count (character p))
  | filtered_emotions => idx ∈ filtered_emotions
  end.
Proof.
  unfold pick_emotion.
  destruct (get_filtered_emotions w name _) as [|first rest].
  - apply randint_range.
  - intros [= <-]. apply choice_in.
Qed.

(** What one round does: it leaves a disabled or cached component alone,
    adding at most a placeholder, or it writes the component back and hands
    it to the renderer. *)
Lemma step_went (w : World) (use_cache : bool) (i : nat) (c : Layer) (lp lp' : Loop) :
  step w use_cache i c lp = Went lp' ->
  layer_cache (state lp') = layer_cache (state lp) /\
  ((components (state lp') = components (state lp) /\
    (default true (enabled (base c)) = false \/ cached use_cache c = true) /\
    ((cp_components lp' = cp_components lp /\
      compress_layer lp' = compress_layer lp) \/
     (compress_layer lp = false /\
      cp_components lp' = cp_components lp ++ [UseCache] /\
      compress_layer lp' = true))) \/
   (exists c',
      components (state lp') = <[i := c']> (components (state lp)) /\
      cp_components lp' = cp_components lp ++ [Comp c'] /\
      default true (enabled (base c)) = true /\
      cached use_cache c = false /\
      touched w c c')).
Proof.
  unfold step.
  destruct (default true (enabled (base c))) eqn:Hen; cbn [negb].
  2:{ intros [= <-]. split; [reflexivity|]. left. auto. }
  destruct (cached use_cache c) eqn:Hca.
  { destruct (compress_layer lp) eqn:Hcl; cbn [negb]; intros [= <-];
      (split; [reflexivity|]); left; cbn; auto 10. }
  assert (Hother : forall c' : Layer,
            same_settings c c' -> base c' = base c ->
            type (base c) <> Some "character" -> touched w c c').
  { intros c' Hs Hb Hty. split; [exact Hs|]. split; [intros; contradiction|auto]. }
  assert (Hsame : same_settings c c) by (repeat split).
  case_bool_decide as Hnb.
  { unfold namebox.
    assert (Hty : type (base c) <> Some "character") by (rewrite Hnb; discriminate).
    destruct (mahoshojo w !! _get_current_character_from_layers w) as [p|].
    - destruct (text p) as [t|]; [|discriminate].
      intros [= <-]. split; [reflexivity|]. right. eexists.
      split; [reflexivity|]. split; [reflexivity|]. do 2 (split; [reflexivity|]).
      apply Hother; [repeat split|reflexivity|exact Hty].
    - intros [= <-]. split; [reflexivity|]. right. eexists.
      split; [reflexivity|]. split; [reflexivity|]. do 2 (split; [reflexivity|]).
      apply Hother; [exact Hsame|reflexivity|exact Hty]. }
  case_bool_decide as Hch.
  { unfold character_layer.
    set (name := default (_get_current_character_from_layers w)
                   (character_name (base c))).
    assert (Hfin : forall (idx : Z) (c1 : Layer) (lp1 : Loop),
              same_settings c c1 ->
              emotion_choice w c c1 ->
              layer_cache (state lp1) = layer_cache (state lp) ->
              components (state lp1) = components (state lp) ->
              cp_components lp1 = cp_components lp ->
              Went (let '(scale, offset_x, offset_y) := placement w name idx in
                    put i (set_placement scale offset_x offset_y c1) lp1) = Went lp' ->
              layer_cache (state lp') = layer_cache (state lp) /\
              ((components (state lp') = components (state lp) /\
                (true = false \/ false = true) /\
                ((cp_components lp' = cp_components lp /\
                  compress_layer lp' = compress_layer lp) \/
                 (compress_layer lp = false /\
                  cp_components lp' = cp_components lp ++ [UseCache] /\
                  compress_layer lp' = true))) \/
               (exists c',
                  components (state lp') = <[i := c']> (components (state lp)) /\
                  cp_components lp' = cp_components lp ++ [Comp c'] /\
                  true = true /\ false = false /\ touched w c c'))).
    { intros idx c1 lp1 Hs1 He1 Hl1 Hc1 Hcp1.
      pose proof (placement_scale w name idx) as Hsc.
      destruct (placement w name idx) as [[sc ox] oy]. cbn [fst] in Hsc.
      intros [= <-]. cbn [put state layer_cache components cp_components].
      split; [exact Hl1|]. right.
      exists (set_placement sc ox oy c1).
      rewrite Hc1, Hcp1. do 4 (split; [reflexivity|]).
      split; [exact Hs1|]. split; [|intros; contradiction].
      intros _. split; [exact He1|]. cbn [set_placement scale1]. rewrite Hsc.
      reflexivity. }
    destruct (default false (force_use (base c))) eqn:Hforce.
    - destruct (emotion_index (base c)) as [idx|] eqn:Hidx.
      + apply Hfin; try reflexivity; [repeat split|].
        unfold emotion_choice, forced. rewrite Hforce, Hidx. split; reflexivity.
      + destruct (default false (use_fixed_character c)) eqn:Hufc.
        * pose proof (pick_emotion_range w (draws (state lp)) name c) as Hpick.
          destruct (pick_emotion w (draws (state lp)) name c) as [idx|e];
            [|discriminate].
          apply Hfin; try reflexivity; [repeat split|].
          unfold emotion_choice, forced. rewrite Hforce, Hufc, Hidx.
          split; [reflexivity|]. exists idx. split; [reflexivity|].
          apply Hpick. reflexivity.
        * pose proof (pick_emotion_range w (draws (state lp)) name c) as Hpick.
          destruct (pick_emotion w (draws (state lp)) name c) as [idx|e];
            [|discriminate].
          apply Hfin; try reflexivity; [repeat split|].
          unfold emotion_choice, forced. rewrite Hforce, Hufc, Hidx.
          split; [reflexivity|]. exists idx. split; [reflexivity|].
          apply Hpick. reflexivity.
    - destruct (default false (use_fixed_character c)) eqn:Hufc.
      + destruct (emotion_index (base c)) as [idx|] eqn:Hidx.
        * apply Hfin; try reflexivity; [repeat split|].
          unfold emotion_choice, forced. rewrite Hforce, Hufc, Hidx.
          split; reflexivity.
        * pose proof (pick_emotion_range w (draws (state lp)) name c) as Hpick.
          destruct (pick_emotion w (draws (state lp)) name c) as [idx|e];
            [|discriminate].
          apply Hfin; try reflexivity; [repeat split|].
          unfold emotion_choice, forced. rewrite Hforce, Hufc, Hidx.
          split; [reflexivity|]. exists idx. split; [reflexivity|].
          apply Hpick. reflexivity.
      + pose proof (pick_emotion_range w (draws (state lp)) name c) as Hpick.
        destruct (pick_emotion w (draws (state lp)) name c) as [idx|e];
          [|destruct (emotion_index (base c)); discriminate].
        assert (Hgoal : emotion_choice w c
                  (set_emotion (Some name) idx false c)).
        { unfold emotion_choice, forced. rewrite Hforce, Hufc.
          split; [reflexivity|]. exists idx. split; [reflexivity|].
          apply Hpick. reflexivity. }
        destruct (emotion_index (base c));
          (apply Hfin; try reflexivity; [repeat split|exact Hgoal]). }
  assert (Hty : type (base c) <> Some "character") by exact Hch.
  case_bool_decide as Hbg.
  { unfold background_layer.
    destruct (default false (use_fixed_background c) && nonempty (default "" (overlay c))).
    - destruct (startswith (default "" (overlay c)) "#"); intros [= <-];
        (split; [reflexivity|]); right; eexists;
        (split; [reflexivity|]); (split; [reflexivity|]);
        do 2 (split; [reflexivity|]);
        (apply Hother; [repeat split|reflexivity|exact Hty]).
    - destruct (0 <? background_count w).
      + destruct (background_list w) as [|first rest]; [discriminate|].
        intros [= <-]. split; [reflexivity|]. right. eexists.
        split; [reflexivity|]. split; [reflexivity|]. do 2 (split; [reflexivity|]).
        apply Hother; [repeat split|reflexivity|exact Hty].
      + intros [= <-]. split; [reflexivity|]. right. eexists.
        split; [reflexivity|]. split; [reflexivity|]. do 2 (split; [reflexivity|]).
        apply Hother; [repeat split|reflexivity|exact Hty]. }
  intros [= <-]. split; [reflexivity|]. right. eexists.
  split; [reflexivity|]. split; [reflexivity|]. do 2 (split; [reflexivity|]).
  apply Hother; [exact Hsame|reflexivity|exact Hty].
Qed.

Lemma shown_same (use_cache : bool) (c c' : Layer) :
  same_settings c c' -> shown use_cache c' = shown use_cache c.
Proof.
  intros (He & Ht & _ & Hc & Hb). unfold shown, cached. rewrite He, Ht, Hc, Hb.
  reflexivity.
Qed.

Lemma round_same (w : World) (use_cache : bool) (c c' : Layer) :
  round w use_cache c c' -> same_settings c c'.
Proof.
  unfold round. destruct (shown use_cache c).
  - intros [H _]. exact H.
  - intros ->. repeat split.
Qed.

Lemma ndp_snoc_comp (cp : list Rendered) (c : Layer) :
  no_double_placeholder cp -> no_double_placeholder (cp ++ [Comp c]).
Proof.
  induction cp as [|[|c0] cp IH]; cbn [app no_double_placeholder]; [auto| |auto].
  destruct cp as [|[|c1] cp']; cbn [app no_double_placeholder] in *; auto.
Qed.

Lemma ndp_snoc_cache (cp : list Rendered) :
  no_double_placeholder cp -> last cp <> Some UseCache ->
  no_double_placeholder (cp ++ [UseCache]).
Proof.
  induction cp as [|[|c0] cp IH]; cbn [app no_double_placeholder]; [auto| |].
  - destruct cp as [|[|c1] cp']; cbn [app no_double_placeholder last] in *.
    + intros _ H. apply H. reflexivity.
    + contradiction.
    + intros H1 H2. apply (IH H1 H2).
  - intros H1 H2. apply IH; [exact H1|].
    destruct cp; [discriminate|exact H2].
Qed.

(** The loop, from any point on: the rounds it completed, the components
    it did not get to, and what the renderer is handed. *)
Lemma loop_spec (w : World) (use_cache : bool) :
  forall todo pre lp r lp',
    components (state lp) = pre ++ todo ->
    loop w use_cache todo (length pre) lp = (r, lp') ->
    layer_cache (state lp') = layer_cache (state lp) /\
    exists done done' rest,
      todo = done ++ rest /\
      components (state lp') = pre ++ done' ++ rest /\
      (r = None -> rest = []) /\
      Forall2 (round w use_cache) done done' /\
      rendered (cp_components lp')
      = rendered (cp_components lp) ++ filter (fun c => shown use_cache c) done'.
Proof.
  induction todo as [|c todo IH]; intros pre lp r lp' Hcs; cbn [loop].
  - intros [= <- <-]. split; [reflexivity|]. exists [], [], [].
    split; [reflexivity|]. split; [exact Hcs|]. split; [reflexivity|].
    split; [constructor|]. cbn. rewrite app_nil_r. reflexivity.
  - destruct (step w use_cache (length pre) c lp) as [lp1|e] eqn:Hstep.
    2:{ intros [= <- <-]. split; [reflexivity|]. exists [], [], (c :: todo).
        split; [reflexivity|]. split; [exact Hcs|]. split; [discriminate|].
        split; [constructor|]. cbn. rewrite app_nil_r. reflexivity. }
    intros Hloop.
    destruct (step_went w use_cache _ c lp lp1 Hstep) as [Hlc Hcase].
    assert (Hnext : exists c',
              components (state lp1) = (pre ++ [c']) ++ todo /\
              round w use_cache c c' /\
              rendered (cp_components lp1)
              = rendered (cp_components lp)
                ++ filter (fun c => shown use_cache c) [c']).
    { destruct Hcase as [(Hc1 & Hwhy & Hcp)|(c' & Hc1 & Hcp & Hen & Hca & Ht)].
      - exists c. split; [rewrite Hc1, Hcs, <- app_assoc; reflexivity|].
        assert (Hsh : shown use_cache c = false).
        { unfold shown. destruct Hwhy as [-> | ->]; [reflexivity|apply andb_false_r]. }
        split; [unfold round; rewrite Hsh; reflexivity|].
        rewrite filter_cons, decide_False by (rewrite Hsh; auto).
        rewrite filter_nil, app_nil_r.
        destruct Hcp as [[-> _]|(_ & -> & _)]; [reflexivity|].
        unfold rendered. rewrite omap_app. cbn. rewrite app_nil_r. reflexivity.
      - exists c'. split.
        { rewrite Hc1, Hcs, insert_app_r_alt by lia.
          rewrite Nat.sub_diag, <- app_assoc. reflexivity. }
        assert (Hsh : shown use_cache c = true).
        { unfold shown. rewrite Hen, Hca. reflexivity. }
        split; [unfold round; rewrite Hsh; exact Ht|].
        rewrite filter_cons, decide_True
          by (rewrite (shown_same _ _ _ (proj1 Ht)), Hsh; exact I).
        rewrite filter_nil, Hcp. unfold rendered. rewrite omap_app. reflexivity. }
    destruct Hnext as (c' & Hc1 & Hround & Hren).
    assert (Hlen : S (length pre) = length (pre ++ [c']))
      by (rewrite length_app; cbn; lia).
    rewrite Hlen in Hloop.
    destruct (IH (pre ++ [c']) lp1 r lp' Hc1 Hloop)
      as (Hlc' & done & done' & rest & Htodo & Hc' & Hr & Hall & Hren').
    split; [congruence|].
    exists (c :: done), (c' :: done'), rest.
    split; [rewrite Htodo; reflexivity|].
    split; [rewrite Hc', <- app_assoc; reflexivity|].
    split; [exact Hr|]. split; [constructor; assumption|].
    rewrite Hren', Hren, <- app_assoc. f_equal.
    rewrite filter_cons, filter_nil. rewrite (filter_cons _ c').
    destruct (decide (shown use_cache c')); reflexivity.
Qed.

(** Between two placeholders the loop always hands over a component. *)
Lemma loop_placeholders (w : World) (use_cache : bool) :
  forall todo i lp r lp',
    loop w use_cache todo i lp = (r, lp') ->
    no_double_placeholder (cp_components lp) ->
    (last (cp_components lp) = Some UseCache -> compress_layer lp = true) ->
    no_double_placeholder (cp_components lp') /\
    (use_cache = false ->
     Forall (fun r => r <> UseCache) (cp_components lp) ->
     Forall (fun r => r <> UseCache) (cp_components lp')).
Proof.
  induction todo as [|c todo IH]; intros i lp r lp'; cbn [loop].
  - intros [= <- <-]. auto.
  - destruct (step w use_cache i c lp) as [lp1|e] eqn:Hstep.
    2:{ intros [= <- <-]. auto. }
    intros Hloop Hndp Hlast.
    destruct (step_went w use_cache _ c lp lp1 Hstep) as [_ Hcase].
    assert (H1 : no_double_placeholder (cp_components lp1) /\
                 (last (cp_components lp1) = Some UseCache ->
                  compress_layer lp1 = true) /\
                 (use_cache = false ->
                  Forall (fun r => r <> UseCache) (cp_components lp) ->
                  Forall (fun r => r <> UseCache) (cp_components lp1))).
    { destruct Hcase as [(_ & Hwhy & Hcp)|(c' & _ & Hcp & _ & _ & _)].
      - destruct Hcp as [[-> ->]|(Hcl & Hcp & Hcl1)].
        + auto.
        + rewrite Hcp, Hcl1.
          split; [apply ndp_snoc_cache; [exact Hndp|]|].
          { intros HL. specialize (Hlast HL). congruence. }
          split; [reflexivity|].
          intros Huc. exfalso. destruct Hwhy as [Hen|Hca].
          * unfold step in Hstep. rewrite Hen in Hstep. cbn [negb] in Hstep.
            injection Hstep as <-.
            apply (f_equal length) in Hcp. rewrite length_app in Hcp. cbn in Hcp. lia.
          * rewrite Huc in Hca. unfold cached in Hca. discriminate.
      - rewrite Hcp. split; [apply ndp_snoc_comp, Hndp|].
        split; [rewrite last_snoc; discriminate|].
        intros _ Hall. apply Forall_app. split; [exact Hall|].
        constructor; [discriminate|constructor]. }
    destruct H1 as (Hndp1 & Hlast1 & Hno1).
    destruct (IH (S i) lp1 r lp' Hloop Hndp1 Hlast1) as [Hres Hno].
    split; [exact Hres|].
    intros Huc Hall. apply Hno; [exact Huc|apply Hno1; assumption].
Qed.

Lemma generate_preview_components (w : World) (s : State) :
  components (generate_preview w s).2
  = components (state (loop w (layer_cache s) (components s) 0 (start s)).2).
Proof.
  unfold generate_preview.
  destruct (components s) as [|c cs] eqn:Hcs; [reflexivity|].
  destruct (loop w (layer_cache s) (c :: cs) 0 (start s)) as [[e|] lp]; [reflexivity|].
  cbn [snd].
  destruct (generate_image_with_dll w _ _) as [[img|]|e]; try reflexivity.
  destruct (LoadUtils.Image_new _ _); reflexivity.
Qed.

Lemma loop_from_start (w : World) (s : State) :
  exists done done' rest,
    components s = done ++ rest /\
    components (generate_preview w s).2 = done' ++ rest /\
    ((loop w (layer_cache s) (components s) 0 (start s)).1 = None -> rest = []) /\
    Forall2 (round w (layer_cache s)) done done' /\
    rendered (cp_components (loop w (layer_cache s) (components s) 0 (start s)).2)
    = filter (fun c => shown (layer_cache s) c) done'.
Proof.
  destruct (loop w (layer_cache s) (components s) 0 (start s)) as [r lp] eqn:Hloop.
  destruct (loop_spec w (layer_cache s) (components s) [] (start s) r lp eq_refl Hloop)
    as (_ & done & done' & rest & Htodo & Hc & Hr & Hall & Hren).
  exists done, done', rest. rewrite generate_preview_components, Hloop.
  cbn [fst snd]. auto.
Qed.

(** X17: whether the preview succeeds or fails half-way, it adds, drops
    and reorders no layer of the configuration; it never changes whether a
    layer is enabled, its type, its emotion filter or its fixed flags; and
    it does not change at all a disabled layer or a layer the layer cache
    stands in for. *)
Theorem preview_keeps_layer_settings (w : World) (s : State) :
  Forall2 (fun c c' => same_settings c c' /\
                       (shown (layer_cache s) c = false -> c' = c))
    (components s) (components (generate_preview w s).2).
Proof.
  destruct (loop_from_start w s) as (done & done' & rest & -> & -> & _ & Hall & _).
  apply Forall2_app.
  - eapply Forall2_impl; [exact Hall|]. intros c c' Hr.
    split; [exact (round_same _ _ _ _ Hr)|].
    intros Hsh. unfold round in Hr. rewrite Hsh in Hr. exact Hr.
  - clear. induction rest; constructor; [|assumption].
    split; [repeat split|reflexivity].
Qed.

(** X18: when the loop over the components raises nothing, every enabled
    character layer that is not taken from the layer cache is handed to
    the renderer with an emotion index chosen as follows: an index forced
    on the layer is used as it is and the mark is removed, so that it is
    used once; else the index of a fixed layer is kept; else the index is
    one of the layer's filtered emotions or, when there is none, one of
    [1 .. emotion_count].  The layer gets the scale of its character, 1.0
    when none is configured. *)
Theorem preview_emotion_of_character_layers (w : World) (s : State) :
  (loop w (layer_cache s) (components s) 0 (start s)).1 = None ->
  forall i c,
    components s !! i = Some c ->
    shown (layer_cache s) c = true ->
    type (base c) = Some "character" ->
    exists c',
      components (generate_preview w s).2 !! i = Some c' /\
      c' ∈ rendered
             (cp_components (loop w (layer_cache s) (components s) 0 (start s)).2) /\
      emotion_choice w c c' /\
      scale1 c'
      = Some (default 1%float
                (p ← mahoshojo w
                     !! default (_get_current_character_from_layers w)
                          (character_name (base c));
                 scale p)).
Proof.
  intros Hok i c Hi Hsh Hty.
  destruct (loop_from_start w s) as (done & done' & rest & Hc & Hc' & Hr & Hall & Hren).
  rewrite (Hr Hok), app_nil_r in Hc, Hc'. rewrite Hc in Hi.
  destruct (Forall2_lookup_l _ _ _ _ _ Hall Hi) as (c' & Hi' & Hround).
  exists c'. rewrite Hc'. split; [exact Hi'|].
  unfold round in Hround. rewrite Hsh in Hround.
  destruct Hround as (Hsame & Hchar & _). destruct (Hchar Hty) as [Hch Hsc].
  split; [|split; assumption].
  rewrite Hren. apply list_elem_of_filter. split.
  - rewrite (shown_same _ _ _ Hsame), Hsh. exact I.
  - apply list_elem_of_lookup. eauto.
Qed.

Lemma preview_emotion_of_character_layers_witness :
  exists c',
    components (generate_preview preview_world preview_state).2 !! 0%nat = Some c' /\
    emotion_index (base c') = Some 3 /\ force_use (base c') = None /\
    scale1 c' = Some 0.5%float.
Proof.
  assert (Hok : (loop preview_world (layer_cache preview_state)
                   (components preview_state) 0 (start preview_state)).1 = None)
    by (vm_compute; reflexivity).
  destruct (preview_emotion_of_character_layers preview_world preview_state Hok
              0%nat forced_layer eq_refl eq_refl eq_refl)
    as (c' & H1 & _ & H3 & H4).
  exists c'. split; [exact H1|]. destruct H3 as [H3 H3']. do 2 (split; [assumption|]).
  exact H4.
Defined.

Lemma no_placeholder_rendered (cp : list Rendered) :
  Forall (fun r => r <> UseCache) cp -> cp = Comp <$> rendered cp.
Proof.
  induction 1 as [|[|c] cp Hne Hall IH]; [reflexivity|congruence|].
  cbn. f_equal. exact IH.
Qed.

(** X19: when the loop raises nothing, the renderer is handed, in the
    order of the configuration and as they are left in it, exactly the
    enabled components that the layer cache does not stand in for, with
    placeholders for the others of which no two follow each other; with
    the layer cache off there is no placeholder, and the renderer gets
    exactly the enabled components. *)
Theorem preview_hands_over_shown_layers (w : World) (s : State) :
  (loop w (layer_cache s) (components s) 0 (start s)).1 = None ->
  let cp := cp_components (loop w (layer_cache s) (components s) 0 (start s)).2 in
  rendered cp
  = filter (fun c => shown (layer_cache s) c) (components (generate_preview w s).2) /\
  no_double_placeholder cp /\
  (layer_cache s = false ->
   cp = Comp <$> filter (fun c => default true (enabled (base c)) = true)
                   (components (generate_preview w s).2)).
Proof.
  intros Hok cp. subst cp.
  destruct (loop_from_start w s) as (done & done' & rest & Hc & Hc' & Hr & Hall & Hren).
  rewrite (Hr Hok), app_nil_r in Hc'.
  destruct (loop w (layer_cache s) (components s) 0 (start s)) as [r lp] eqn:Hloop.
  cbn [snd] in *.
  destruct (loop_placeholders w (layer_cache s) _ _ _ _ _ Hloop I)
    as [Hndp Hno]; [discriminate|].
  split; [rewrite Hren, Hc'; reflexivity|]. split; [exact Hndp|].
  intros Huc. rewrite (no_placeholder_rendered _ (Hno Huc (Forall_nil_2 _))).
  rewrite Hren, Hc', Huc. f_equal.
  apply list_filter_iff. intros c. unfold shown, cached. cbn [andb negb].
  rewrite andb_true_r. destruct (default true (enabled (base c))); split; auto.
Qed.

Lemma preview_hands_over_shown_layers_witness :
  cp_components (loop preview_world (layer_cache preview_state)
                   (components preview_state) 0 (start preview_state)).2
  = Comp <$> filter (fun c => default true (enabled (base c)) = true)
               (components (generate_preview preview_world preview_state).2).
Proof.
  assert (Hok : (loop preview_world (layer_cache preview_state)
                   (components preview_state) 0 (start preview_state)).1 = None)
    by (vm_compute; reflexivity).
  destruct (preview_hands_over_shown_layers preview_world preview_state Hok)
    as (_ & _ & H).
  exact (H eq_refl).
Defined.




End PreviewFacts.

(** ** Paths, loaders and what the caches hold *)

Module LoaderFacts.
Import Py LoadUtils CacheFacts Samples MoreSamples.
Local Open Scope load_scope.

Section Paths.
Variable fs : gmap string File.
Variable get_resource_path : string -> string.
Variable os_path_join : list string -> string.

Abbreviation candidate_ := (candidate get_resource_path os_path_join).
Abbreviation exists_ := (path_exists fs).

Lemma first_existing_spec base_name sub_dir with_ext : forall exts,
  match first_existing fs get_resource_path os_path_join base_name sub_dir with_ext exts with
  | Some p =>
      exists before ext after,
        exts = before ++ ext :: after /\
        exists_ (candidate_ base_name sub_dir ext) = true /\
        (forall ext', ext' ∈ before ->
                      exists_ (candidate_ base_name sub_dir ext') = false) /\
        p = (if with_ext then candidate_ base_name sub_dir ext
             else drop_end (String.length ext) (candidate_ base_name sub_dir ext))
  | None =>
      forall ext, ext ∈ exts -> exists_ (candidate_ base_name sub_dir ext) = false
  end.
Proof.
  induction exts as [|ext exts IH]; cbn [first_existing].
  - intros ext Hin. inversion Hin.
  - destruct (exists_ (candidate_ base_name sub_dir ext)) eqn:Hex.
    + exists [], ext, exts. split; [reflexivity|]. split; [exact Hex|].
      split; [intros ext' Hin; inversion Hin|reflexivity].
    + destruct (first_existing fs get_resource_path os_path_join base_name sub_dir
                  with_ext exts) as [p|].
      * destruct IH as (before & ext0 & after & -> & Hex0 & Hbefore & Hp).
        exists (ext :: before), ext0, after. split; [reflexivity|].
        split; [exact Hex0|]. split; [|exact Hp].
        intros ext' Hin. apply elem_of_cons in Hin as [->|Hin]; auto.
      * intros ext' Hin. apply elem_of_cons in Hin as [->|Hin]; auto.
Qed.

Lemma get_image_path_candidate (base_name sub_dir : string) :
  exists ext,
    ext ∈ supported_formats /\
    get_image_path fs get_resource_path os_path_join base_name sub_dir true
    = candidate_ base_name sub_dir ext.
Proof.
  unfold get_image_path.
  pose proof (first_existing_spec base_name sub_dir true supported_formats) as H.
  destruct (first_existing fs get_resource_path os_path_join base_name sub_dir true
              supported_formats) as [p|].
  - destruct H as (before & ext & after & Heq & _ & _ & ->).
    exists ext. split; [|reflexivity].
    rewrite Heq. apply elem_of_app. right. apply elem_of_cons. auto.
  - exists ".png". split; [apply elem_of_cons; auto|reflexivity].
Qed.

(** X21: [get_image_path] always answers with the path of one of the six
    supported extensions: the first one, in the order png, jpg, jpeg, bmp,
    gif, webp, whose file exists, so that the answer exists whenever a
    file with a supported extension does.  When no such file exists the
    answer is the [.png] path, which then does not exist; and it carries
    the [.png] extension even when the caller asked for a path without
    extension. *)
Theorem get_image_path_first_existing (base_name sub_dir : string) :
  (exists before ext after,
     supported_formats = before ++ ext :: after /\
     get_image_path fs get_resource_path os_path_join base_name sub_dir true
     = candidate_ base_name sub_dir ext /\
     (forall ext', ext' ∈ before ->
                   exists_ (candidate_ base_name sub_dir ext') = false)) /\
  (forall ext, ext ∈ supported_formats ->
               exists_ (candidate_ base_name sub_dir ext) = true ->
               exists_ (get_image_path fs get_resource_path os_path_join
                          base_name sub_dir true) = true) /\
  (forall with_ext,
     (forall ext, ext ∈ supported_formats ->
                  exists_ (candidate_ base_name sub_dir ext) = false) ->
     get_image_path fs get_resource_path os_path_join base_name sub_dir with_ext
     = candidate_ base_name sub_dir ".png").
Proof.
  split; [|split].
  - unfold get_image_path.
    pose proof (first_existing_spec base_name sub_dir true supported_formats) as H.
    destruct (first_existing fs get_resource_path os_path_join base_name sub_dir true
                supported_formats) as [p|].
    + destruct H as (before & ext & after & Heq & _ & Hbefore & ->).
      exists before, ext, after. auto.
    + exists [], ".png", [".jpg"; ".jpeg"; ".bmp"; ".gif"; ".webp"].
      split; [reflexivity|]. split; [reflexivity|]. intros ext' Hin. inversion Hin.
  - intros ext Hin Hex. unfold get_image_path.
    pose proof (first_existing_spec base_name sub_dir true supported_formats) as H.
    destruct (first_existing fs get_resource_path os_path_join base_name sub_dir true
                supported_formats) as [p|].
    + destruct H as (before & ext0 & after & _ & Hex0 & _ & ->). exact Hex0.
    + rewrite (H ext Hin) in Hex. discriminate.
  - intros with_ext Hnone. unfold get_image_path.
    pose proof (first_existing_spec base_name sub_dir with_ext supported_formats) as H.
    destruct (first_existing fs get_resource_path os_path_join base_name sub_dir
                with_ext supported_formats) as [p|]; [|reflexivity].
    destruct H as (before & ext & after & Heq & Hex & _).
    rewrite Hnone in Hex; [discriminate|].
    rewrite Heq. apply elem_of_app. right. apply elem_of_cons. auto.
Qed.

End Paths.

(** Cutting at the last dot removes a supported extension. *)
Lemma before_last_extension (stem ext : string) :
  ext ∈ supported_formats ->
  rsplit1_head "."%char (stem +:+ ext) = stem.
Proof.
  intros Hin. unfold rsplit1_head.
  assert (H : before_last "."%char (stem +:+ ext) = Some stem); [|rewrite H; reflexivity].
  induction stem as [|c stem IH].
  - cbn [String.append].
    repeat (apply elem_of_cons in Hin as [->|Hin]; [reflexivity|]). inversion Hin.
  - change (String c stem +:+ ext) with (String c (stem +:+ ext)).
    cbn [before_last]. rewrite IH. reflexivity.
Qed.

Section Loads.
Variable fs : gmap string File.
Variable get_resource_path : string -> string.
Variable os_path_join : list string -> string.
Variable lanczos : Z * Z -> Image -> Z -> Z -> RGBA.
Variable character_scale : PrimFloat.float.

(** X22: on a host where the path of a character image is a stem followed
    by the extension, the key under which [load_character_safe] caches
    the image is that stem, whichever of the supported extensions the
    file on disk has, and whether or not there is a file. *)
Theorem character_cache_key_ignores_extension (character_name : string)
        (emotion_index : Z) (stem : string) :
  (forall ext, ext ∈ supported_formats ->
     candidate get_resource_path os_path_join
       (character_name +:+ " (" +:+ pretty emotion_index +:+ ")")
       (os_path_join ["chara"; character_name]) ext
     = stem +:+ ext) ->
  key_of fs get_resource_path os_path_join (ReadCharacter character_name emotion_index)
  = stem.
Proof.
  intros Hhost. cbn [key_of]. unfold get_character_path.
  destruct (get_image_path_candidate fs get_resource_path os_path_join
              (character_name +:+ " (" +:+ pretty emotion_index +:+ ")")
              (os_path_join ["chara"; character_name]))
    as (ext & Hin & ->).
  rewrite (Hhost ext Hin). apply before_last_extension, Hin.
Qed.

Lemma c_int_not_missing z e :
  c_int z = Raise e -> is_FileNotFoundError e = false.
Proof.
  unfold c_int.
  destruct (_ || _); [intros [= <-]; reflexivity|].
  destruct (_ <=? z); [intros [= <-]; reflexivity|].
  destruct (z <? _); intros [= <-]; reflexivity.
Qed.

Lemma c_long_long_not_missing z e :
  c_long_long z = Raise e -> is_FileNotFoundError e = false.
Proof. unfold c_long_long. destruct (_ || _); intros [= <-]; reflexivity. Qed.

Lemma getink_not_missing color e :
  getink color = Raise e -> is_FileNotFoundError e = false.
Proof.
  unfold getink.
  destruct color as [|r [|g [|b [|a [|x rest]]]]]; try (intros [= <-]; reflexivity).
  - destruct (c_long_long r) eqn:Hr; [discriminate|].
    intros [= <-]. exact (c_long_long_not_missing _ _ Hr).
  - destruct (c_long_long r) eqn:Hr, (c_int g) eqn:Hg, (c_int b) eqn:Hb;
      try discriminate; intros [= <-];
      eauto using c_long_long_not_missing, c_int_not_missing.
  - destruct (c_long_long r) eqn:Hr, (c_int g) eqn:Hg, (c_int b) eqn:Hb,
      (c_int a) eqn:Ha;
      try discriminate; intros [= <-];
      eauto using c_long_long_not_missing, c_int_not_missing.
Qed.

Lemma Image_new_not_missing size color e :
  Image_new size color = Raise e -> is_FileNotFoundError e = false.
Proof.
  unfold Image_new. destruct ((size.1 <? 0) || (size.2 <? 0)); [intros [= <-]; reflexivity|].
  destruct (c_int size.1) eqn:H1, (c_int size.2) eqn:H2;
    try (intros [= <-]; eauto using c_int_not_missing).
  destruct (getink color) eqn:Hink; [discriminate|].
  intros [= <-]. exact (getink_not_missing _ _ Hink).
Qed.

Lemma int_of_float_not_missing f e :
  int_of_float f = Raise e -> is_FileNotFoundError e = false.
Proof.
  unfold int_of_float. destruct (FloatOps.Prim2SF f); intros [= <-]; reflexivity.
Qed.

Lemma resize_not_missing img size e :
  resize lanczos img size = Raise e -> is_FileNotFoundError e = false.
Proof.
  unfold resize. case_decide; [discriminate|].
  destruct (c_int size.1) eqn:H1, (c_int size.2) eqn:H2;
    try (intros [= <-]; eauto using c_int_not_missing).
  destruct (_ || _); intros [= <-]; reflexivity.
Qed.

Lemma scale_to_width_not_missing target img e :
  scale_to_width lanczos target img = Raise e -> is_FileNotFoundError e = false.
Proof.
  unfold scale_to_width. case_decide; [discriminate|].
  case_decide; [intros [= <-]; reflexivity|].
  destruct (int_of_float _) as [h|e'] eqn:Hi.
  - apply resize_not_missing.
  - intros [= <-]. exact (int_of_float_not_missing _ _ Hi).
Qed.

Lemma apply_scale_not_missing scale img e :
  apply_scale lanczos scale img = Raise e -> is_FileNotFoundError e = false.
Proof.
  unfold apply_scale. destruct (PrimFloat.eqb scale 1); [discriminate|].
  destruct (int_of_float (PrimFloat.mul (float_of_Z (width img)) scale)) as [nw|e1] eqn:H1.
  - destruct (int_of_float (PrimFloat.mul (float_of_Z (height img)) scale))
      as [nh|e2] eqn:H2.
    + apply resize_not_missing.
    + intros [= <-]. exact (int_of_float_not_missing _ _ H2).
  - intros [= <-]. exact (int_of_float_not_missing _ _ H1).
Qed.

Lemma Image_open_convert_existing path e :
  path_exists fs path = true ->
  Image_open_convert fs path = Raise e -> is_FileNotFoundError e = false.
Proof.
  unfold path_exists, Image_open_convert.
  destruct (fs !! path) as [[img| |]|]; try discriminate; intros _ [= <-]; reflexivity.
Qed.

(** X23: the two safe loaders never raise [FileNotFoundError], whatever
    the default size and colour they are given, and when they do raise
    (the file is there but cannot be decoded or scaled, or the default
    image cannot be made) they leave the caches and the heap exactly as
    they were. *)
Theorem safe_loaders_fail_cleanly (default_size : Z * Z) (default_color : list Z)
        (st : Store) :
  (forall character_name emotion_index e st',
     load_character_safe fs get_resource_path os_path_join lanczos character_scale
       character_name emotion_index default_size default_color st = (Raise e, st') ->
     is_FileNotFoundError e = false /\ st' = st) /\
  (forall background_name e st',
     load_background_safe fs get_resource_path os_path_join lanczos
       background_name default_size default_color st = (Raise e, st') ->
     is_FileNotFoundError e = false /\ st' = st).
Proof.
  split.
  - intros character_name emotion_index e st'.
    unfold load_character_safe.
    set (path := get_character_path fs get_resource_path os_path_join
                   character_name emotion_index).
    set (key := rsplit1_head "."%char path).
    assert (Hh : forall e0 : exn,
              (if is_FileNotFoundError e0
               then default_character default_size default_color st
               else (Raise e0, st)) = (Raise e, st') ->
              is_FileNotFoundError e = false /\ st' = st).
    { intros e0. destruct (is_FileNotFoundError e0) eqn:He0.
      - unfold default_character; unfold_monad.
        destruct (Image_new default_size default_color) as [img|e1] eqn:Hn;
          [discriminate|].
        intros [= <- <-]. split; [exact (Image_new_not_missing _ _ _ Hn)|reflexivity].
      - intros [= <- <-]. auto. }
    unfold_monad.
    destruct (_character_cache st !! key) as [m|] eqn:Hc; cbn.
    + rewrite Hc. destruct (heap st !! m) as [[img|f]|]; cbn;
        try discriminate; intros [= <- <-]; auto.
    + destruct (path_exists fs path) eqn:Hex; cbn;
        [|exact (Hh (FileNotFoundError ""))].
      destruct (Image_open_convert fs path) as [img|e1] eqn:Ho; cbn.
      2:{ rewrite (Image_open_convert_existing _ _ Hex Ho). intros [= <- <-].
          split; [exact (Image_open_convert_existing _ _ Hex Ho)|reflexivity]. }
      destruct (apply_scale lanczos character_scale img) as [img'|e1] eqn:Hs; cbn.
      2:{ rewrite (apply_scale_not_missing _ _ _ Hs). intros [= <- <-].
          split; [exact (apply_scale_not_missing _ _ _ Hs)|reflexivity]. }
      rewrite lookup_insert_eq. cbn. rewrite lookup_insert_eq. cbn. discriminate.
  - intros background_name e st'.
    unfold load_background_safe.
    set (key := get_background_path fs get_resource_path os_path_join background_name).
    assert (Hh : forall e0 : exn,
              (if is_FileNotFoundError e0
               then default_background lanczos default_size default_color st
               else (Raise e0, st)) = (Raise e, st') ->
              is_FileNotFoundError e = false /\ st' = st).
    { intros e0. destruct (is_FileNotFoundError e0) eqn:He0.
      - unfold default_background; unfold_monad.
        destruct (Image_new default_size default_color) as [img|e1] eqn:Hn.
        + cbn. destruct (scale_to_width lanczos 2560 img) as [img'|e1] eqn:Hs;
            [discriminate|].
          intros [= <- <-].
          split; [exact (scale_to_width_not_missing _ _ _ Hs)|reflexivity].
        + intros [= <- <-]. split; [exact (Image_new_not_missing _ _ _ Hn)|reflexivity].
      - intros [= <- <-]. auto. }
    unfold_monad.
    destruct (_background_cache st !! key) as [m|] eqn:Hc; cbn.
    + rewrite Hc. destruct (heap st !! m) as [[img|f]|]; cbn;
        try discriminate; intros [= <- <-]; auto.
    + destruct (path_exists fs key) eqn:Hex; cbn;
        [|exact (Hh (FileNotFoundError ""))].
      destruct (Image_open_convert fs key) as [img|e1] eqn:Ho; cbn.
      2:{ rewrite (Image_open_convert_existing _ _ Hex Ho). intros [= <- <-].
          split; [exact (Image_open_convert_existing _ _ Hex Ho)|reflexivity]. }
      destruct (scale_to_width lanczos 2560 img) as [img'|e1] eqn:Hs; cbn.
      2:{ rewrite (scale_to_width_not_missing _ _ _ Hs). intros [= <- <-].
          split; [exact (scale_to_width_not_missing _ _ _ Hs)|reflexivity]. }
      rewrite lookup_insert_eq. cbn. rewrite lookup_insert_eq. cbn. discriminate.
Qed.

End Loads.

Section Fonts.
Variable fs : gmap string File.
Variable get_font_path : string -> string.
Variable system_font : string -> bool.

(** X24: a font whose file is not at its path is never cached.  A size
    that is not positive is refused with [ValueError].  Otherwise, when
    the font is found in the system directories, each call makes a new
    font object and leaves the font partition as it was, so the next call
    makes another one; and when it is not found either, the call raises
    [OSError].  A call that raises changes nothing. *)
Theorem missing_font_file_is_never_cached (font_name : string) (size : Z) (st : Store) :
  path_exists fs (get_font_path font_name) = false ->
  _font_cache st !! font_key font_name size = None ->
  let r := load_font_cached fs get_font_path system_font font_name size st in
  _font_cache r.2 = _font_cache st /\
  (size <= 0 ->
   r = (Raise (ValueError ("font size must be greater than 0, not " +:+ pretty size)),
        st)) /\
  (0 < size -> system_font (get_font_path font_name) = true ->
   r = (Ok (fresh (dom (heap st))),
        set_heap (<[fresh (dom (heap st))
                    := FontObj (mkFont (get_font_path font_name) size)]> (heap st)) st) /\
   exists l2,
     (load_font_cached fs get_font_path system_font font_name size r.2).1 = Ok l2 /\
     l2 <> fresh (dom (heap st))) /\
  (0 < size -> system_font (get_font_path font_name) = false ->
   r = (Raise (OSError "cannot open resource"), st)).
Proof.
  intros Hmiss Hc. cbn zeta.
  assert (Hfs : fs !! get_font_path font_name = None).
  { unfold path_exists in Hmiss. destruct (fs !! get_font_path font_name); congruence. }
  assert (Hcall : forall st0,
            _font_cache st0 !! font_key font_name size = None ->
            load_font_cached fs get_font_path system_font font_name size st0
            = if size <=? 0
              then (Raise (ValueError ("font size must be greater than 0, not "
                                       +:+ pretty size)), st0)
              else if system_font (get_font_path font_name)
              then (Ok (fresh (dom (heap st0))),
                    set_heap (<[fresh (dom (heap st0))
                                := FontObj (mkFont (get_font_path font_name) size)]>
                                (heap st0)) st0)
              else (Raise (OSError "cannot open resource"), st0)).
  { intros st0 Hc0. unfold load_font_cached, font_key in *. unfold_monad.
    rewrite Hc0, Hmiss. unfold truetype. rewrite Hfs.
    destruct (size <=? 0); [reflexivity|].
    destruct (system_font (get_font_path font_name)); reflexivity. }
  rewrite (Hcall st Hc).
  destruct (Z.leb_spec size 0) as [Hle|Hgt].
  { cbn [snd]. split; [reflexivity|]. split; [reflexivity|]. split; intros; lia. }
  destruct (system_font (get_font_path font_name)) eqn:Hsys.
  - cbn [snd]. split; [reflexivity|]. split; [intros; lia|]. split; [|discriminate].
    intros _ _. split; [reflexivity|].
    rewrite Hcall by (rewrite cache_of_set_heap with (p := PFont); exact Hc).
    replace (size <=? 0) with false by (symmetry; apply Z.leb_gt; exact Hgt).
    cbn [fst]. eexists. split; [reflexivity|].
    rewrite heap_set_heap. intros E.
    pose proof (fresh_lookup (<[fresh (dom (heap st))
                                := FontObj (mkFont (get_font_path font_name) size)]>
                                (heap st))) as Hf.
    rewrite E, lookup_insert_eq in Hf. discriminate.
  - cbn [snd]. split; [reflexivity|]. split; [intros; lia|].
    split; [discriminate|]. reflexivity.
Qed.

End Fonts.

Lemma missing_font_file_is_never_cached_witness :
  load_font_cached sample_fs sample_font_path every_system_font "arial" 12 empty_store
  = (Ok (fresh (dom (heap empty_store))),
     set_heap (<[fresh (dom (heap empty_store))
                 := FontObj (mkFont (sample_font_path "arial") 12)]> (heap empty_store))
       empty_store).
Proof.
  destruct (missing_font_file_is_never_cached sample_fs sample_font_path every_system_font
              "arial" 12 empty_store eq_refl eq_refl) as (_ & _ & H & _).
  exact (proj1 (H ltac:(lia) eq_refl)).
Defined.

Lemma get_image_path_first_existing_witness :
  path_exists fs_jpg (get_image_path fs_jpg id sample_join "c1" "background" true)
  = true.
Proof.
  destruct (get_image_path_first_existing fs_jpg id sample_join "c1" "background")
    as (_ & H & _).
  apply (H ".jpg"); [|vm_compute; reflexivity].
  apply elem_of_cons. right. apply elem_of_cons. left. reflexivity.
Defined.

Lemma character_cache_key_ignores_extension_witness :
  key_of fs_jpg id sample_join (ReadCharacter "a" 1) = "assets/chara/a/a (1)".
Proof.
  apply (character_cache_key_ignores_extension fs_jpg id sample_join "a" 1).
  intros ext Hin.
  repeat (apply elem_of_cons in Hin as [->|Hin]; [vm_compute; reflexivity|]).
  inversion Hin.
Defined.

Lemma safe_loaders_fail_cleanly_witness :
  exists e,
    load_character_safe fs_corrupt id sample_join nearest 1%float "a" 1
      character_default_size character_default_color empty_store
    = (Raise e, empty_store) /\
    is_FileNotFoundError e = false.
Proof.
  assert (E : load_character_safe fs_corrupt id sample_join nearest 1%float "a" 1
                character_default_size character_default_color empty_store
              = (Raise (UnidentifiedImageError "assets/chara/a/a (1).png"), empty_store))
    by (vm_compute; reflexivity).
  destruct (safe_loaders_fail_cleanly fs_corrupt id sample_join nearest 1%float
              character_default_size character_default_color empty_store) as [H _].
  destruct (H "a" 1 _ _ E) as [Hn _].
  eexists. split; [exact E|exact Hn].
Defined.

End LoaderFacts.

(** ** The caches over any sequence of calls *)

Module HistoryFacts.
Import Py LoadUtils CacheOps CacheFacts Samples MoreSamples.
Local Open Scope load_scope.

Lemma typed_empty : typed empty_store.
Proof. intros [] k l; cbn; rewrite lookup_empty; discriminate. Qed.

Lemma typed_weaken (st st' : Store) (q : Partition) (m : positive) :
  heap st ⊆ heap st' ->
  match q with
  | PFont => exists f, heap st !! m = Some (FontObj f)
  | _ => exists img, heap st !! m = Some (ImgObj img)
  end ->
  match q with
  | PFont => exists f, heap st' !! m = Some (FontObj f)
  | _ => exists img, heap st' !! m = Some (ImgObj img)
  end.
Proof.
  intros Hsub. destruct q; intros [o Ho]; exists o; eapply lookup_weaken; eassumption.
Qed.

Lemma typed_live (st : Store) (q : Partition) (m : positive) :
  match q with
  | PFont => exists f, heap st !! m = Some (FontObj f)
  | _ => exists img, heap st !! m = Some (ImgObj img)
  end ->
  heap st !! m <> None.
Proof. destruct q; intros [o Ho]; congruence. Qed.

Lemma typed_image_get p key st r st' :
  image_get p key st r st' -> p <> PFont -> typed st -> typed st'.
Proof.
  intros Hget Hp Ht q k m Hm.
  destruct (image_get_master Hget q k m Hm) as [Hold|Hnew].
  { apply (typed_weaken st); [apply (image_get_heap Hget)|apply (Ht q k m Hold)]. }
  assert (Hsame : cache_of q st !! k = Some m -> False).
  { intros Hc. exact (typed_live st q m (Ht q k m Hc) Hnew). }
  destruct Hget; rewrite ?cache_of_set_heap in Hm; try (exfalso; exact (Hsame Hm)).
  rewrite cache_of_set_cache_of in Hm. case_decide as E; [subst q|exfalso; exact (Hsame Hm)].
  rewrite lookup_insert in Hm. case_decide as E'; [|exfalso; exact (Hsame Hm)].
  injection Hm as <-. rewrite heap_set_heap.
  assert (Hl : <[fresh (dom (<[fresh (dom (heap st)) := ImgObj img]> (heap st)))
                  := ImgObj img]>
                 (<[fresh (dom (heap st)) := ImgObj img]> (heap st))
               !! fresh (dom (heap st)) = Some (ImgObj img)).
  { destruct (decide (fresh (dom (<[fresh (dom (heap st)) := ImgObj img]> (heap st)))
                      = fresh (dom (heap st)))) as [->|Hne].
    - rewrite lookup_insert_eq. reflexivity.
    - rewrite lookup_insert_ne by exact Hne. rewrite lookup_insert_eq. reflexivity. }
  destruct p; [contradiction|eauto..].
Qed.

Lemma typed_clear_cache cache_type st : typed st -> typed (clear_cache cache_type st).
Proof.
  intros Ht q k l Hl.
  assert (Hh : heap (clear_cache cache_type st) = heap st).
  { unfold clear_cache. repeat case_bool_decide; reflexivity. }
  rewrite Hh. apply (Ht q k l).
  revert Hl. unfold clear_cache.
  repeat case_bool_decide; destruct q; cbn;
    rewrite ?lookup_empty; (discriminate || trivial).
Qed.

Lemma typed_load_font_cached fs get_font_path system_font font_name size st :
  typed st -> typed (load_font_cached fs get_font_path system_font font_name size st).2.
Proof.
  intros Ht. unfold load_font_cached. unfold_monad.
  assert (Halloc : forall o, typed (set_heap (<[fresh (dom (heap st)) := o]> (heap st)) st)).
  { intros o q k m Hm. rewrite cache_of_set_heap in Hm.
    apply (typed_weaken st (set_heap (<[fresh (dom (heap st)) := o]> (heap st)) st) q m);
      [|apply (Ht q k m Hm)].
    rewrite heap_set_heap. apply insert_subseteq, fresh_lookup. }
  destruct (_font_cache st !! (font_name +:+ "_" +:+ pretty size)) as [m|] eqn:Hc.
  - exact Ht.
  - destruct (path_exists fs (get_font_path font_name)).
    + destruct (truetype fs system_font (get_font_path font_name) size) as [f|e]; cbn.
      * rewrite lookup_insert_eq. cbn.
        intros q k m Hm.
        assert (Hold : forall q' k', cache_of q' st !! k' = Some m ->
                  match q' with
                  | PFont => exists f0, <[fresh (dom (heap st)) := FontObj f]> (heap st) !! m
                                        = Some (FontObj f0)
                  | _ => exists img, <[fresh (dom (heap st)) := FontObj f]> (heap st) !! m
                                     = Some (ImgObj img)
                  end).
        { intros q' k' Hm'. apply (Halloc (FontObj f) q' k' m).
          rewrite cache_of_set_heap. exact Hm'. }
        destruct q; cbn in Hm;
          [|exact (Hold PBackground k Hm)|exact (Hold PCharacter k Hm)
           |exact (Hold PGeneral k Hm)].
        rewrite lookup_insert in Hm. case_decide.
        -- injection Hm as <-. cbn. rewrite lookup_insert_eq. eauto.
        -- exact (Hold PFont k Hm).
      * exact Ht.
    + destruct (truetype fs system_font (get_font_path font_name) size) as [f|e]; cbn.
      * apply Halloc.
      * exact Ht.
Qed.

Section History.
Variable get_resource_path : string -> string.
Variable get_font_path : string -> string.
Variable os_path_join : list string -> string.
Variable system_font : string -> bool.
Variable lanczos : Z * Z -> Image -> Z -> Z -> RGBA.

Lemma typed_call (c : Call) (st : Store) :
  typed st ->
  typed (call get_resource_path get_font_path os_path_join system_font lanczos c st).
Proof.
  intros Ht. destruct c as [fs character_scale r|fs font_name size|cache_type];
    cbn [call].
  - eapply typed_image_get; [apply read_get| |exact Ht]. destruct r; discriminate.
  - apply typed_load_font_cached, Ht.
  - apply typed_clear_cache, Ht.
Qed.

Lemma typed_after (calls : list Call) :
  typed (after get_resource_path get_font_path os_path_join system_font lanczos calls).
Proof.
  unfold after. generalize typed_empty. generalize empty_store.
  induction calls as [|c calls IH]; intros st Ht; cbn [foldl]; [exact Ht|].
  apply IH, typed_call, Ht.
Qed.

(** A read of a cached key hands out a copy of the cached image. *)
Lemma read_hit fs character_scale (r : ImageRead) st m img :
  cache_of (partition_of r) st !! key_of fs get_resource_path os_path_join r = Some m ->
  heap st !! m = Some (ImgObj img) ->
  read fs get_resource_path os_path_join lanczos character_scale r st
  = (Ok (fresh (dom (heap st))),
     set_heap (<[fresh (dom (heap st)) := ImgObj img]> (heap st)) st).
Proof.
  destruct r as [image_path|background_name|character_name emotion_index];
    cbn [partition_of key_of cache_of read]; intros Hc Hm.
  - unfold load_image_cached; unfold_monad. rewrite Hc. cbn. rewrite Hc, Hm. reflexivity.
  - unfold load_background_safe; unfold_monad. rewrite Hc. cbn. rewrite Hc, Hm.
    reflexivity.
  - unfold load_character_safe; unfold_monad. rewrite Hc. cbn. rewrite Hc, Hm.
    reflexivity.
Qed.

(** X25: after any sequence of loader and [clear_cache] calls, starting
    with empty caches and with the files and the character scale changing
    freely in between, every entry of an image partition refers to a live
    image and every entry of the font partition to a live font.  So a read
    of a key that is cached never fails: it hands out a new copy of the
    cached image, whatever the file holds by now and whatever the scale
    is by now; and a cached font is handed out as it is. *)
Theorem cached_entries_are_served (calls : list Call) :
  let st := after get_resource_path get_font_path os_path_join system_font lanczos
              calls in
  typed st /\
  (forall fs character_scale (r : ImageRead) m,
     cache_of (partition_of r) st !! key_of fs get_resource_path os_path_join r
     = Some m ->
     exists img,
       heap st !! m = Some (ImgObj img) /\
       read fs get_resource_path os_path_join lanczos character_scale r st
       = (Ok (fresh (dom (heap st))),
          set_heap (<[fresh (dom (heap st)) := ImgObj img]> (heap st)) st)) /\
  (forall fs font_name size m,
     _font_cache st !! font_key font_name size = Some m ->
     (exists f, heap st !! m = Some (FontObj f)) /\
     load_font_cached fs get_font_path system_font font_name size st = (Ok m, st)).
Proof.
  cbn zeta. pose proof (typed_after calls) as Ht.
  split; [exact Ht|]. split.
  - intros fs character_scale r m Hc.
    assert (Himg : exists img,
              heap (after get_resource_path get_font_path os_path_join system_font
                      lanczos calls) !! m = Some (ImgObj img)).
    { pose proof (Ht (partition_of r) _ m Hc) as H. destruct r; exact H. }
    destruct Himg as [img Hm]. exists img. split; [exact Hm|].
    apply (read_hit fs character_scale r _ m img Hc Hm).
  - intros fs font_name size m Hc. split; [exact (Ht PFont _ m Hc)|].
    unfold load_font_cached, font_key in *. unfold_monad. rewrite Hc. reflexivity.
Qed.

End History.

Lemma cached_entries_are_served_witness :
  exists img l st',
    read ∅ id sample_join nearest 2%float (ReadCharacter "a" 1) store_after_one_load
    = (Ok l, st') /\
    heap st' !! l = Some (ImgObj img) /\ width img = 4.
Proof.
  destruct (cached_entries_are_served id sample_font_path sample_join no_system_font
              nearest one_load) as (_ & H & _).
  assert (Hc : cache_of (partition_of (ReadCharacter "a" 1)) store_after_one_load
               !! key_of ∅ id sample_join (ReadCharacter "a" 1) = Some 1%positive)
    by (vm_compute; reflexivity).
  destruct (H ∅ 2%float (ReadCharacter "a" 1) 1%positive Hc) as (img & Hm & Hr).
  assert (Hw : width img = 4).
  { assert (E : heap store_after_one_load !! 1%positive
                = Some (ImgObj (mkImage 4 4 (fun _ _ => (1, 2, 3, 255)))))
      by (vm_compute; reflexivity).
    unfold store_after_one_load in E. rewrite E in Hm. injection Hm as <-. reflexivity. }
  exists img. eexists _, _. split; [exact Hr|]. split; [|exact Hw].
  cbn [heap set_heap]. apply lookup_insert_eq.
Defined.

End HistoryFacts.

(** ** Preloading *)

Module PreloadCompletion.
Import Py LoadUtils CacheOps CacheFacts Samples MoreSamples.
Local Open Scope load_scope.

Section Loads.
Variable fs : gmap string File.
Variable get_resource_path : string -> string.
Variable os_path_join : list string -> string.
Variable lanczos : Z * Z -> Image -> Z -> Z -> RGBA.
Variable character_scale : PrimFloat.float.

Abbreviation load_character_ :=
  (load_character_safe fs get_resource_path os_path_join lanczos character_scale).
Abbreviation load_background_ :=
  (load_background_safe fs get_resource_path os_path_join lanczos).
Abbreviation character_path_ := (get_character_path fs get_resource_path os_path_join).
Abbreviation background_path_ := (get_background_path fs get_resource_path os_path_join).


Lemma load_background_fills background_name default_size default_color st l st' :
  load_background_ background_name default_size default_color st = (Ok l, st') ->
  path_exists fs (background_path_ background_name) = true ->
  is_Some (_background_cache st' !! background_path_ background_name).
Proof.
  unfold load_background_safe.
  set (key := background_path_ background_name).
  intros Hload Hex. revert Hload. unfold_monad.
  destruct (_background_cache st !! key) as [m|] eqn:Hc; cbn.
  - rewrite Hc. destruct (heap st !! m) as [[img|f]|]; cbn; try discriminate.
    intros [= _ <-]. cbn. rewrite Hc. eauto.
  - rewrite Hex. cbn.
    destruct (Image_open_convert fs key) as [img|e] eqn:Ho; cbn.
    2:{ rewrite (LoaderFacts.Image_open_convert_existing fs _ _ Hex Ho). discriminate. }
    destruct (scale_to_width lanczos 2560 img) as [img'|e] eqn:Hs; cbn.
    2:{ rewrite (LoaderFacts.scale_to_width_not_missing _ _ _ _ Hs). discriminate. }
    rewrite lookup_insert_eq. cbn. rewrite lookup_insert_eq. cbn.
    intros [= _ <-]. cbn. rewrite lookup_insert_eq. eauto.
Qed.


Lemma load_background_caches background_name st :
  let st' := (load_background_ background_name
                background_default_size background_default_color st).2 in
  _background_cache st ⊆ _background_cache st' /\
  _font_cache st' = _font_cache st /\
  _character_cache st' = _character_cache st /\
  _general_image_cache st' = _general_image_cache st.
Proof.
  cbn zeta.
  pose proof (load_background_safe_get fs get_resource_path os_path_join lanczos
                background_name st) as G.
  cbn zeta in G. split; [exact (image_get_cache G PBackground)|].
  destruct G; repeat split.
Qed.

(** X26: the background preload, run on its own, ends with one of two
    reports.  It touches no partition but the background one, where it
    only adds entries; and when it reports completion, every background
    [c1 .. cN] whose file exists is cached, so that loading it later is
    served from the cache. *)
Theorem background_preload_caches (background_count : Z) (st : Store) :
  let r := preload_task get_resource_path os_path_join lanczos fs background_count st in
  (last r.1 = Some BackgroundsCompleted \/ exists e, last r.1 = Some (BackgroundsFailed e)) /\
  _background_cache st ⊆ _background_cache r.2 /\
  _font_cache r.2 = _font_cache st /\
  _character_cache r.2 = _character_cache st /\
  _general_image_cache r.2 = _general_image_cache st /\
  (last r.1 = Some BackgroundsCompleted ->
   forall background_index,
     1 <= background_index <= background_count ->
     path_exists fs (background_path_ ("c" +:+ pretty background_index)) = true ->
     is_Some (_background_cache r.2
                !! background_path_ ("c" +:+ pretty background_index))).
Proof.
  cbn zeta. unfold preload_task.
  assert (H : forall todo st0 trace,
    let r := preload_backgrounds get_resource_path os_path_join lanczos fs
               background_count todo st0 trace in
    (last r.1 = Some BackgroundsCompleted \/
     exists e, last r.1 = Some (BackgroundsFailed e)) /\
    _background_cache st0 ⊆ _background_cache r.2 /\
    _font_cache r.2 = _font_cache st0 /\
    _character_cache r.2 = _character_cache st0 /\
    _general_image_cache r.2 = _general_image_cache st0 /\
    (last r.1 = Some BackgroundsCompleted ->
     forall background_index,
       background_index ∈ todo ->
       path_exists fs (background_path_ ("c" +:+ pretty background_index)) = true ->
       is_Some (_background_cache r.2
                  !! background_path_ ("c" +:+ pretty background_index)))).
  { induction todo as [|i todo IH]; intros st0 trace; cbn zeta;
      cbn [preload_backgrounds].
    - cbn [fst snd]. rewrite last_snoc. split; [auto|]. split; [reflexivity|].
      do 3 (split; [reflexivity|]). intros _ k Hk. inversion Hk.
    - pose proof (load_background_caches ("c" +:+ pretty i) st0) as Hcaches.
      pose proof (load_background_fills ("c" +:+ pretty i) background_default_size
                    background_default_color st0) as Hfill.
      cbn zeta in Hcaches.
      destruct (load_background_ ("c" +:+ pretty i) background_default_size
                  background_default_color st0) as [[l|e] st1].
      + cbn [snd] in Hcaches. destruct Hcaches as (Hb & Hf & Hc & Hg).
        match goal with
        | |- context [preload_backgrounds _ _ _ _ _ todo st1 ?t] =>
            destruct (IH st1 t) as (Hend & Hb' & Hf' & Hc' & Hg' & Hall)
        end.
        split; [exact Hend|]. split; [etrans; eassumption|].
        do 3 (split; [congruence|]).
        intros Hdone k Hk Hex. apply elem_of_cons in Hk as [->|Hk].
        * eapply lookup_weaken_is_Some; [|exact Hb'].
          apply (Hfill l st1 eq_refl Hex).
        * apply (Hall Hdone k Hk Hex).
      + cbn [fst snd] in *. rewrite last_snoc. destruct Hcaches as (Hb & Hf & Hc & Hg).
        split; [eauto|]. split; [exact Hb|]. do 3 (split; [assumption|]).
        discriminate. }
  destruct (H (seqZ 1 background_count) st [BackgroundsStarted])
    as (Hend & Hb & Hf & Hc & Hg & Hall).
  split; [exact Hend|]. split; [exact Hb|]. do 3 (split; [assumption|]).
  intros Hdone k Hk. apply (Hall Hdone). apply elem_of_seqZ. lia.
Qed.

Section Scheduler.
Variable mahoshojo : gmap string Config.Character.
Variable preload_character : bool.

Abbreviation worker_step_ :=
  (worker_step fs get_resource_path os_path_join lanczos character_scale
     mahoshojo preload_character).
Abbreviation run_ :=
  (run fs get_resource_path os_path_join lanczos character_scale
     mahoshojo preload_character).





(** X28: whatever the interleaving of submissions and worker moves, from
    a manager that was just made, the status stays consistent with the
    worker: it never counts more loaded items than the total; from the
    moment a task is entered it names that task's character and is not
    complete, while the counts are still those of the task before until
    the task has read its emotion count; and inside the loop it shows the
    task's emotion count and counts exactly the images loaded so far. *)
Theorem preload_status_stays_consistent (schedule : list Action) (st : Store) :
  PreloadStatus.status_consistent (run_ schedule (initial_preload st)).
Proof.
  assert (Hstep : forall a p, PreloadStatus.status_consistent p ->
                    PreloadStatus.status_consistent
                      (act fs get_resource_path os_path_join lanczos character_scale
                         mahoshojo preload_character a p)).
  { intros [c|] p [Hb Hw]; cbn [act].
    - unfold submit, preload_character_images_async. cbn [snd].
      split; [exact Hb|]. cbn [worker]. exact Hw.
    - unfold worker_step. unfold PreloadStatus.status_consistent in *.
      unfold PreloadStatus.get_preload_status in *.
      destruct (worker p) as [|c|c n|c i n|c i n|c i n|c] eqn:Hwk.
      + destruct (_task_queue p) as [c|]; [|rewrite Hwk; auto].
        destruct (negb preload_character); cbn; auto.
      + destruct (mahoshojo !! c) as [cfg|]; [|cbn; auto].
        destruct (Config.emotion_count cfg) as [n|]; cbn; auto.
      + destruct Hw as [Hcomplete Hcurrent]. cbn.
        rewrite Hcomplete, Hcurrent. split; [lia|]. split; [reflexivity|lia].
      + destruct Hw as [[= H1 H2 H3 H4] Hi].
        destruct (Z.ltb_spec n i) as [Hlt|Hge]; [cbn; auto|].
        destruct (_task_queue p); cbn; [auto|].
        split; [exact Hb|]. rewrite H1, H2, H3, H4. split; [reflexivity|lia].
      + destruct Hw as [[= H1 H2 H3 H4] Hi].
        destruct (load_character_ c i character_default_size character_default_color
                    (store p)) as [[l|e] st']; cbn.
        * split; [exact Hb|]. rewrite H1, H2, H3, H4. split; [reflexivity|lia].
        * split; [exact Hb|]. split; assumption.
      + destruct Hw as [[= H1 H2 H3 H4] Hi]. cbn.
        rewrite H2, H3, H4. split; [lia|].
        split; [f_equal; f_equal; f_equal; lia|lia].
      + cbn. auto. }
  assert (H0 : PreloadStatus.status_consistent (initial_preload st)).
  { split; [cbn; lia|exact I]. }
  unfold run. revert H0. generalize (initial_preload st).
  induction schedule as [|a schedule IH]; intros p Hp; cbn [foldl]; [exact Hp|].
  apply IH, Hstep, Hp.
Qed.

End Scheduler.

End Loads.

Lemma background_preload_caches_witness :
  is_Some (_background_cache (preload_task id sample_join nearest fs_jpg 2 empty_store).2
             !! "assets/background/c1.jpg").
Proof.
  destruct (background_preload_caches fs_jpg id sample_join nearest 2 empty_store)
    as (_ & _ & _ & _ & _ & H).
  assert (Hdone : list.last (preload_task id sample_join nearest fs_jpg 2 empty_store).1
                  = Some BackgroundsCompleted) by (vm_compute; reflexivity).
  exact (H Hdone 1 ltac:(lia) eq_refl).
Defined.


End PreloadCompletion.
